(** * Sandboxed preview pipeline: run registry, archive validator and
      classifier, worker manager, run orchestration and preview gateway.

    A shallow embedding of the JavaScript services
    ([run-store.js], [worker-manager.js], [zip-processor.js]) and routes
    ([runs.js], [preview.js]), followed by the properties the specification
    states about them.

    Conventions.
    - JavaScript strings are modelled by [string]; every separator and
      suffix the code looks for is ASCII, so searching bytes and searching
      UTF-16 code units agree.
    - [Map] objects are [gmap]s, mutable objects shared between holders
      live in an explicit heap, and a function that may [throw] returns a
      [Result].
    - An [async] function is cut at the points where it waits for a timer
      or for I/O; each piece between two such points runs without
      interleaving, as on the Node.js event loop.
    - File paths follow the POSIX flavour of Node's [path] module. *)

From Stdlib Require Import Ascii String ZArith.
From stdpp Require Import gmap strings list fin_maps pretty.

Set Warnings "-register-all".
Open Scope string_scope.

(* ===================================================================== *)
(** * Part I: the embedding                                               *)
(* ===================================================================== *)

(** ** JavaScript values, strings and exceptions *)

Module JS.

(** A thrown [Error]; only its [message] is ever read by the code. *)
Record Error := mkError { message : string }.

Inductive Result (A : Type) :=
| Ok (a : A)
| Throw (e : Error).
Arguments Ok {A} a.
Arguments Throw {A} e.

Definition bind {A B} (r : Result A) (k : A -> Result B) : Result B :=
  match r with
  | Ok a => k a
  | Throw e => Throw e
  end.

Definition isOk {A} (r : Result A) : bool :=
  match r with Ok _ => true | Throw _ => false end.

(** [s.includes(sub)] *)
Fixpoint includes (sub s : string) : bool :=
  String.prefix sub s ||
  match s with
  | EmptyString => false
  | String _ s' => includes sub s'
  end.

(** [s.endsWith(suf)] *)
Definition endsWith (suf s : string) : bool :=
  let n := String.length s in
  let m := String.length suf in
  (m <=? n)%nat && String.eqb (String.substring (n - m) m s) suf.

(** [s.split('/')] *)
Fixpoint split_slash (s : string) : list string :=
  match s with
  | EmptyString => [""]
  | String c s' =>
      if Ascii.eqb c "/"%char then "" :: split_slash s'
      else match split_slash s' with
           | x :: xs => String c x :: xs
           | [] => [String c ""]
           end
  end.

(** [path.isAbsolute(p)] (POSIX): the path starts with a slash. *)
Definition isAbsolute (p : string) : bool := String.prefix "/" p.

Definition upper_ascii (c : ascii) : ascii :=
  let n := nat_of_ascii c in
  if ((97 <=? n) && (n <=? 122))%nat then ascii_of_nat (n - 32) else c.

(** [s.toUpperCase()] on ASCII letters. *)
Fixpoint toUpperCase (s : string) : string :=
  match s with
  | EmptyString => EmptyString
  | String c s' => String (upper_ascii c) (toUpperCase s')
  end.

(** Truthiness of a string, and [a || b] on possibly undefined strings. *)
Definition truthy_str (s : string) : bool := negb (String.eqb s "").

Definition str_or (a : option string) (b : string) : string :=
  match a with
  | Some s => if truthy_str s then s else b
  | None => b
  end.

(** The values [JSON.parse] can produce.  An object is the list of its
    own enumerable properties in enumeration order, keys distinct.  A
    number is kept as an integer: the code only ever tests a number for
    truthiness, where a fraction behaves like any non-zero integer. *)
Inductive JValue :=
| JNull
| JBool (b : bool)
| JNum (n : Z)
| JStr (s : string)
| JArr (l : list JValue)
| JObj (fields : list (string * JValue)).

Definition truthy (v : JValue) : bool :=
  match v with
  | JNull => false
  | JBool b => b
  | JNum n => negb (n =? 0)%Z
  | JStr s => truthy_str s
  | JArr _ | JObj _ => true
  end.

Definition truthy_opt (v : option JValue) : bool :=
  match v with Some v => truthy v | None => false end.

Fixpoint assoc (k : string) (l : list (string * JValue)) : option JValue :=
  match l with
  | [] => None
  | (k', v) :: l' => if String.eqb k k' then Some v else assoc k l'
  end.

(** [v.k] for a key [k] that no prototype defines (all keys read by the
    classifier are of that kind): [None] is [undefined]; reading a
    property of [null] throws a [TypeError]. *)
Definition getProp (v : JValue) (k : string) : Result (option JValue) :=
  match v with
  | JNull =>
      Throw (mkError ("Cannot read properties of null (reading '" +:+ k +:+ "')"))
  | JObj fields => Ok (assoc k fields)
  | _ => Ok None
  end.

(** [a || b] where [b] is defined. *)
Definition or_else (a : option JValue) (b : JValue) : JValue :=
  match a with
  | Some v => if truthy v then v else b
  | None => b
  end.

Definition index_keys (n : nat) : list string :=
  (fun i : nat => pretty i) <$> seq 0 n.

(** [Object.keys(v)] for a value that is not [null]. *)
Definition keys (v : JValue) : list string :=
  match v with
  | JObj fields => fst <$> fields
  | JArr l => index_keys (length l)
  | JStr s => index_keys (String.length s)
  | _ => []
  end.

End JS.

Export JS.

(** [let! x := e in k] sequences two computations that may throw. *)
Notation "'let!' x ':=' e 'in' k" := (bind e (fun x => k))
  (at level 10, x pattern, e at level 200, k at level 200).

(** ** Configuration ([config/index.js]) *)

Module Config.

Definition upload_tempDir : string := "./temp".
Definition upload_maxFiles : nat := 1000.

Definition csp_strict : string :=
  "default-src 'none'; script-src 'self'; style-src 'self' 'unsafe-inline'; img-src 'self' data:; font-src 'self'; connect-src 'self'; frame-ancestors 'self'; base-uri 'none'; form-action 'self'".

Definition csp_relaxed : string :=
  "default-src 'none'; script-src 'self' 'unsafe-inline'; style-src 'self' 'unsafe-inline'; img-src 'self' data: https:; font-src 'self' data:; connect-src 'self'; frame-ancestors 'self'; base-uri 'none'; form-action 'self'".

End Config.

(** ** Archive validator and project classifier ([zip-processor.js]) *)

Module ZipProcessor.

(** The object returned by classification.  [buildCommand] and
    [startCommand] can be [null] or whatever value the manifest's
    [scripts] hold; a field the object literal does not mention is
    [None]. *)
Record ProjectInfo := mkProjectInfo {
  type : string;
  framework : option string;
  files : list string;
  buildCommand : JValue;
  startCommand : JValue;
  dependencies : option (list string);
  entryPoint : option string;
  extractPath : option string
}.

Definition withExtractPath (p : string) (i : ProjectInfo) : ProjectInfo :=
  mkProjectInfo (type i) (framework i) (files i) (buildCommand i)
    (startCommand i) (dependencies i) (entryPoint i) (Some p).

(** *** The file system below the upload directory *)

(** A directory entry as [fs.readdir(..., {withFileTypes: true})] shows
    it.  A file whose content is [None] cannot be read. *)
Inductive Dirent :=
| File (name : string) (content : option string)
| Directory (name : string) (children : list Dirent).

Definition dname (d : Dirent) : string :=
  match d with File n _ => n | Directory n _ => n end.

(** Directories by path; a path that is not a key does not exist. *)
Abbreviation FS := (gmap string (list Dirent)).

Inductive FsOp :=
| OpMkdir (p : string)
| OpExtractAll (p : string)
| OpRm (p : string).

Record ZipEntry := mkZipEntry { entryName : string; data : string }.

(** What the surroundings decide during one call: how the archive and
    the manifest parse, and which file-system calls are refused. *)
Record Env := mkEnv {
  readZip : string -> Result (list ZipEntry);
  JSON_parse : string -> Result JValue;
  mkdir_error : option Error;
  extractAll_error : option (nat * Error);
  rm_error : option Error
}.

(** [this.extractedProjects], the file system, and the file-system calls
    issued so far (latest first). *)
Record State := mkState {
  fs : FS;
  extractedProjects : gmap string ProjectInfo;
  log : list FsOp
}.

Definition has (x : string) (l : list string) : bool :=
  existsb (String.eqb x) l.

(** *** Listing *)

Definition skipped : list string :=
  ["node_modules"; ".git"; "__pycache__"; ".pytest_cache"].

Definition relativePath (prefix name : string) : string :=
  if truthy_str prefix then prefix +:+ "/" +:+ name else name.

Fixpoint direntFiles (prefix : string) (d : Dirent) : list string :=
  match d with
  | File n _ => [relativePath prefix n]
  | Directory n children =>
      if has n skipped then []
      else flat_map (direntFiles (relativePath prefix n)) children
  end.

Definition listFiles (entries : list Dirent) (prefix : string) : list string :=
  flat_map (direntFiles prefix) entries.

(** Every file of a tree, the skipped directories included: the reading of
    "anywhere in the tree" that [listFiles] is compared with. *)
Fixpoint direntAllFiles (prefix : string) (d : Dirent) : list string :=
  match d with
  | File n _ => [relativePath prefix n]
  | Directory n children =>
      flat_map (direntAllFiles (relativePath prefix n)) children
  end.

Definition treeFiles (entries : list Dirent) : list string :=
  flat_map (direntAllFiles "") entries.

Definition getFileList (fs : FS) (dirPath : string) : Result (list string) :=
  match fs !! dirPath with
  | Some entries => Ok (listFiles entries "")
  | None => Throw (mkError ("ENOENT: no such file or directory, scandir '" +:+ dirPath +:+ "'"))
  end.

(** *** Manifest *)

Fixpoint findEntry (name : string) (entries : list Dirent) : option Dirent :=
  match entries with
  | [] => None
  | d :: rest => if String.eqb (dname d) name then Some d else findEntry name rest
  end.

(** [fs.readFile(path.join(dir, name), 'utf-8')] *)
Definition readFile (fs : FS) (dir name : string) : Result string :=
  match fs !! dir with
  | None => Throw (mkError "ENOENT: no such file or directory")
  | Some entries =>
      match findEntry name entries with
      | Some (File _ (Some content)) => Ok content
      | Some (File _ None) => Throw (mkError "EACCES: permission denied")
      | Some (Directory _ _) => Throw (mkError "EISDIR: illegal operation on a directory")
      | None => Throw (mkError "ENOENT: no such file or directory")
      end
  end.

Definition readPackageJson (env : Env) (fs : FS) (dir : string) : JValue :=
  match (let! content := readFile fs dir "package.json" in JSON_parse env content) with
  | Ok v => v
  | Throw _ => JObj []
  end.

(** *** Classification *)

(** The default [= {}] of a destructured property: it stands in for
    [undefined] only, not for [null]. *)
Definition withDefault (o : option JValue) : JValue :=
  match o with Some v => v | None => JObj [] end.

(** [const { scripts = {}, dependencies = {}, devDependencies = {} } = v]:
    the three properties are read in turn, so that [null] throws the
    [TypeError] of the read of [scripts]. *)
Definition destructure (packageInfo : JValue) : Result (JValue * JValue * JValue) :=
  let! scripts := getProp packageInfo "scripts" in
  let! dependencies := getProp packageInfo "dependencies" in
  let! devDependencies := getProp packageInfo "devDependencies" in
  Ok (withDefault scripts, withDefault dependencies, withDefault devDependencies).

(** [a.k || b.k] as a condition: [b.k] is read only when [a.k] is falsy. *)
Definition eitherHas (a b : JValue) (k : string) : Result bool :=
  let! x := getProp a k in
  if truthy_opt x then Ok true
  else let! y := getProp b k in Ok (truthy_opt y).

Definition npmRunBuild (build : option JValue) : JValue :=
  if truthy_opt build then JStr "npm run build" else JNull.

Definition analyzeNodeProject (files : list string) (packageInfo : JValue)
  : Result ProjectInfo :=
  let! (scripts, dependencies, devDependencies) := destructure packageInfo in
  let! react := eitherHas dependencies devDependencies "react" in
  if react then
    let! build := getProp scripts "build" in
    let! start := getProp scripts "start" in
    let! dev := getProp scripts "dev" in
    Ok (mkProjectInfo "react" (Some "React") files (npmRunBuild build)
          (or_else start (or_else dev (JStr "npm start")))
          (Some (keys dependencies)) None None)
  else
  let! vue := eitherHas dependencies devDependencies "vue" in
  if vue then
    let! build := getProp scripts "build" in
    let! serve := getProp scripts "serve" in
    let! dev := getProp scripts "dev" in
    Ok (mkProjectInfo "vue" (Some "Vue.js") files (npmRunBuild build)
          (or_else serve (or_else dev (JStr "npm run serve")))
          (Some (keys dependencies)) None None)
  else
  let! angular := eitherHas dependencies devDependencies "@angular/core" in
  if angular then
    let! build := getProp scripts "build" in
    let! start := getProp scripts "start" in
    Ok (mkProjectInfo "angular" (Some "Angular") files (npmRunBuild build)
          (or_else start (JStr "ng serve"))
          (Some (keys dependencies)) None None)
  else
  let! express := getProp dependencies "express" in
  let! fastify := getProp dependencies "fastify" in
  let! koa := getProp dependencies "koa" in
  if truthy_opt express || truthy_opt fastify || truthy_opt koa then
    let! build := getProp scripts "build" in
    let! start := getProp scripts "start" in
    Ok (mkProjectInfo "node" (Some "Node.js Server") files (or_else build JNull)
          (or_else start (JStr "node index.js"))
          (Some (keys dependencies)) None None)
  else
    let! build := getProp scripts "build" in
    let! start := getProp scripts "start" in
    let! dev := getProp scripts "dev" in
    Ok (mkProjectInfo "node" (Some "Node.js") files (or_else build JNull)
          (or_else start (or_else dev (JStr "node index.js")))
          (Some (keys dependencies)) None None).

Definition analyzePythonProject (files : list string) : ProjectInfo :=
  if existsb (fun f => includes "app.py" f || includes "main.py" f) files then
    mkProjectInfo "python" (Some "Python Web App") files
      (JStr "pip install -r requirements.txt") (JStr "python app.py") None None None
  else
    mkProjectInfo "python" (Some "Python") files
      (JStr "pip install -r requirements.txt") (JStr "python main.py") None None None.

Definition analyzeStaticProject (files : list string) : ProjectInfo :=
  let hasIndex := existsb (endsWith "index.html") files in
  mkProjectInfo "static" (Some "Static HTML") files JNull JNull None
    (if hasIndex then Some "index.html" else List.find (endsWith ".html") files)
    None.

(** [files.filter(f => !f.includes('/'))] *)
Definition rootFilesOf (files : list string) : list string :=
  List.filter (fun f => negb (includes "/" f)) files.

(** The types [analyzeNodeProject] can answer. *)
Definition nodeTypes : list string := ["react"; "vue"; "angular"; "node"].

Definition analyzeProject (env : Env) (fs : FS) (projectPath : string)
  : Result ProjectInfo :=
  let! files := getFileList fs projectPath in
  let rootFiles := rootFilesOf files in
  if has "package.json" rootFiles then
    let packageInfo := readPackageJson env fs projectPath in
    analyzeNodeProject files packageInfo
  else if has "requirements.txt" rootFiles || has "Pipfile" rootFiles then
    Ok (analyzePythonProject files)
  else if has "Dockerfile" rootFiles then
    Ok (mkProjectInfo "docker" None files (JStr "docker build .") (JStr "docker run")
          None None None)
  else if existsb (endsWith ".html") files then
    Ok (analyzeStaticProject files)
  else
    Ok (mkProjectInfo "unknown" None files JNull JNull None None None).

(** *** Extraction *)

(** The deepest nesting [extract] accepts, counted in components. *)
Definition maxDepth : nat := 20.

(** [path.join(config.upload.tempDir, `extracted-${runId}`)]: the join
    normalises ["./temp"] to ["temp"]; run ids hold no separator. *)
Definition extractPathOf (runId : string) : string :=
  "temp/extracted-" +:+ runId.

Definition tooManyFiles (n : nat) : Error :=
  mkError ("ZIP contains too many files (" +:+ pretty n +:+ " > "
           +:+ pretty Config.upload_maxFiles +:+ ")").
Definition unsafePath (name : string) : Error :=
  mkError ("Unsafe file path in ZIP: " +:+ name).
Definition pathTooDeep (name : string) : Error :=
  mkError ("File path too deep: " +:+ name).

(** The errors of the validation, the ones the specification calls
    [UnsafeArchive]. *)
Definition UnsafeArchive (e : Error) : Prop :=
  (exists n, e = tooManyFiles n) \/
  (exists name, e = unsafePath name) \/
  (exists name, e = pathTooDeep name).

(** The test the loop applies to one entry name. *)
Definition offending (name : string) : bool :=
  includes ".." name || isAbsolute name
  || (maxDepth <? length (split_slash name))%nat.

(** The loop over the entries: the first offending entry throws. *)
Fixpoint validateEntries (entries : list ZipEntry) : Result unit :=
  match entries with
  | [] => Ok tt
  | entry :: rest =>
      if includes ".." (entryName entry) || isAbsolute (entryName entry) then
        Throw (unsafePath (entryName entry))
      else
        let depth := length (split_slash (entryName entry)) in
        if (maxDepth <? depth)%nat then Throw (pathTooDeep (entryName entry))
        else validateEntries rest
  end.

Definition logged (op : FsOp) (st : State) : State :=
  mkState (fs st) (extractedProjects st) (op :: log st).

Definition setFs (f : FS) (st : State) : State :=
  mkState f (extractedProjects st) (log st).

(** [fs.mkdir(p, {recursive: true})] *)
Definition mkdir (env : Env) (p : string) (st : State) : Result unit * State :=
  let st := logged (OpMkdir p) st in
  match mkdir_error env with
  | Some e => (Throw e, st)
  | None =>
      match fs st !! p with
      | Some _ => (Ok tt, st)
      | None => (Ok tt, setFs (<[p := []]> (fs st)) st)
      end
  end.

(** [fs.rm(p, {recursive: true, force: true})] *)
Definition rm (env : Env) (p : string) (st : State) : Result unit * State :=
  let st := logged (OpRm p) st in
  match rm_error env with
  | Some e => (Throw e, st)
  | None => (Ok tt, setFs (delete p (fs st)) st)
  end.

(** [adm-zip]'s [extractAllTo(target, true)], as far as the listing sees
    it: every entry is written below the target at its entry name,
    creating the directories on the way and replacing what is there.  A
    directory keeps its entries in the order in which they were first
    written, and that is the order in which [getFileList] lists them;
    [fs.readdir] promises no order, so nothing below is stated about the
    order of a listing after an extraction. *)
Fixpoint upsert (name : string) (f : option Dirent -> Dirent) (tree : list Dirent)
  : list Dirent :=
  match tree with
  | [] => [f None]
  | d :: rest =>
      if String.eqb (dname d) name then f (Some d) :: rest
      else d :: upsert name f rest
  end.

Definition childrenOf (o : option Dirent) : list Dirent :=
  match o with
  | Some (Directory _ children) => children
  | _ => []
  end.

Fixpoint writeAt (segs : list string) (leaf : option string) (tree : list Dirent)
  : list Dirent :=
  match segs with
  | [] => tree
  | n :: rest =>
      match rest with
      | [] =>
          match leaf with
          | Some content => upsert n (fun _ => File n (Some content)) tree
          | None => upsert n (fun o => Directory n (childrenOf o)) tree
          end
      | _ :: _ =>
          upsert n (fun o => Directory n (writeAt rest leaf (childrenOf o))) tree
      end
  end.

Definition segmentsOf (name : string) : list string :=
  List.filter (fun s => negb (String.eqb s "") && negb (String.eqb s "."))
    (split_slash name).

Definition writeEntry (tree : list Dirent) (entry : ZipEntry) : list Dirent :=
  let isDirectory := endsWith "/" (entryName entry) in
  writeAt (segmentsOf (entryName entry))
    (if isDirectory then None else Some (data entry)) tree.

Definition writeEntries (entries : list ZipEntry) (tree : list Dirent) : list Dirent :=
  fold_left writeEntry entries tree.

Definition extractAllTo (env : Env) (entries : list ZipEntry) (p : string) (st : State)
  : Result unit * State :=
  let st := logged (OpExtractAll p) st in
  let tree := default [] (fs st !! p) in
  match extractAll_error env with
  | Some (n, e) =>
      (Throw e, setFs (<[p := writeEntries (take n entries) tree]> (fs st)) st)
  | None =>
      (Ok tt, setFs (<[p := writeEntries entries tree]> (fs st)) st)
  end.

(** The body of the [try] block of [extract]. *)
Definition extractBody (env : Env) (zipPath runId : string) (st : State)
  : Result ProjectInfo * State :=
  let extractPath := extractPathOf runId in
  match readZip env zipPath with
  | Throw e => (Throw e, st)
  | Ok entries =>
      if (Config.upload_maxFiles <? length entries)%nat then
        (Throw (tooManyFiles (length entries)), st)
      else
        match validateEntries entries with
        | Throw e => (Throw e, st)
        | Ok _ =>
            match mkdir env extractPath st with
            | (Throw e, st) => (Throw e, st)
            | (Ok _, st) =>
                match extractAllTo env entries extractPath st with
                | (Throw e, st) => (Throw e, st)
                | (Ok _, st) =>
                    match analyzeProject env (fs st) extractPath with
                    | Throw e => (Throw e, st)
                    | Ok projectInfo =>
                        let projectInfo := withExtractPath extractPath projectInfo in
                        (Ok projectInfo,
                         mkState (fs st)
                           (<[runId := projectInfo]> (extractedProjects st))
                           (log st))
                    end
                end
            end
        end
  end.

(** [extract(zipPath, runId)]: on any error of the body the extraction
    directory is removed, a failure of that removal is only logged, and
    the error of the body is thrown again. *)
Definition extract (env : Env) (zipPath runId : string) (st : State)
  : Result ProjectInfo * State :=
  match extractBody env zipPath runId st with
  | (Ok projectInfo, st) => (Ok projectInfo, st)
  | (Throw error, st) =>
      let '(_, st) := rm env (extractPathOf runId) st in
      (Throw error, st)
  end.

(** [cleanup(runId)] *)
Definition cleanup (env : Env) (runId : string) (st : State) : State :=
  let st :=
    match extractedProjects st !! runId with
    | Some projectInfo =>
        match extractPath projectInfo with
        | Some p => if truthy_str p then snd (rm env p st) else st
        | None => st
        end
    | None => st
    end in
  mkState (fs st) (delete runId (extractedProjects st)) (log st).

End ZipProcessor.

(** ** Run registry ([run-store.js], class [RunStore]) *)

Module RunStore.

(** A run object.  [id], [status] and [createdAt] are set when the run is
    created; every other field may be missing. *)
Record Run := mkRun {
  id : string;
  status : string;
  createdAt : string;
  filePath : option string;
  originalName : option string;
  fileSize : option Z;
  updatedAt : option string;
  projectType : option string;
  projectInfo : option ZipProcessor.ProjectInfo;
  workerId : option string;
  workerPort : option Z;
  previewUrl : option string;
  readyAt : option string;
  error : option string;
  failedAt : option string
}.

(** The partial objects handed to [update]: any of the keys of a run may
    be given; [None] is a key that is not given. *)
Record Updates := mkPartial {
  u_id : option string;
  u_createdAt : option string;
  u_filePath : option string;
  u_originalName : option string;
  u_fileSize : option Z;
  u_updatedAt : option string;
  u_status : option string;
  u_projectType : option string;
  u_projectInfo : option ZipProcessor.ProjectInfo;
  u_workerId : option string;
  u_workerPort : option Z;
  u_previewUrl : option string;
  u_readyAt : option string;
  u_error : option string;
  u_failedAt : option string
}.

(** The partial objects [routes/runs.js] hands over: they never have the
    keys the upload set, nor [updatedAt]. *)
Abbreviation mkUpdates status projectType projectInfo workerId workerPort previewUrl
    readyAt error failedAt :=
  (mkPartial None None None None None None status projectType projectInfo workerId
     workerPort previewUrl readyAt error failedAt).

Definition noUpdates : Updates :=
  mkUpdates None None None None None None None None None.

(** [this.runs] *)
Abbreviation Store := (gmap string Run).

(** One key of [{ ...existing, ...updates }]. *)
Definition spread {A} (existing updates : option A) : option A :=
  match updates with
  | Some v => Some v
  | None => existing
  end.

(** [{ ...existing, ...updates, updatedAt: now }]: a key given in
    [updates] lies over the stored one, whichever key it is, and
    [updatedAt] is the clock reading even when [updates] gives one. *)
Definition merge (existing : Run) (updates : Updates) (now : string) : Run :=
  {| id := default (id existing) (u_id updates);
     status := default (status existing) (u_status updates);
     createdAt := default (createdAt existing) (u_createdAt updates);
     filePath := spread (filePath existing) (u_filePath updates);
     originalName := spread (originalName existing) (u_originalName updates);
     fileSize := spread (fileSize existing) (u_fileSize updates);
     updatedAt := Some now;
     projectType := spread (projectType existing) (u_projectType updates);
     projectInfo := spread (projectInfo existing) (u_projectInfo updates);
     workerId := spread (workerId existing) (u_workerId updates);
     workerPort := spread (workerPort existing) (u_workerPort updates);
     previewUrl := spread (previewUrl existing) (u_previewUrl updates);
     readyAt := spread (readyAt existing) (u_readyAt updates);
     error := spread (error existing) (u_error updates);
     failedAt := spread (failedAt existing) (u_failedAt updates) |}.

Definition create (run : Run) (runs : Store) : Run * Store :=
  (run, <[id run := run]> runs).

(** [None] is [undefined]. *)
Definition get (id : string) (runs : Store) : option Run := runs !! id.

(** [update(id, updates)]; the clock reading [now] is what
    [new Date().toISOString()] returns.  [None] is [null]. *)
Definition update (id : string) (updates : Updates) (now : string) (runs : Store)
  : option Run * Store :=
  match runs !! id with
  | Some existing =>
      let updated := merge existing updates now in
      (Some updated, <[id := updated]> runs)
  | None => (None, runs)
  end.

Definition delete (id : string) (runs : Store) : bool * Store :=
  (bool_decide (is_Some (runs !! id)), base.delete id runs).

End RunStore.

(** ** Worker manager ([worker-manager.js], classes [WorkerManager] and [Worker]) *)

Module WorkerManager.

(** What a worker serves.  The page, script and style sheet are fixed
    template literals; each is represented by its name and the values
    interpolated into it. *)
Inductive Content :=
| WorkerPage (projectType badge id : string) (port : Z)
| WorkerScript (path id : string)
| WorkerStyle (path : string)
| FallbackPage (projectType badge runId : string)
| FallbackScript (path runId : string)
| FallbackStyle (path : string)
| NotFoundPage
| NotReadyPage (status : string)
| Text (s : string).

Record Worker := mkWorker {
  id : string;
  runId : string;
  port : Z;
  projectPath : option string;
  projectType : string;
  buildCommand : JValue;
  startCommand : JValue;
  status : string;
  startTime : option Z;
  (** whether the health-check timer is armed *)
  healthCheckInterval : bool
}.

Record Options := mkOptions {
  o_runId : string;
  o_projectPath : option string;
  o_projectType : string;
  o_buildCommand : JValue;
  o_startCommand : JValue
}.

Definition setStatus (s : string) (w : Worker) : Worker :=
  mkWorker (id w) (runId w) (port w) (projectPath w) (projectType w)
    (buildCommand w) (startCommand w) s (startTime w) (healthCheckInterval w).

Definition setStartTime (t : Z) (w : Worker) : Worker :=
  mkWorker (id w) (runId w) (port w) (projectPath w) (projectType w)
    (buildCommand w) (startCommand w) (status w) (Some t) (healthCheckInterval w).

Definition setTimer (b : bool) (w : Worker) : Worker :=
  mkWorker (id w) (runId w) (port w) (projectPath w) (projectType w)
    (buildCommand w) (startCommand w) (status w) (startTime w) b.

(** The [Worker] objects constructed so far, by address (the manager's
    map and the caller of [start] hold the same object), [this.workers]
    and [this.nextPort]. *)
Record State := mkState {
  heap : list Worker;
  workers : gmap string nat;
  nextPort : Z
}.

Definition init : State := mkState [] ∅ 8000.

Definition modify (a : nat) (f : Worker -> Worker) (st : State) : State :=
  mkState (alter f a (heap st)) (workers st) (nextPort st).

(** [start(options)] up to its first wait: the worker is constructed and
    registered, and [worker.start()] has set it to [starting]. *)
Definition startBegin (options : Options) (nowMs : Z) (st : State) : nat * State :=
  let worker :=
    mkWorker ("worker-" +:+ o_runId options) (o_runId options) (nextPort st)
      (o_projectPath options) (o_projectType options)
      (o_buildCommand options) (o_startCommand options)
      "created" None false in
  let a := length (heap st) in
  let worker := setStartTime nowMs (setStatus "starting" worker) in
  (a, mkState (heap st ++ [worker]) (<[id worker := a]> (workers st))
        (nextPort st + 1)%Z).

(** [simulateBuild] returns; [fails] is the draw [Math.random() < 0.05].
    On failure the worker is [failed] and [start] unregisters its id. *)
Definition buildDone (a : nat) (fails : bool) (st : State) : Result unit * State :=
  if fails then
    let wid := default "" (id <$> heap st !! a) in
    let st := modify a (setStatus "failed") st in
    (Throw (mkError "Simulated build failure"),
     mkState (heap st) (delete wid (workers st)) (nextPort st))
  else (Ok tt, st).

(** [simulateStart] returns: the timer is armed, the worker is [running]
    and [start] returns it. *)
Definition startDone (a : nat) (st : State) : State :=
  modify a (fun w => setStatus "running" (setTimer true w)) st.

Definition get (workerId : string) (st : State) : option Worker :=
  a ← workers st !! workerId; heap st !! a.

(** [Worker.stop()] *)
Definition stopWorker (w : Worker) : Worker :=
  let w := setStatus "stopping" w in
  let w := if healthCheckInterval w then setTimer false w else w in
  setStatus "stopped" w.

(** [stop(workerId)], run to completion: [worker.stop()] has no wait in
    it, and the id is unregistered in the continuation of its [await],
    before any other request or timer is served.  A caller that goes on in
    the same turn without awaiting [stop] still sees the id registered. *)
Definition stop (workerId : string) (st : State) : State :=
  match workers st !! workerId with
  | Some a =>
      let st := modify a stopWorker st in
      mkState (heap st) (delete workerId (workers st)) (nextPort st)
  | None => st
  end.

Definition live (w : Worker) : bool :=
  String.eqb (status w) "starting" || String.eqb (status w) "running".

(** One pass of the loop of [waitUntilReady]. *)
Inductive Readiness := IsReady | HasFailed | TimedOut | KeepWaiting.

Definition checkReady (w : Worker) (startedMs nowMs timeout : Z) : Readiness :=
  if String.eqb (status w) "running" then IsReady
  else if String.eqb (status w) "failed" then HasFailed
  else if (timeout <? nowMs - startedMs)%Z then TimedOut
  else KeepWaiting.

Definition generateSimulatedContent (w : Worker) (path : string) : Content :=
  if negb (truthy_str path) || String.eqb path "" || String.eqb path "index.html" then
    WorkerPage (projectType w) (toUpperCase (projectType w)) (id w) (port w)
  else if endsWith ".js" path then WorkerScript path (id w)
  else if endsWith ".css" path then WorkerStyle path
  else Text ("Simulated content for " +:+ path).

(** What a body is, as the browser is meant to read it. *)
Inductive Kind := Html | JavaScript | Stylesheet | PlainText.

Definition kindOf (c : Content) : Kind :=
  match c with
  | WorkerPage _ _ _ _ | FallbackPage _ _ _ | NotFoundPage | NotReadyPage _ => Html
  | WorkerScript _ _ | FallbackScript _ _ => JavaScript
  | WorkerStyle _ | FallbackStyle _ => Stylesheet
  | Text _ => PlainText
  end.

Definition getContent (w : Worker) (path : string) : Result Content :=
  if negb (String.eqb (status w) "running") then
    Throw (mkError "Worker not running")
  else Ok (generateSimulatedContent w path).

(** The calls a client of the manager can make, and the timers of its
    workers firing, in any order. *)
Inductive Op :=
| Start (options : Options) (nowMs : Z)
| BuildDone (a : nat) (fails : bool)
| StartDone (a : nat)
| Stop (workerId : string).

Definition apply (st : State) (op : Op) : State :=
  match op with
  | Start options nowMs => snd (startBegin options nowMs st)
  | BuildDone a fails => snd (buildDone a fails st)
  | StartDone a => startDone a st
  | Stop workerId => stop workerId st
  end.

Inductive reachable : State -> Prop :=
| reach_init : reachable init
| reach_apply st op : reachable st -> reachable (apply st op).

End WorkerManager.

(** ** Run orchestration ([routes/runs.js]) *)

Module Runs.

Import RunStore.

(** One reading of the clock, as [new Date().toISOString()] and as
    [Date.now()]. *)
Record Clock := mkClock { iso : string; ms : Z }.

(** Where a call of [processRun(run)] is suspended. *)
Inductive Task :=
| AwaitExtract (run : Run)
| AwaitBuild (run : Run) (worker : nat)
| AwaitStartup (run : Run) (worker : nat)
| AwaitReady (run : Run) (worker : nat) (startedMs : Z)
| Finished (failure : option Error).

(** The module-level [runStore], [workerManager] and [zipProcessor], and
    the calls of [processRun] under way, by run id. *)
Record Sys := mkSys {
  runStore : Store;
  workerManager : WorkerManager.State;
  zipProcessor : ZipProcessor.State;
  tasks : gmap string Task
}.

Definition init (fs : ZipProcessor.FS) : Sys :=
  mkSys ∅ WorkerManager.init (ZipProcessor.mkState fs ∅ []) ∅.

Definition setRuns (runs : Store) (sys : Sys) : Sys :=
  mkSys runs (workerManager sys) (zipProcessor sys) (tasks sys).
Definition setWorkers (wm : WorkerManager.State) (sys : Sys) : Sys :=
  mkSys (runStore sys) wm (zipProcessor sys) (tasks sys).
Definition setZip (zp : ZipProcessor.State) (sys : Sys) : Sys :=
  mkSys (runStore sys) (workerManager sys) zp (tasks sys).
Definition setTask (runId : string) (t : Task) (sys : Sys) : Sys :=
  mkSys (runStore sys) (workerManager sys) (zipProcessor sys)
    (<[runId := t]> (tasks sys)).

Definition updateRun (runId : string) (updates : Updates) (now : Clock) (sys : Sys)
  : Sys :=
  setRuns (snd (update runId updates (iso now) (runStore sys))) sys.

(** The [catch] block of [processRun], then the [.catch] handler the
    [POST] route attached to the call. *)
Definition failRun (run : Run) (error : Error) (now : Clock) (sys : Sys) : Sys :=
  let sys :=
    updateRun (id run)
      (mkUpdates (Some "failed") None None None None None None
         (Some (message error)) (Some (iso now))) now sys in
  let sys :=
    updateRun (id run)
      (mkUpdates (Some "failed") None None None None None None
         (Some (message error)) None) now sys in
  setTask (id run) (Finished (Some error)) sys.

Definition readyTimeout : Z := 30000.

(** The loop of [worker.waitUntilReady()] at one of its passes, [worker]
    being the worker as it is now, and the rest of [processRun] once the
    loop is left. *)
Definition continueWait (run : Run) (a : nat) (worker : WorkerManager.Worker)
    (startedMs : Z) (now : Clock) (sys : Sys) : Sys :=
  match WorkerManager.checkReady worker startedMs (ms now) readyTimeout with
  | WorkerManager.IsReady =>
      let previewUrl := "/preview/" +:+ id run in
      let sys :=
        updateRun (id run)
          (mkUpdates (Some "ready") None None None None (Some previewUrl)
             (Some (iso now)) None None) now sys in
      setTask (id run) (Finished None) sys
  | WorkerManager.HasFailed =>
      failRun run (mkError "Worker failed to start") now sys
  | WorkerManager.TimedOut =>
      failRun run (mkError "Worker startup timeout") now sys
  | WorkerManager.KeepWaiting =>
      setTask (id run) (AwaitReady run a startedMs) sys
  end.

(** [POST /api/runs] with a file: the run is created and [processRun]
    runs up to its first wait.  [uuidv4()] never repeats an id: a request
    that would reuse one is not part of the model. *)
Definition post (runId path originalname : string) (size : Z) (now : Clock) (sys : Sys)
  : Sys :=
  match tasks sys !! runId with
  | Some _ => sys
  | None =>
      let run :=
        mkRun runId "queued" (iso now) (Some path) (Some originalname) (Some size)
          None None None None None None None None None in
      let sys := setRuns (snd (create run (runStore sys))) sys in
      let sys := updateRun (id run) (mkUpdates (Some "extracting") None None None None
                                       None None None None) now sys in
      setTask runId (AwaitExtract run) sys
  end.

(** [zipProcessor.extract] settles. *)
Definition extractDone (runId : string) (env : ZipProcessor.Env) (now : Clock) (sys : Sys)
  : Sys :=
  match tasks sys !! runId with
  | Some (AwaitExtract run) =>
      match ZipProcessor.extract env (default "" (filePath run)) (id run)
              (zipProcessor sys) with
      | (Throw error, zp) => failRun run error now (setZip zp sys)
      | (Ok projectInfo, zp) =>
          let sys := setZip zp sys in
          let sys :=
            updateRun (id run)
              (mkUpdates (Some "building") (Some (ZipProcessor.type projectInfo))
                 (Some projectInfo) None None None None None None) now sys in
          let '(a, wm) :=
            WorkerManager.startBegin
              (WorkerManager.mkOptions (id run)
                 (ZipProcessor.extractPath projectInfo)
                 (ZipProcessor.type projectInfo)
                 (ZipProcessor.buildCommand projectInfo)
                 (ZipProcessor.startCommand projectInfo))
              (ms now) (workerManager sys) in
          setTask runId (AwaitBuild run a) (setWorkers wm sys)
      end
  | _ => sys
  end.

(** The build timer of the worker fires. *)
Definition buildDone (runId : string) (fails : bool) (now : Clock) (sys : Sys) : Sys :=
  match tasks sys !! runId with
  | Some (AwaitBuild run a) =>
      match WorkerManager.buildDone a fails (workerManager sys) with
      | (Throw error, wm) => failRun run error now (setWorkers wm sys)
      | (Ok _, wm) => setTask runId (AwaitStartup run a) (setWorkers wm sys)
      end
  | _ => sys
  end.

(** The start-up timer fires: [workerManager.start] returns the worker,
    its id and port are recorded and the readiness loop is entered. *)
Definition startupDone (runId : string) (now : Clock) (sys : Sys) : Sys :=
  match tasks sys !! runId with
  | Some (AwaitStartup run a) =>
      let sys := setWorkers (WorkerManager.startDone a (workerManager sys)) sys in
      match WorkerManager.heap (workerManager sys) !! a with
      | None => sys
      | Some worker =>
          let sys :=
            updateRun (id run)
              (mkUpdates (Some "building") None None (Some (WorkerManager.id worker))
                 (Some (WorkerManager.port worker)) None None None None) now sys in
          continueWait run a worker (ms now) now sys
      end
  | _ => sys
  end.

(** A later pass of the readiness loop. *)
Definition pollTick (runId : string) (now : Clock) (sys : Sys) : Sys :=
  match tasks sys !! runId with
  | Some (AwaitReady run a startedMs) =>
      match WorkerManager.heap (workerManager sys) !! a with
      | Some worker => continueWait run a worker startedMs now sys
      | None => sys
      end
  | _ => sys
  end.

(** [DELETE /api/runs/:id]; the answer is [404] when the run is unknown
    and [200] otherwise. *)
Definition deleteRun (runId : string) (env : ZipProcessor.Env) (sys : Sys) : nat * Sys :=
  match get runId (runStore sys) with
  | None => (404, sys)
  | Some run =>
      let sys :=
        match workerId run with
        | Some wid =>
            if truthy_str wid
            then setWorkers (WorkerManager.stop wid (workerManager sys)) sys
            else sys
        | None => sys
        end in
      let sys := setRuns (snd (delete runId (runStore sys))) sys in
      let sys := setZip (ZipProcessor.cleanup env runId (zipProcessor sys)) sys in
      (200, sys)
  end.

(** What can happen next: a request arrives or a suspended call resumes. *)
Inductive Event :=
| Post (runId path originalname : string) (size : Z) (now : Clock)
| ExtractDone (runId : string) (env : ZipProcessor.Env) (now : Clock)
| BuildDone (runId : string) (fails : bool) (now : Clock)
| StartupDone (runId : string) (now : Clock)
| PollTick (runId : string) (now : Clock)
| Delete (runId : string) (env : ZipProcessor.Env).

Definition step (sys : Sys) (ev : Event) : Sys :=
  match ev with
  | Post runId path originalname size now => post runId path originalname size now sys
  | ExtractDone runId env now => extractDone runId env now sys
  | BuildDone runId fails now => buildDone runId fails now sys
  | StartupDone runId now => startupDone runId now sys
  | PollTick runId now => pollTick runId now sys
  | Delete runId env => snd (deleteRun runId env sys)
  end.

Definition run_events (sys : Sys) (evs : list Event) : Sys := fold_left step evs sys.

(** The states the server can be in. *)
Inductive reachable : Sys -> Prop :=
| reach_init fs : reachable (init fs)
| reach_step sys ev : reachable sys -> reachable (step sys ev).

End Runs.

(** ** Preview gateway ([routes/preview.js]) *)

(** The route module constructs a [RunStore] and a [WorkerManager] of its
    own; the handler is a function of what these two hold.  What they hold
    in the running server is said in [Server] below. *)

Module Preview.

Import RunStore.

Record Response := mkResponse {
  code : nat;
  headers : list (string * string);
  body : WorkerManager.Content
}.

Definition header (name : string) (r : Response) : option string :=
  snd <$> List.find (fun h => String.eqb (fst h) name) (headers r).

Definition generateFallbackContent (path : string) (run : Run) : WorkerManager.Content :=
  if negb (truthy_str path) || String.eqb path "" || String.eqb path "index.html" then
    WorkerManager.FallbackPage (str_or (projectType run) "Unknown")
      (toUpperCase (str_or (projectType run) "UNKNOWN")) (id run)
  else if endsWith ".js" path then WorkerManager.FallbackScript path (id run)
  else if endsWith ".css" path then WorkerManager.FallbackStyle path
  else WorkerManager.Text ("Simulated content for " +:+ path +:+ " in run " +:+ id run).

(** The [switch] compares with [===]; a missing type takes the default. *)
Definition getCSPForProject (projectType : option string) : string :=
  match projectType with
  | Some t =>
      if String.eqb t "static" then Config.csp_strict
      else if String.eqb t "react" || String.eqb t "vue" || String.eqb t "angular"
      then Config.csp_relaxed
      else Config.csp_strict
  | None => Config.csp_strict
  end.

Definition getContentType (path : string) : string :=
  if negb (truthy_str path) || endsWith "/" path || endsWith ".html" path then "text/html"
  else if endsWith ".js" path then "application/javascript"
  else if endsWith ".css" path then "text/css"
  else if endsWith ".json" path then "application/json"
  else if endsWith ".png" path then "image/png"
  else if endsWith ".jpg" path || endsWith ".jpeg" path then "image/jpeg"
  else "text/plain".

Definition securityHeaders (projectType : option string) : list (string * string) :=
  [ ("Content-Security-Policy", getCSPForProject projectType);
    ("X-Frame-Options", "SAMEORIGIN");
    ("X-Content-Type-Options", "nosniff");
    ("Referrer-Policy", "no-referrer");
    ("Cross-Origin-Resource-Policy", "same-origin");
    ("Cache-Control", "no-store, no-cache, must-revalidate");
    ("Pragma", "no-cache") ].

(** The content of a ready run: from its worker when the run names one
    that the manager knows, synthesized otherwise. *)
Definition contentFor (run : Run) (wm : WorkerManager.State) (requestPath : string)
  : Result WorkerManager.Content :=
  match workerId run with
  | Some wid =>
      if truthy_str wid then
        match WorkerManager.get wid wm with
        | Some worker => WorkerManager.getContent worker requestPath
        | None => Ok (generateFallbackContent requestPath run)
        end
      else Ok (generateFallbackContent requestPath run)
  | None => Ok (generateFallbackContent requestPath run)
  end.

(** [GET /preview/:runId/*]; [requestPath] is [req.params[0] || '']. *)
Definition handler (runs : Store) (wm : WorkerManager.State) (runId requestPath : string)
  : Response :=
  match get runId runs with
  | None => mkResponse 404 [] WorkerManager.NotFoundPage
  | Some run =>
      if negb (String.eqb (status run) "ready") then
        mkResponse 503 [] (WorkerManager.NotReadyPage (status run))
      else
        match contentFor run wm requestPath with
        | Throw _ => mkResponse 500 [] (WorkerManager.Text "Preview error")
        | Ok content =>
            mkResponse 200
              (securityHeaders (projectType run)
               ++ [("Content-Type", getContentType requestPath)])
              content
        end
  end.

End Preview.

(** ** Invariants of the running server *)

Module Invariants.

Import RunStore Runs.

(** The [run] a suspended call of [processRun] holds. *)
Definition taskRun (t : Task) : option Run :=
  match t with
  | AwaitExtract r | AwaitBuild r _ | AwaitStartup r _ | AwaitReady r _ _ => Some r
  | Finished _ => None
  end.

(** The invariant the data model states for a run. *)
Definition settled (run : Run) : Prop :=
  (is_Some (previewUrl run) <-> status run = "ready") /\
  (is_Some (error run) <-> status run = "failed").

(** A run whose [processRun] is still under way. *)
Definition pending (run : Run) : Prop :=
  (status run = "extracting" \/ status run = "building") /\
  previewUrl run = None /\ error run = None.

(** What the stored run looks like at each point of its [processRun]. *)
Definition agrees (t : Task) (run : Run) : Prop :=
  match t with
  | Finished None =>
      status run = "ready" /\ is_Some (previewUrl run) /\ error run = None
  | Finished (Some _) =>
      status run = "failed" /\ is_Some (error run) /\ previewUrl run = None
  | _ => pending run
  end.

Definition consistent (sys : Sys) : Prop :=
  (forall k t r, tasks sys !! k = Some t -> taskRun t = Some r -> id r = k) /\
  (forall k run, runStore sys !! k = Some run ->
     exists t, tasks sys !! k = Some t /\ agrees t run).

(** Every registered worker is stored under its own id, and every worker
    ever constructed is named after its run. *)
Definition registered (st : WorkerManager.State) : Prop :=
  (forall k a, WorkerManager.workers st !! k = Some a ->
     exists w, WorkerManager.heap st !! a = Some w /\ WorkerManager.id w = k) /\
  (forall a w, WorkerManager.heap st !! a = Some w ->
     WorkerManager.id w = "worker-" +:+ WorkerManager.runId w).

(** The runs of the workers constructed so far, by address. *)
Definition heapRuns (st : WorkerManager.State) : list string :=
  WorkerManager.runId <$> WorkerManager.heap st.

(** [processRun] has called [workerManager.start]. *)
Definition started (t : Task) : bool :=
  match t with
  | AwaitExtract _ => false
  | _ => true
  end.

(** No two workers were ever constructed for one run, and a worker exists
    only for a run whose [processRun] has called [start]. *)
Definition tracked (sys : Sys) : Prop :=
  NoDup (heapRuns (workerManager sys)) /\
  (forall k, k ∈ heapRuns (workerManager sys) ->
     exists t, tasks sys !! k = Some t /\ started t = true).

(** [workerManager.start] has not returned yet. *)
Definition preStart (t : Task) : bool :=
  match t with
  | AwaitExtract _ | AwaitBuild _ _ | AwaitStartup _ _ => true
  | _ => false
  end.

(** Until [workerManager.start] has returned, the stored run names no
    worker. *)
Definition unrecorded (sys : Sys) : Prop :=
  forall k t run,
    tasks sys !! k = Some t -> preStart t = true ->
    runStore sys !! k = Some run -> workerId run = None.

End Invariants.

(** ** Sample data used to exercise the definitions *)

Module Samples.

Definition sampleRun : RunStore.Run :=
  RunStore.mkRun "test-1" "queued" "2024-01-01T00:00:00.000Z" None None None
    None None None None None None None None None.

Definition sampleStore : RunStore.Store := <["test-1" := sampleRun]> ∅.

Definition markReady : RunStore.Updates :=
  RunStore.mkUpdates (Some "ready") None None None None None None None None.

(** A partial object that also renames the upload and gives an [updatedAt]
    of its own. *)
Definition markServed : RunStore.Updates :=
  RunStore.mkPartial None None None (Some "renamed.zip") None (Some "1999-12-31")
    (Some "ready") None None (Some "worker-test-1") (Some 8000%Z)
    (Some "/preview/test-1") (Some "t1") None None.

(** A run as [processRun] leaves it when it is ready. *)
Definition readyRun (runId : string) (projectType : option string) : RunStore.Run :=
  RunStore.mkRun runId "ready" "2024-01-01T00:00:00.000Z" (Some "temp/upload-1")
    (Some "site.zip") (Some 2048%Z) (Some "2024-01-01T00:00:05.000Z")
    projectType None (Some ("worker-" +:+ runId)) (Some 8000%Z)
    (Some ("/preview/" +:+ runId)) (Some "2024-01-01T00:00:05.000Z") None None.

Definition reactStore : RunStore.Store :=
  <["r-react" := readyRun "r-react" (Some "react")]>
    (<["r-static" := readyRun "r-static" (Some "static")]> ∅).

Definition dq : string := String "034"%char "".
Definition quoted (s : string) : string := dq +:+ s +:+ dq.

(** [{"dependencies":{<name>:<version>}}] *)
Definition manifestText (name version : string) : string :=
  "{" +:+ quoted "dependencies" +:+ ":{" +:+ quoted name +:+ ":"
  +:+ quoted version +:+ "}}".

Definition manifestValue (name version : string) : JValue :=
  JObj [("dependencies", JObj [(name, JStr version)])].

(** [JSON.parse] on the handful of texts the samples use. *)
Definition sampleParse (s : string) : Result JValue :=
  if String.eqb s (manifestText "react" "^18.2.0") then Ok (manifestValue "react" "^18.2.0")
  else if String.eqb s (manifestText "vue" "^3.4.0") then Ok (manifestValue "vue" "^3.4.0")
  else if String.eqb s (manifestText "react" "") then Ok (manifestValue "react" "")
  else if String.eqb s "{}" then Ok (JObj [])
  else if String.eqb s "null" then Ok JNull
  else Throw (mkError "Unexpected token in JSON").

(** [{"dependencies":{"react":"^18.2.0"},"scripts":null}] *)
Definition nullScriptsText : string :=
  "{" +:+ quoted "dependencies" +:+ ":{" +:+ quoted "react" +:+ ":"
  +:+ quoted "^18.2.0" +:+ "}," +:+ quoted "scripts" +:+ ":null}".

Definition nullScriptsValue : JValue :=
  JObj [("dependencies", JObj [("react", JStr "^18.2.0")]); ("scripts", JNull)].

(** [{"dependencies":{"vue":"^3.4.0"},"devDependencies":null}] *)
Definition nullDevText : string :=
  "{" +:+ quoted "dependencies" +:+ ":{" +:+ quoted "vue" +:+ ":"
  +:+ quoted "^3.4.0" +:+ "}," +:+ quoted "devDependencies" +:+ ":null}".

Definition nullDevValue : JValue :=
  JObj [("dependencies", JObj [("vue", JStr "^3.4.0")]); ("devDependencies", JNull)].

(** [{"dependencies":{"vue":"^3.4.0"},"devDependencies":{"react":"^18.2.0"}}] *)
Definition devReactText : string :=
  "{" +:+ quoted "dependencies" +:+ ":{" +:+ quoted "vue" +:+ ":"
  +:+ quoted "^3.4.0" +:+ "}," +:+ quoted "devDependencies" +:+ ":{"
  +:+ quoted "react" +:+ ":" +:+ quoted "^18.2.0" +:+ "}}".

Definition devReactValue : JValue :=
  JObj [("dependencies", JObj [("vue", JStr "^3.4.0")]);
        ("devDependencies", JObj [("react", JStr "^18.2.0")])].

(** [JSON.parse] on these three texts as well. *)
Definition manifestParse (s : string) : Result JValue :=
  if String.eqb s nullScriptsText then Ok nullScriptsValue
  else if String.eqb s nullDevText then Ok nullDevValue
  else if String.eqb s devReactText then Ok devReactValue
  else sampleParse s.

Definition page : option string := Some "<!DOCTYPE html><title>site</title>".

Definition brokenZip : list ZipProcessor.ZipEntry :=
  [ZipProcessor.mkZipEntry "package.json" "{ not json";
   ZipProcessor.mkZipEntry "index.html" "<!DOCTYPE html><title>site</title>"].

Definition reactZip : list ZipProcessor.ZipEntry :=
  [ZipProcessor.mkZipEntry "package.json" (manifestText "react" "^18.2.0");
   ZipProcessor.mkZipEntry "Dockerfile" "FROM node:20";
   ZipProcessor.mkZipEntry "src/index.html" "<!DOCTYPE html><title>site</title>"].

Definition sampleZips (zipPath : string) : Result (list ZipProcessor.ZipEntry) :=
  if String.eqb zipPath "temp/upload-react" then Ok reactZip
  else if String.eqb zipPath "temp/upload-broken" then Ok brokenZip
  else Throw (mkError "Invalid or unsupported zip format. No END header found").

(** Nothing is refused by the file system. *)
Definition sampleEnv : ZipProcessor.Env :=
  ZipProcessor.mkEnv sampleZips sampleParse None None None.

Definition treeFs (tree : list ZipProcessor.Dirent) : ZipProcessor.FS :=
  <["temp/extracted-r1" := tree]> ∅.

Definition brokenTree : list ZipProcessor.Dirent :=
  [ZipProcessor.File "package.json" (Some "{ not json");
   ZipProcessor.File "Dockerfile" (Some "FROM node:20")].

Definition vendoredTree : list ZipProcessor.Dirent :=
  [ZipProcessor.Directory "node_modules"
     [ZipProcessor.Directory "docs" [ZipProcessor.File "index.html" page]];
   ZipProcessor.File "README.md" (Some "# notes")].

Definition emptyVersionTree : list ZipProcessor.Dirent :=
  [ZipProcessor.File "package.json" (Some (manifestText "react" ""))].

Definition reactTree : list ZipProcessor.Dirent :=
  [ZipProcessor.File "package.json" (Some (manifestText "react" "^18.2.0"));
   ZipProcessor.File "Dockerfile" (Some "FROM node:20");
   ZipProcessor.Directory "src" [ZipProcessor.File "index.html" page]].

Definition pythonTree : list ZipProcessor.Dirent :=
  [ZipProcessor.File "requirements.txt" (Some "flask");
   ZipProcessor.File "Dockerfile" (Some "FROM python:3");
   ZipProcessor.Directory "web" [ZipProcessor.File "main.py" (Some "print(1)")]].

Definition staticTree : list ZipProcessor.Dirent :=
  [ZipProcessor.Directory "site" [ZipProcessor.File "about.html" page];
   ZipProcessor.File "style.css" (Some "body {}")].

Definition vueTree : list ZipProcessor.Dirent :=
  [ZipProcessor.File "package.json" (Some (manifestText "vue" "^3.4.0"))].

Definition manifestEnv : ZipProcessor.Env :=
  ZipProcessor.mkEnv sampleZips manifestParse None None None.

Definition nullScriptsTree : list ZipProcessor.Dirent :=
  [ZipProcessor.File "package.json" (Some nullScriptsText)].

Definition nullDevTree : list ZipProcessor.Dirent :=
  [ZipProcessor.File "package.json" (Some nullDevText)].

Definition devReactTree : list ZipProcessor.Dirent :=
  [ZipProcessor.File "package.json" (Some devReactText)].

(** The disk fills up after the first entry, and the directory cannot be
    removed afterwards. *)
Definition failingEnv : ZipProcessor.Env :=
  ZipProcessor.mkEnv sampleZips sampleParse None
    (Some (1, mkError "ENOSPC: no space left on device, write"))
    (Some (mkError "EBUSY: resource busy or locked, rmdir")).

Definition emptyDisk : ZipProcessor.State := ZipProcessor.mkState ∅ ∅ [].

Definition evilZips (zipPath : string) : Result (list ZipProcessor.ZipEntry) :=
  Ok [ZipProcessor.mkZipEntry "index.html" "<!DOCTYPE html>";
      ZipProcessor.mkZipEntry "assets/../../evil" "x"].

Definition evilEnv : ZipProcessor.Env :=
  ZipProcessor.mkEnv evilZips sampleParse None None None.

Definition at_ (n : Z) : Runs.Clock :=
  Runs.mkClock ("2024-01-01T00:00:0" +:+ pretty n +:+ ".000Z") (n * 1000).

(** An upload that is extracted, built, started and becomes ready. *)
Definition readyTrace : list Runs.Event :=
  [Runs.Post "r1" "temp/upload-react" "site.zip" 2048 (at_ 0);
   Runs.ExtractDone "r1" sampleEnv (at_ 1);
   Runs.BuildDone "r1" false (at_ 4);
   Runs.StartupDone "r1" (at_ 5)].

(** The same upload, deleted by the client while its worker is building. *)
Definition deletedWhileBuilding : list Runs.Event :=
  [Runs.Post "r1" "temp/upload-react" "site.zip" 2048 (at_ 0);
   Runs.ExtractDone "r1" sampleEnv (at_ 1);
   Runs.Delete "r1" sampleEnv;
   Runs.BuildDone "r1" false (at_ 4);
   Runs.StartupDone "r1" (at_ 5)].

(** The same upload, deleted once it is ready. *)
Definition deletedWhenReady : list Runs.Event :=
  (readyTrace ++ [Runs.Delete "r1" sampleEnv])%list.

Definition staticOptions (runId : string) : WorkerManager.Options :=
  WorkerManager.mkOptions runId (Some "/mock/path") "static" JNull JNull.

(** [start] called twice for one run, as any caller of the manager can. *)
Definition startedTwice : WorkerManager.State :=
  WorkerManager.apply
    (WorkerManager.apply WorkerManager.init
       (WorkerManager.Start (staticOptions "test-run") 0))
    (WorkerManager.Start (staticOptions "test-run") 250).

(** A worker whose start never finishes. *)
Definition stuckWorker : WorkerManager.Worker :=
  WorkerManager.mkWorker "worker-r7" "r7" 8007 (Some "temp/extracted-r7") "node"
    JNull (JStr "node index.js") "starting" (Some 0%Z) false.

(** A manager whose one worker, for the run [r-react], has started. *)
Definition servingWorkers : WorkerManager.State :=
  fold_left WorkerManager.apply
    [WorkerManager.Start
       (WorkerManager.mkOptions "r-react" (Some "temp/extracted-r-react") "react"
          JNull (JStr "npm start")) 1000;
     WorkerManager.BuildDone 0 false;
     WorkerManager.StartDone 0]
    WorkerManager.init.

Definition servingWorker : WorkerManager.Worker :=
  WorkerManager.mkWorker "worker-r-react" "r-react" 8000 (Some "temp/extracted-r-react")
    "react" JNull (JStr "npm start") "running" (Some 1000%Z) true.

(** What [extract] returns for the first upload. *)
Definition reactInfo : ZipProcessor.ProjectInfo :=
  ZipProcessor.mkProjectInfo "react" (Some "React")
    ["package.json"; "Dockerfile"; "src/index.html"]
    JNull (JStr "npm start") (Some ["react"]) None (Some "temp/extracted-r1").

(** A second upload, arriving while the first is being served. *)
Definition secondUpload : Runs.Event :=
  Runs.Post "r2" "temp/upload-broken" "notes.zip" 512 (at_ 6).

(** Events for the first upload that come after it has become ready. *)
Definition lateEvents : list Runs.Event :=
  [Runs.PollTick "r1" (at_ 7);
   Runs.BuildDone "r1" true (at_ 8);
   Runs.Post "r1" "temp/upload-react" "site.zip" 2048 (at_ 9);
   secondUpload].

(** An upload whose archive has an entry that leaves the directory. *)
Definition evilUpload : list Runs.Event :=
  [Runs.Post "r3" "temp/upload-evil" "evil.zip" 64 (at_ 0)].

Definition epoch (s : string) : option Z :=
  if String.eqb s "2024-01-01T00:00:00.000Z" then Some 1704067200000%Z
  else if String.eqb s "2024-01-03T00:00:00.000Z" then Some 1704240000000%Z
  else None.

Definition recentRun : RunStore.Run :=
  RunStore.mkRun "test-2" "ready" "2024-01-03T00:00:00.000Z" None None None
    None None None None None None None None None.

Definition undatedRun : RunStore.Run :=
  RunStore.mkRun "test-3" "failed" "yesterday" None None None
    None None None None None None None None None.

Definition agedStore : RunStore.Store :=
  <["test-3" := undatedRun]> (<["test-2" := recentRun]> sampleStore).

End Samples.

Import Samples.

(** ** The remaining operations of the services and routes *)

(** [RunStore.cleanup] ([run-store.js]) *)

Module Registry.

Import RunStore.

(** [new Date(run.createdAt).getTime() < cutoff]; [getTime] is the parsing
    of a date string, [None] standing for [NaN], which compares false. *)
Definition expired (getTime : string -> option Z) (cutoff : Z) (run : Run) : bool :=
  match getTime (createdAt run) with
  | Some runTime => (runTime <? cutoff)%Z
  | None => false
  end.

(** The ids the loop collects.  The map is walked in some order; the order
    only decides the order of this list, of which the code uses the length
    and, for the deletions, the elements. *)
Definition toDelete (getTime : string -> option Z) (cutoff : Z) (runs : Store)
  : list string :=
  fst <$> List.filter (fun kv => expired getTime cutoff (snd kv)) (map_to_list runs).

(** [cleanup(maxAge)] at the clock reading [nowMs] of [Date.now()]. *)
Definition cleanup (getTime : string -> option Z) (nowMs maxAge : Z) (runs : Store)
  : nat * Store :=
  let cutoff := (nowMs - maxAge)%Z in
  let ids := toDelete getTime cutoff runs in
  (length ids, fold_left (fun m id => base.delete id m) ids runs).

End Registry.

(** The upload filter and the status route of [routes/runs.js] *)

Module Upload.

Import RunStore.

Record UploadedFile := mkUploadedFile { mimetype : string; originalname : string }.

(** The [fileFilter] given to multer: [Throw] is [cb(error)], [Ok true] is
    [cb(null, true)]. *)
Definition fileFilter (file : UploadedFile) : Result bool :=
  if negb (String.eqb (mimetype file) "application/zip")
     && negb (endsWith ".zip" (originalname file))
  then Throw (mkError "Only ZIP files are allowed")
  else Ok true.

(** [const { filePath, ...publicRun } = run] *)
Definition publicRun (run : Run) : Run :=
  mkRun (id run) (status run) (createdAt run) None (originalName run) (fileSize run)
    (updatedAt run) (projectType run) (projectInfo run) (workerId run) (workerPort run)
    (previewUrl run) (readyAt run) (error run) (failedAt run).

(** [GET /api/runs/:id]: the status code and, for [200], the body. *)
Definition getRun (runId : string) (runs : Store) : nat * option Run :=
  match get runId runs with
  | None => (404, None)
  | Some run => (200, Some (publicRun run))
  end.

End Upload.

(** [middleware/error-handler.js] *)

Module ErrorHandler.

(** The fields of a thrown error the handler reads.  [headers] is [None]
    when the error has no [headers] object, and otherwise holds its
    [Retry-After] entry. *)
Record HttpError := mkHttpError {
  code : option string;
  message : option string;
  status : option Z;
  stack : option string;
  headers : option (option string)
}.

(** A JSON answer: the status and the fields of the body; a field whose
    value is [undefined] is not sent. *)
Record Answer := mkAnswer { answerStatus : Z; answerBody : list (string * string) }.

Definition field (k : string) (v : option string) : list (string * string) :=
  match v with
  | Some s => [(k, s)]
  | None => []
  end.

Definition isCode (c : string) (e : HttpError) : bool :=
  match code e with
  | Some c' => String.eqb c' c
  | None => false
  end.

(** [error.message && error.message.includes('Only ZIP files')] *)
Definition mentionsZipOnly (e : HttpError) : bool :=
  match message e with
  | Some m => truthy_str m && includes "Only ZIP files" m
  | None => false
  end.

(** [error.status || 500] *)
Definition statusOr500 (e : HttpError) : Z :=
  match status e with
  | Some s => if (s =? 0)%Z then 500%Z else s
  | None => 500%Z
  end.

(** [errorHandler(error, req, res, next)] after it has logged the error;
    [isDevelopment] is [process.env.NODE_ENV === 'development'].  Reading
    [error.headers['Retry-After']] throws when there is no [headers]. *)
Definition errorHandler (isDevelopment : bool) (e : HttpError) : Result Answer :=
  if isCode "LIMIT_FILE_SIZE" e then
    Ok (mkAnswer 400 [("error", "File too large"); ("maxSize", "50MB")])
  else if isCode "LIMIT_UNEXPECTED_FILE" e then
    Ok (mkAnswer 400 [("error", "Unexpected file field")])
  else if mentionsZipOnly e then
    Ok (mkAnswer 400 [("error", "Only ZIP files are allowed")])
  else if bool_decide (status e = Some 429%Z) then
    match headers e with
    | None =>
        Throw (mkError "Cannot read properties of undefined (reading 'Retry-After')")
    | Some retryAfter =>
        Ok (mkAnswer 429 (("error", "Too many requests") :: field "retryAfter" retryAfter))
    end
  else
    Ok (mkAnswer (statusOr500 e)
          (if isDevelopment
           then (field "error" (message e) ++ field "stack" (stack e))%list
           else [("error", "Internal server error")])).

(** The error a rejected upload carries: [new Error('Only ZIP files are
    allowed')], which has a stack and nothing else. *)
Definition ofError (e : Error) (stackTrace : string) : HttpError :=
  mkHttpError None (Some (JS.message e)) None (Some stackTrace) None.

End ErrorHandler.

(** [WorkerManager.stopAll] and [Worker.waitUntilReady] ([worker-manager.js]) *)

Module Workers.

Import WorkerManager.

(** Ports are handed out in the order of construction and never again. *)
Definition portsInOrder (st : State) : Prop :=
  nextPort st = (8000 + Z.of_nat (length (heap st)))%Z /\
  forall a w, heap st !! a = Some w -> port w = (8000 + Z.of_nat a)%Z.

(** [stop] called for each id of a list in turn. *)
Definition stops (ids : list string) (st : State) : State :=
  fold_left (fun st workerId => stop workerId st) ids st.

(** [stopAll()]: [stop] is called for every registered id.  The ids are
    taken in some order; every order gives the same manager. *)
Definition stopAll (st : State) : State :=
  stops (fst <$> map_to_list (workers st)) st.

(** [waitUntilReady(timeout)], entered at [startTime].  [polls] are the
    worker and the clock as each pass of the loop finds them; [None] says
    that the loop is still waiting after the last of them. *)
Fixpoint waitUntilReady (startTime timeout : Z) (polls : list (Worker * Z))
  : option (Result unit) :=
  match polls with
  | [] => None
  | (worker, nowMs) :: rest =>
      match checkReady worker startTime nowMs timeout with
      | IsReady => Some (Ok tt)
      | HasFailed => Some (Throw (mkError "Worker failed to start"))
      | TimedOut => Some (Throw (mkError "Worker startup timeout"))
      | KeepWaiting => waitUntilReady startTime timeout rest
      end
  end.

(** The clock readings of successive passes: the first not before the
    entry, each later one at least the 100 ms of the [setTimeout] after the
    one before. *)
Fixpoint spaced (previous : Z) (gap : Z) (polls : list (Worker * Z)) : Prop :=
  match polls with
  | [] => True
  | (_, nowMs) :: rest => (previous + gap <= nowMs)%Z /\ spaced nowMs 100 rest
  end.

End Workers.

(** What the listing of [zip-processor.js] is compared with *)

Module Listing.

Import ZipProcessor.

(** A tree with every skipped directory cut out, at any depth. *)
Fixpoint pruneDirent (d : Dirent) : option Dirent :=
  match d with
  | File n content => Some (File n content)
  | Directory n children =>
      if has n skipped then None
      else Some (Directory n (omap pruneDirent children))
  end.

Definition prune (entries : list Dirent) : list Dirent := omap pruneDirent entries.

(** Names as a file system has them: not empty and without a slash. *)
Definition properName (n : string) : bool :=
  truthy_str n && negb (includes "/" n).

Fixpoint properDirent (d : Dirent) : bool :=
  match d with
  | File n _ => properName n
  | Directory n children => properName n && forallb properDirent children
  end.

(** The names of the files directly below the root. *)
Definition topFiles (entries : list Dirent) : list string :=
  flat_map (fun d => match d with File n _ => [n] | Directory _ _ => [] end) entries.

(** The eight project types. *)
Definition projectTypes : list string :=
  ["static"; "node"; "react"; "vue"; "angular"; "python"; "docker"; "unknown"].

End Listing.

(** The events of the server, by the run they belong to *)

Module Events.

Import RunStore Runs.

Definition eventRun (ev : Event) : string :=
  match ev with
  | Post runId _ _ _ _ | ExtractDone runId _ _ | BuildDone runId _ _
  | StartupDone runId _ | PollTick runId _ | Delete runId _ => runId
  end.

(** [ev] is a [DELETE] request for the run [k]. *)
Definition deletes (k : string) (ev : Event) : bool :=
  match ev with
  | Delete runId _ => String.eqb runId k
  | _ => false
  end.

(** The run object the [POST] handler builds, after the first update of
    [processRun]. *)
Definition uploaded (runId path originalname : string) (size : Z) (now : Clock) : Run :=
  merge
    (mkRun runId "queued" (iso now) (Some path) (Some originalname) (Some size)
       None None None None None None None None None)
    (mkUpdates (Some "extracting") None None None None None None None None)
    (iso now).

(** What the upload fixes in a run. *)
Definition sameUpload (a b : Run) : Prop :=
  id a = id b /\ createdAt a = createdAt b /\ filePath a = filePath b /\
  originalName a = originalName b /\ fileSize a = fileSize b.

(** Successive updates of one run at one reading of the clock. *)
Definition mergeAll (run : Run) (us : list Updates) (now : string) : Run :=
  fold_left (fun r u => merge r u now) us run.

(** What every stored run has: its key as [id] and the data of the upload. *)
Definition shaped (k : string) (run : Run) : Prop :=
  id run = k /\ is_Some (filePath run) /\ is_Some (originalName run) /\
  is_Some (fileSize run) /\ is_Some (updatedAt run).

(** A partial object without the keys the upload set. *)
Definition keepsUpload (u : Updates) : Prop :=
  u_id u = None /\ u_createdAt u = None /\ u_filePath u = None /\
  u_originalName u = None /\ u_fileSize u = None.

(** [runs'] holds the runs of [runs], the run [i] updated with [us], none
    of which has a key the upload set. *)
Definition updated (i : string) (us : list Updates) (now : string) (runs runs' : Store)
  : Prop :=
  Forall keepsUpload us /\
  forall j,
    runs' !! j =
    if decide (i = j) then (fun r => mergeAll r us now) <$> runs !! j else runs !! j.

End Events.

(** Runs and the workers that serve them *)

Module Serving.

Import RunStore Runs.

(** The address of the worker a suspended call of [processRun] holds. *)
Definition taskWorker (t : Task) : option nat :=
  match t with
  | AwaitBuild _ a | AwaitStartup _ a | AwaitReady _ a _ => Some a
  | AwaitExtract _ | Finished _ => None
  end.

(** The call is suspended in the loop of [waitUntilReady]. *)
Definition waiting (t : Task) : bool :=
  match t with
  | AwaitReady _ _ _ => true
  | _ => false
  end.

(** The run [run], stored under [k], has its worker: registered under
    [worker-<k>], running, and the one whose id and port the run records. *)
Definition served (k : string) (run : Run) (wm : WorkerManager.State) : Prop :=
  exists a w,
    WorkerManager.workers wm !! ("worker-" +:+ k) = Some a /\
    WorkerManager.heap wm !! a = Some w /\
    WorkerManager.runId w = k /\
    WorkerManager.status w = "running" /\
    workerId run = Some ("worker-" +:+ k) /\
    workerPort run = Some (WorkerManager.port w) /\
    previewUrl run = Some ("/preview/" +:+ k).

(** What the manager looks like from the runs other than [j] when a step
    of the run [j] has taken it from [wm] to [wm']. *)
Definition frame (j : string) (wm wm' : WorkerManager.State) : Prop :=
  (forall k, k <> j ->
     WorkerManager.workers wm' !! ("worker-" +:+ k)
     = WorkerManager.workers wm !! ("worker-" +:+ k)) /\
  (forall a w, WorkerManager.heap wm !! a = Some w -> WorkerManager.runId w <> j ->
     WorkerManager.heap wm' !! a = Some w) /\
  (forall a w, WorkerManager.heap wm !! a = Some w ->
     exists w', WorkerManager.heap wm' !! a = Some w' /\
                WorkerManager.runId w' = WorkerManager.runId w).

(** What holds of the run [j] and its call of [processRun]. *)
Definition settledWith (j : string) (sys : Sys) : Prop :=
  (forall t, tasks sys !! j = Some t ->
     waiting t = false /\
     forall a, taskWorker t = Some a ->
       (exists w, WorkerManager.heap (workerManager sys) !! a = Some w /\
                  WorkerManager.runId w = j) /\
       (is_Some (runStore sys !! j) ->
        WorkerManager.workers (workerManager sys) !! ("worker-" +:+ j) = Some a)) /\
  (forall run, runStore sys !! j = Some run ->
     (forall wid, workerId run = Some wid -> wid = "worker-" +:+ j) /\
     (status run = "ready" -> served j run (workerManager sys))).

(** Every run has its worker as far as its [processRun] has come. *)
Definition serving (sys : Sys) : Prop := forall j, settledWith j sys.

End Serving.

(** ** The server as [index.js] wires it *)

(** [index.js] mounts the router of [routes/runs.js] below [/api/runs] and
    the router of [routes/preview.js] below [/preview], the latter behind
    [securityMiddleware.preview].  Each route module constructs the
    services it uses when it is loaded: [routes/preview.js] has a
    [RunStore] and a [WorkerManager] of its own, which it does not export
    and on which it calls nothing but [get]. *)

Module Server.

Import RunStore.

(** The headers [securityMiddleware.preview] sets on every response below
    [/preview] before the route runs.  [helmet] is configured with
    [contentSecurityPolicy: false], so no policy comes from there. *)
Definition previewMiddleware : list (string * string) :=
  [ ("X-Content-Type-Options", "nosniff");
    ("X-Frame-Options", "SAMEORIGIN");
    ("X-XSS-Protection", "1; mode=block");
    ("Referrer-Policy", "no-referrer");
    ("Cross-Origin-Resource-Policy", "same-origin");
    ("Cross-Origin-Embedder-Policy", "require-corp");
    ("Cross-Origin-Opener-Policy", "same-origin") ].

(** The services of [routes/runs.js], and the [runStore] and
    [workerManager] of [routes/preview.js]. *)
Record State := mkState {
  orchestrator : Runs.Sys;
  previewRuns : Store;
  previewWorkers : WorkerManager.State
}.

(** Both modules have been loaded: every service is as constructed. *)
Definition init (fs : ZipProcessor.FS) : State :=
  mkState (Runs.init fs) ∅ WorkerManager.init.

(** What the server is given: an event of [routes/runs.js] (a request to
    [/api/runs] or a call of [processRun] resuming), or a request to
    [/preview]. *)
Inductive Input :=
| RunsEvent (ev : Runs.Event)
| PreviewRequest (runId requestPath : string).

(** The answer to [GET /preview/:runId/*]: the route reads the services of
    its own module; a header it sets lies over the one the middleware
    set. *)
Definition preview (st : State) (runId requestPath : string) : Preview.Response :=
  let r := Preview.handler (previewRuns st) (previewWorkers st) runId requestPath in
  Preview.mkResponse (Preview.code r) (Preview.headers r ++ previewMiddleware)%list
    (Preview.body r).

(** An event of [routes/runs.js] changes the services of that module; a
    preview request changes nothing. *)
Definition step (st : State) (input : Input) : State :=
  match input with
  | RunsEvent ev =>
      mkState (Runs.step (orchestrator st) ev) (previewRuns st) (previewWorkers st)
  | PreviewRequest _ _ => st
  end.

Definition run_inputs (st : State) (inputs : list Input) : State :=
  fold_left step inputs st.

Inductive reachable : State -> Prop :=
| reach_init fs : reachable (init fs)
| reach_step st input : reachable st -> reachable (step st input).

End Server.

(** The server once the first upload has become ready. *)
Definition servedState : Server.State :=
  Server.run_inputs (Server.init ∅) (Server.RunsEvent <$> readyTrace).

(* ===================================================================== *)
(** * Part II: properties                                                 *)
(* ===================================================================== *)

(** ** Run registry *)

Section RunStoreFacts.

Import RunStore.

Lemma update_lookup (i j : string) (u : Updates) (now : string) (runs : Store) :
  snd (update i u now runs) !! j =
  if decide (i = j) then (fun r => merge r u now) <$> runs !! j else runs !! j.
Proof.
  unfold update. case_decide as Hij.
  - subst j. destruct (runs !! i) as [r|] eqn:Hr; simpl.
    + by rewrite lookup_insert_eq.
    + by rewrite Hr.
  - destruct (runs !! i); simpl; [by rewrite lookup_insert_ne|done].
Qed.

Lemma update_absent (i : string) (u : Updates) (now : string) (runs : Store) :
  runs !! i = None -> update i u now runs = (None, runs).
Proof. intros H. unfold update. by rewrite H. Qed.

Lemma update_after_delete (i : string) (u : Updates) (now : string) (runs : Store) :
  update i u now (snd (delete i runs)) = (None, snd (delete i runs)).
Proof. apply update_absent. simpl. apply lookup_delete_eq. Qed.

Lemma get_after_delete (i : string) (runs : Store) :
  get i (snd (delete i runs)) = None.
Proof. unfold get. simpl. apply lookup_delete_eq. Qed.

End RunStoreFacts.

(** C6.  [RunStore.update] on an id that is not stored returns [null] and
    leaves the store as it is (the function is total: nothing is thrown).
    On a stored id it returns the merged run, stores it under the id and
    touches no other run; in the merged run every key the partial object
    gives has the given value and every key it does not give has the
    stored value, whichever key of a run it is, except that [updatedAt] is
    the clock reading in every case. *)
Theorem update_absent_or_merged
    (i : string) (u : RunStore.Updates) (now : string) (runs : RunStore.Store) :
  (RunStore.get i runs = None ->
     RunStore.update i u now runs = (None, runs)) /\
  (forall existing, RunStore.get i runs = Some existing ->
     exists updated,
       RunStore.update i u now runs = (Some updated, <[i := updated]> runs) /\
       RunStore.get i (snd (RunStore.update i u now runs)) = Some updated /\
       (forall j, j <> i ->
          RunStore.get j (snd (RunStore.update i u now runs)) = RunStore.get j runs) /\
       RunStore.updatedAt updated = Some now /\
       RunStore.id updated
         = match RunStore.u_id u with
           | Some given => given
           | None => RunStore.id existing
           end /\
       RunStore.status updated
         = match RunStore.u_status u with
           | Some given => given
           | None => RunStore.status existing
           end /\
       RunStore.createdAt updated
         = match RunStore.u_createdAt u with
           | Some given => given
           | None => RunStore.createdAt existing
           end /\
       RunStore.filePath updated
         = match RunStore.u_filePath u with
           | Some given => Some given
           | None => RunStore.filePath existing
           end /\
       RunStore.originalName updated
         = match RunStore.u_originalName u with
           | Some given => Some given
           | None => RunStore.originalName existing
           end /\
       RunStore.fileSize updated
         = match RunStore.u_fileSize u with
           | Some given => Some given
           | None => RunStore.fileSize existing
           end /\
       RunStore.projectType updated
         = match RunStore.u_projectType u with
           | Some given => Some given
           | None => RunStore.projectType existing
           end /\
       RunStore.projectInfo updated
         = match RunStore.u_projectInfo u with
           | Some given => Some given
           | None => RunStore.projectInfo existing
           end /\
       RunStore.workerId updated
         = match RunStore.u_workerId u with
           | Some given => Some given
           | None => RunStore.workerId existing
           end /\
       RunStore.workerPort updated
         = match RunStore.u_workerPort u with
           | Some given => Some given
           | None => RunStore.workerPort existing
           end /\
       RunStore.previewUrl updated
         = match RunStore.u_previewUrl u with
           | Some given => Some given
           | None => RunStore.previewUrl existing
           end /\
       RunStore.readyAt updated
         = match RunStore.u_readyAt u with
           | Some given => Some given
           | None => RunStore.readyAt existing
           end /\
       RunStore.error updated
         = match RunStore.u_error u with
           | Some given => Some given
           | None => RunStore.error existing
           end /\
       RunStore.failedAt updated
         = match RunStore.u_failedAt u with
           | Some given => Some given
           | None => RunStore.failedAt existing
           end).
Proof.
  unfold RunStore.get. split.
  - apply update_absent.
  - intros existing Hex. exists (RunStore.merge existing u now).
    unfold RunStore.update. rewrite Hex. simpl.
    split; [done|]. split; [apply lookup_insert_eq|].
    split; [intros j Hj; by apply lookup_insert_ne|].
    destruct u as [uid ucreated upath uname usize uupdated ustatus utype uinfo uwid uport
                     uurl uready uerror ufailed].
    simpl. unfold RunStore.spread.
    repeat split;
      by destruct uid, ucreated, upath, uname, usize, ustatus, utype, uinfo, uwid, uport,
                  uurl, uready, uerror, ufailed.
Qed.

Lemma update_absent_or_merged_witness :
  RunStore.update "gone" markServed "t1" sampleStore = (None, sampleStore) /\
  exists updated,
    RunStore.update "test-1" markServed "t1" sampleStore
    = (Some updated, <["test-1" := updated]> sampleStore) /\
    RunStore.status updated = "ready" /\
    RunStore.previewUrl updated = Some "/preview/test-1" /\
    RunStore.workerPort updated = Some 8000%Z /\
    RunStore.originalName updated = Some "renamed.zip" /\
    RunStore.createdAt updated = "2024-01-01T00:00:00.000Z" /\
    RunStore.error updated = None /\
    RunStore.updatedAt updated = Some "t1".
Proof.
  split.
  - apply (proj1 (update_absent_or_merged "gone" markServed "t1" sampleStore)).
    vm_compute. reflexivity.
  - assert (Hget : RunStore.get "test-1" sampleStore = Some sampleRun)
      by (vm_compute; reflexivity).
    destruct (proj2 (update_absent_or_merged "test-1" markServed "t1" sampleStore)
                sampleRun Hget)
      as (updated & Hupd & _ & _ & Hat & _ & Hst & Hcr & _ & Hname & _ & _ & _ & _
          & Hport & Hurl & _ & Herr & _).
    exists updated. split; [exact Hupd|]. split; [exact Hst|]. split; [exact Hurl|].
    split; [exact Hport|]. split; [exact Hname|]. split; [exact Hcr|].
    split; [exact Herr|exact Hat].
Defined.

(** ** Preview gateway *)

Section PreviewFacts.

Import RunStore Preview.

Example content_types :
  getContentType "" = "text/html" /\ getContentType "docs/" = "text/html" /\
  getContentType "app.js" = "application/javascript" /\
  getContentType "logo.jpeg" = "image/jpeg" /\ getContentType "README" = "text/plain".
Proof. repeat split. Qed.

Example not_ready_and_not_found :
  handler sampleStore WorkerManager.init "test-1" ""
  = mkResponse 503 [] (WorkerManager.NotReadyPage "queued") /\
  handler sampleStore WorkerManager.init "nobody" ""
  = mkResponse 404 [] WorkerManager.NotFoundPage.
Proof. vm_compute. split; reflexivity. Qed.

Lemma getCSPForProject_profiles (t : option string) :
  getCSPForProject t =
  if bool_decide (t ∈ [Some "react"; Some "vue"; Some "angular"])
  then Config.csp_relaxed else Config.csp_strict.
Proof.
  destruct t as [t|].
  2: { rewrite bool_decide_eq_false_2; [done|].
       rewrite !elem_of_cons, elem_of_nil. intros [H|[H|[H|[]]]]; discriminate. }
  unfold getCSPForProject.
  destruct (String.eqb_spec t "static") as [->|Hs]; [done|].
  destruct (String.eqb_spec t "react") as [->|Hr]; [done|].
  destruct (String.eqb_spec t "vue") as [->|Hv]; [done|].
  destruct (String.eqb_spec t "angular") as [->|Ha]; [done|].
  simpl. rewrite bool_decide_eq_false_2; [done|].
  rewrite !elem_of_cons, elem_of_nil. intros [H|[H|[H|[]]]]; congruence.
Qed.

Lemma profiles_differ : Config.csp_relaxed <> Config.csp_strict.
Proof. discriminate. Qed.

Lemma handler_ready (runs : Store) (wm : WorkerManager.State)
    (runId requestPath : string) (run : Run) :
  get runId runs = Some run ->
  status run = "ready" ->
  handler runs wm runId requestPath =
  match contentFor run wm requestPath with
  | Throw _ => mkResponse 500 [] (WorkerManager.Text "Preview error")
  | Ok content =>
      mkResponse 200
        (securityHeaders (projectType run)
         ++ [("Content-Type", getContentType requestPath)]) content
  end.
Proof. intros Hget Hst. unfold handler. by rewrite Hget, Hst. Qed.

Lemma contentFor_without_worker (run : Run) (wm : WorkerManager.State) (path : string) :
  match workerId run with
  | Some wid => truthy_str wid = false \/ WorkerManager.get wid wm = None
  | None => True
  end ->
  contentFor run wm path = Ok (generateFallbackContent path run).
Proof.
  unfold contentFor. destruct (workerId run) as [wid|]; [|done].
  intros [Hf|Hn]; [by rewrite Hf|].
  rewrite Hn. by destruct (truthy_str wid).
Qed.

End PreviewFacts.

(** What the handler does for a ready run that the store it is given
    holds: every served response (status 200) carries as
    [Content-Security-Policy] the relaxed profile when the run's project
    type is [react], [vue] or [angular], and the strict profile for every
    other type, [static] and a missing type included. *)
Lemma handler_csp_by_type
    (runs : RunStore.Store) (wm : WorkerManager.State)
    (runId requestPath : string) (run : RunStore.Run) :
  RunStore.get runId runs = Some run ->
  RunStore.status run = "ready" ->
  Preview.code (Preview.handler runs wm runId requestPath) = 200 ->
  Preview.header "Content-Security-Policy" (Preview.handler runs wm runId requestPath)
  = Some (if bool_decide (RunStore.projectType run
                            ∈ [Some "react"; Some "vue"; Some "angular"])
          then Config.csp_relaxed else Config.csp_strict).
Proof.
  intros Hget Hst. rewrite (handler_ready _ _ _ _ _ Hget Hst).
  destruct (Preview.contentFor run wm requestPath) as [content|e]; simpl.
  - intros _. unfold Preview.header. simpl.
    by rewrite getCSPForProject_profiles.
  - discriminate.
Qed.

(** What the handler does for a ready run that the store it is given
    holds, when the run's [workerId] is unset (or empty) or names a worker
    the manager it is given does not hold: the response is 200, its body
    is the synthesized fallback content (the page for the empty path and
    [index.html], a script for [.js], a style sheet for [.css], plain text
    otherwise), and its headers are the security headers and the content
    type derived from the path, the same headers as any served response
    for that run, worker-backed ones included. *)
Lemma handler_falls_back
    (runs : RunStore.Store) (wm : WorkerManager.State)
    (runId requestPath : string) (run : RunStore.Run) :
  RunStore.get runId runs = Some run ->
  RunStore.status run = "ready" ->
  match RunStore.workerId run with
  | Some wid => truthy_str wid = false \/ WorkerManager.get wid wm = None
  | None => True
  end ->
  let r := Preview.handler runs wm runId requestPath in
  Preview.code r = 200 /\
  Preview.body r = Preview.generateFallbackContent requestPath run /\
  WorkerManager.kindOf (Preview.body r)
  = (if String.eqb requestPath "" || String.eqb requestPath "index.html"
     then WorkerManager.Html
     else if endsWith ".js" requestPath then WorkerManager.JavaScript
     else if endsWith ".css" requestPath then WorkerManager.Stylesheet
     else WorkerManager.PlainText) /\
  Preview.headers r
  = (Preview.securityHeaders (RunStore.projectType run)
     ++ [("Content-Type", Preview.getContentType requestPath)])%list /\
  (forall wm',
     Preview.code (Preview.handler runs wm' runId requestPath) = 200 ->
     Preview.headers (Preview.handler runs wm' runId requestPath) = Preview.headers r).
Proof.
  intros Hget Hst Hw r. subst r.
  rewrite (handler_ready _ _ _ _ _ Hget Hst).
  rewrite (contentFor_without_worker _ _ _ Hw). simpl.
  split; [done|]. split; [done|]. split.
  - unfold Preview.generateFallbackContent, truthy_str.
    destruct (String.eqb_spec requestPath "") as [->|Hne]; [done|]. simpl.
    destruct (String.eqb requestPath "index.html"); [done|].
    destruct (endsWith ".js" requestPath); [done|].
    by destruct (endsWith ".css" requestPath).
  - split; [done|]. intros wm'.
    rewrite (handler_ready _ _ _ _ _ Hget Hst).
    by destruct (Preview.contentFor run wm' requestPath).
Qed.

(** ** Project classifier *)

Section ClassifierFacts.

Import ZipProcessor.

Example listing_skips_vendored :
  listFiles vendoredTree "" = ["README.md"] /\
  treeFiles vendoredTree = ["node_modules/docs/index.html"; "README.md"].
Proof. split; reflexivity. Qed.

Example classify_react :
  type <$> (match analyzeProject sampleEnv (treeFs reactTree) "temp/extracted-r1" with
            | Ok i => Some i | Throw _ => None end) = Some "react".
Proof. vm_compute. reflexivity. Qed.

Example classify_python_docker_static :
  ZipProcessor.analyzeProject sampleEnv (treeFs pythonTree) "temp/extracted-r1"
  = Ok (mkProjectInfo "python" (Some "Python Web App")
          ["requirements.txt"; "Dockerfile"; "web/main.py"]
          (JStr "pip install -r requirements.txt") (JStr "python app.py") None None None) /\
  ZipProcessor.analyzeProject sampleEnv (treeFs staticTree) "temp/extracted-r1"
  = Ok (mkProjectInfo "static" (Some "Static HTML") ["site/about.html"; "style.css"]
          JNull JNull None (Some "site/about.html") None) /\
  ZipProcessor.analyzeProject sampleEnv (treeFs vendoredTree) "temp/extracted-r1"
  = Ok (mkProjectInfo "unknown" None ["README.md"] JNull JNull None None None) /\
  ZipProcessor.analyzeProject sampleEnv (treeFs reactTree) "/mock/path"
  = Throw (mkError "ENOENT: no such file or directory, scandir '/mock/path'").
Proof. vm_compute. repeat split. Qed.

Example classify_null_manifest_throws :
  analyzeNodeProject [] JNull
  = Throw (mkError "Cannot read properties of null (reading 'scripts')").
Proof. reflexivity. Qed.

Ltac node_cases H :=
  repeat match type of H with
    | bind ?r _ = _ =>
        let E := fresh "E" in
        destruct r as [?|?] eqn:E; simpl in H; [|discriminate H]
    | (let '(_, _) := ?p in _) = _ => destruct p; simpl in H
    | (if ?b then _ else _) = _ =>
        let E := fresh "E" in destruct b eqn:E; simpl in H
    end.

Lemma analyzeNodeProject_type (files : list string) (v : JValue) (info : ProjectInfo) :
  analyzeNodeProject files v = Ok info -> type info ∈ nodeTypes.
Proof.
  unfold analyzeNodeProject, nodeTypes. intros H.
  node_cases H; injection H as <-; simpl; rewrite !elem_of_cons; auto 6.
Qed.

Lemma analyzeNodeProject_empty (files : list string) :
  analyzeNodeProject files (JObj [])
  = Ok (mkProjectInfo "node" (Some "Node.js") files JNull (JStr "node index.js")
          (Some []) None None).
Proof. reflexivity. Qed.

Lemma analyzeProject_unfold (env : Env) (fs : FS) (dir : string) (files : list string) :
  getFileList fs dir = Ok files ->
  analyzeProject env fs dir =
  if has "package.json" (rootFilesOf files) then
    analyzeNodeProject files (readPackageJson env fs dir)
  else if has "requirements.txt" (rootFilesOf files) || has "Pipfile" (rootFilesOf files)
  then Ok (analyzePythonProject files)
  else if has "Dockerfile" (rootFilesOf files) then
    Ok (mkProjectInfo "docker" None files (JStr "docker build .") (JStr "docker run")
          None None None)
  else if existsb (endsWith ".html") files then Ok (analyzeStaticProject files)
  else Ok (mkProjectInfo "unknown" None files JNull JNull None None None).
Proof. intros H. unfold analyzeProject. rewrite H. reflexivity. Qed.

Lemma analyzePythonProject_type (files : list string) :
  type (analyzePythonProject files) = "python".
Proof. unfold analyzePythonProject. by destruct (existsb _ files). Qed.

End ClassifierFacts.

Section ClassifierOrder.

Import ZipProcessor.

Lemma getProp_not_null (v : JValue) (k : string) :
  v <> JNull -> exists r, getProp v k = Ok r.
Proof. destruct v; simpl; eauto. congruence. Qed.

Lemma scripts_not_null (fields : list (string * JValue)) :
  assoc "scripts" fields <> Some JNull ->
  withDefault (assoc "scripts" fields) <> JNull.
Proof. destruct (assoc "scripts" fields) as [[]|]; simpl; congruence. Qed.

Lemma destructure_object (fields : list (string * JValue)) :
  destructure (JObj fields)
  = Ok (withDefault (assoc "scripts" fields),
        withDefault (assoc "dependencies" fields),
        withDefault (assoc "devDependencies" fields)).
Proof. reflexivity. Qed.

Lemma react_manifest (files : list string) (fields deps : list (string * JValue))
    (v : JValue) :
  assoc "dependencies" fields = Some (JObj deps) ->
  assoc "react" deps = Some v -> truthy v = true ->
  assoc "scripts" fields <> Some JNull ->
  exists info, analyzeNodeProject files (JObj fields) = Ok info /\ type info = "react".
Proof.
  intros Hd Hr Hv Hs. apply scripts_not_null in Hs.
  unfold analyzeNodeProject. rewrite destructure_object, Hd. simpl.
  unfold eitherHas. simpl. rewrite Hr. simpl. rewrite Hv. simpl.
  destruct (getProp_not_null _ "build" Hs) as [b ->].
  destruct (getProp_not_null _ "start" Hs) as [s ->].
  destruct (getProp_not_null _ "dev" Hs) as [d ->]. simpl. eauto.
Qed.

Lemma vue_manifest (files : list string) (fields deps : list (string * JValue))
    (v : JValue) (devReact : option JValue) :
  assoc "dependencies" fields = Some (JObj deps) ->
  truthy_opt (assoc "react" deps) = false ->
  getProp (withDefault (assoc "devDependencies" fields)) "react" = Ok devReact ->
  truthy_opt devReact = false ->
  assoc "vue" deps = Some v -> truthy v = true ->
  assoc "scripts" fields <> Some JNull ->
  exists info, analyzeNodeProject files (JObj fields) = Ok info /\ type info = "vue".
Proof.
  intros Hd Hr Hdev Hdr Hvue Hv Hs. apply scripts_not_null in Hs.
  unfold analyzeNodeProject. rewrite destructure_object, Hd. simpl.
  unfold eitherHas. simpl. rewrite Hr, Hdev. simpl. rewrite Hdr. simpl.
  rewrite Hvue. simpl. rewrite Hv. simpl.
  destruct (getProp_not_null _ "build" Hs) as [b ->].
  destruct (getProp_not_null _ "serve" Hs) as [s ->].
  destruct (getProp_not_null _ "dev" Hs) as [d ->]. simpl. eauto.
Qed.

Lemma skipped_directory_not_listed (prefix n : string) (children : list Dirent) :
  n ∈ skipped -> direntFiles prefix (Directory n children) = [].
Proof.
  unfold skipped. rewrite !elem_of_cons, elem_of_nil.
  intros [->|[->|[->|[->|[]]]]]; reflexivity.
Qed.

End ClassifierOrder.

(** C3, as stated, fails: an [.html] file below a skipped directory is not
    seen, so a tree whose only page lies under [node_modules] is [unknown],
    not [static]; a [package.json] whose [dependencies.react] is the empty
    string is a plain [node] project, not [react]; one with a proper
    [dependencies.react] whose [scripts] are [null] has no type at all,
    since the analysis throws; and a [package.json] with [dependencies.vue]
    is not [vue] when its [devDependencies] are [null] (the analysis
    throws) or hold [react] (it is [react]). *)
Lemma html_anywhere_or_react_present_counterexample :
  ~ (forall (env : ZipProcessor.Env) (fs : ZipProcessor.FS) (dir : string)
            (tree : list ZipProcessor.Dirent),
       fs !! dir = Some tree ->
       existsb (fun m => ZipProcessor.has m (ZipProcessor.rootFilesOf (ZipProcessor.treeFiles tree)))
         ["package.json"; "requirements.txt"; "Pipfile"; "Dockerfile"] = false ->
       existsb (endsWith ".html") (ZipProcessor.treeFiles tree) = true ->
       exists info, ZipProcessor.analyzeProject env fs dir = Ok info
                    /\ ZipProcessor.type info = "static") /\
  ~ (forall (env : ZipProcessor.Env) (fs : ZipProcessor.FS) (dir : string)
            (files : list string) (fields deps : list (string * JValue)) (v : JValue),
       ZipProcessor.getFileList fs dir = Ok files ->
       ZipProcessor.has "package.json" (ZipProcessor.rootFilesOf files) = true ->
       ZipProcessor.readPackageJson env fs dir = JObj fields ->
       assoc "dependencies" fields = Some (JObj deps) ->
       assoc "react" deps = Some v ->
       exists info, ZipProcessor.analyzeProject env fs dir = Ok info
                    /\ ZipProcessor.type info = "react") /\
  ~ (forall (env : ZipProcessor.Env) (fs : ZipProcessor.FS) (dir : string)
            (files : list string) (fields deps : list (string * JValue)) (v : JValue),
       ZipProcessor.getFileList fs dir = Ok files ->
       ZipProcessor.has "package.json" (ZipProcessor.rootFilesOf files) = true ->
       ZipProcessor.readPackageJson env fs dir = JObj fields ->
       assoc "dependencies" fields = Some (JObj deps) ->
       assoc "react" deps = Some v -> truthy v = true ->
       exists info, ZipProcessor.analyzeProject env fs dir = Ok info
                    /\ ZipProcessor.type info = "react") /\
  ~ (forall (env : ZipProcessor.Env) (fs : ZipProcessor.FS) (dir : string)
            (files : list string) (fields deps : list (string * JValue)) (v : JValue),
       ZipProcessor.getFileList fs dir = Ok files ->
       ZipProcessor.has "package.json" (ZipProcessor.rootFilesOf files) = true ->
       ZipProcessor.readPackageJson env fs dir = JObj fields ->
       assoc "dependencies" fields = Some (JObj deps) ->
       assoc "react" deps = None ->
       assoc "vue" deps = Some v -> truthy v = true ->
       assoc "scripts" fields <> Some JNull ->
       exists info, ZipProcessor.analyzeProject env fs dir = Ok info
                    /\ ZipProcessor.type info = "vue") /\
  ~ (forall (env : ZipProcessor.Env) (fs : ZipProcessor.FS) (dir : string)
            (files : list string) (fields deps : list (string * JValue)) (v : JValue),
       ZipProcessor.getFileList fs dir = Ok files ->
       ZipProcessor.has "package.json" (ZipProcessor.rootFilesOf files) = true ->
       ZipProcessor.readPackageJson env fs dir = JObj fields ->
       assoc "dependencies" fields = Some (JObj deps) ->
       assoc "react" deps = None ->
       assoc "vue" deps = Some v -> truthy v = true ->
       assoc "scripts" fields <> Some JNull ->
       assoc "devDependencies" fields <> Some JNull ->
       exists info, ZipProcessor.analyzeProject env fs dir = Ok info
                    /\ ZipProcessor.type info = "vue").
Proof.
  split; [|split; [|split; [|split]]].
  - intros H.
    destruct (H sampleEnv (treeFs vendoredTree) "temp/extracted-r1" vendoredTree)
      as (info & Heq & Hty); try (vm_compute; reflexivity).
    vm_compute in Heq. injection Heq as <-. discriminate Hty.
  - intros H.
    destruct (H sampleEnv (treeFs emptyVersionTree) "temp/extracted-r1"
                ["package.json"] [("dependencies", JObj [("react", JStr "")])]
                [("react", JStr "")] (JStr ""))
      as (info & Heq & Hty); try (vm_compute; reflexivity).
    vm_compute in Heq. injection Heq as <-. discriminate Hty.
  - intros H.
    destruct (H manifestEnv (treeFs nullScriptsTree) "temp/extracted-r1"
                ["package.json"]
                [("dependencies", JObj [("react", JStr "^18.2.0")]); ("scripts", JNull)]
                [("react", JStr "^18.2.0")] (JStr "^18.2.0"))
      as (info & Heq & Hty); try (vm_compute; reflexivity).
    vm_compute in Heq. discriminate Heq.
  - intros H.
    destruct (H manifestEnv (treeFs nullDevTree) "temp/extracted-r1"
                ["package.json"]
                [("dependencies", JObj [("vue", JStr "^3.4.0")]);
                 ("devDependencies", JNull)]
                [("vue", JStr "^3.4.0")] (JStr "^3.4.0"))
      as (info & Heq & Hty); try (vm_compute; reflexivity).
    + discriminate.
    + vm_compute in Heq. discriminate Heq.
  - intros H.
    destruct (H manifestEnv (treeFs devReactTree) "temp/extracted-r1"
                ["package.json"]
                [("dependencies", JObj [("vue", JStr "^3.4.0")]);
                 ("devDependencies", JObj [("react", JStr "^18.2.0")])]
                [("vue", JStr "^3.4.0")] (JStr "^3.4.0"))
      as (info & Heq & Hty); try (vm_compute; reflexivity).
    + discriminate.
    + discriminate.
    + vm_compute in Heq. injection Heq as <-. discriminate Hty.
Qed.

(** C3, amended.  Classification follows a strict order over the listing,
    which leaves out everything below [node_modules], [.git],
    [__pycache__] and [.pytest_cache]: a top-level [package.json] first
    (the answer is then the Node analysis of the manifest, and every answer
    it returns has type [react], [vue], [angular] or [node], whatever else
    the tree holds, a [Dockerfile] included), then a top-level
    [requirements.txt] or [Pipfile] ([python]), then a top-level
    [Dockerfile] ([docker]), then any listed file ending in [.html]
    ([static]), else [unknown] with no commands.  A manifest object whose
    [scripts] are not [null] and whose [dependencies] are an object with a
    truthy [react] entry is [react]; a manifest object whose [scripts] are
    not [null], whose [dependencies] are an object with no truthy [react]
    entry and a truthy [vue] entry, and whose [devDependencies] can be read
    (are not [null]) and have no truthy [react] entry, is [vue]. *)
Theorem classification_precedence
    (env : ZipProcessor.Env) (fs : ZipProcessor.FS) (dir : string) (files : list string) :
  ZipProcessor.getFileList fs dir = Ok files ->
  let root := ZipProcessor.rootFilesOf files in
  let result := ZipProcessor.analyzeProject env fs dir in
  (ZipProcessor.has "package.json" root = true ->
     result = ZipProcessor.analyzeNodeProject files (ZipProcessor.readPackageJson env fs dir) /\
     (forall info, result = Ok info -> ZipProcessor.type info ∈ ZipProcessor.nodeTypes)) /\
  (ZipProcessor.has "package.json" root = false ->
   ZipProcessor.has "requirements.txt" root || ZipProcessor.has "Pipfile" root = true ->
     exists info, result = Ok info /\ ZipProcessor.type info = "python") /\
  (ZipProcessor.has "package.json" root = false ->
   ZipProcessor.has "requirements.txt" root || ZipProcessor.has "Pipfile" root = false ->
   ZipProcessor.has "Dockerfile" root = true ->
     exists info, result = Ok info /\ ZipProcessor.type info = "docker") /\
  (ZipProcessor.has "package.json" root = false ->
   ZipProcessor.has "requirements.txt" root || ZipProcessor.has "Pipfile" root = false ->
   ZipProcessor.has "Dockerfile" root = false ->
   existsb (endsWith ".html") files = true ->
     exists info, result = Ok info /\ ZipProcessor.type info = "static") /\
  (ZipProcessor.has "package.json" root = false ->
   ZipProcessor.has "requirements.txt" root || ZipProcessor.has "Pipfile" root = false ->
   ZipProcessor.has "Dockerfile" root = false ->
   existsb (endsWith ".html") files = false ->
     exists info, result = Ok info /\ ZipProcessor.type info = "unknown"
       /\ ZipProcessor.buildCommand info = JNull /\ ZipProcessor.startCommand info = JNull) /\
  (ZipProcessor.has "package.json" root = true ->
   forall fields deps v,
     ZipProcessor.readPackageJson env fs dir = JObj fields ->
     assoc "dependencies" fields = Some (JObj deps) ->
     assoc "react" deps = Some v -> truthy v = true ->
     assoc "scripts" fields <> Some JNull ->
     exists info, result = Ok info /\ ZipProcessor.type info = "react") /\
  (ZipProcessor.has "package.json" root = true ->
   forall fields deps v devReact,
     ZipProcessor.readPackageJson env fs dir = JObj fields ->
     assoc "dependencies" fields = Some (JObj deps) ->
     truthy_opt (assoc "react" deps) = false ->
     getProp (ZipProcessor.withDefault (assoc "devDependencies" fields)) "react"
       = Ok devReact ->
     truthy_opt devReact = false ->
     assoc "vue" deps = Some v -> truthy v = true ->
     assoc "scripts" fields <> Some JNull ->
     exists info, result = Ok info /\ ZipProcessor.type info = "vue").
Proof.
  intros Hlist root result. subst root result.
  rewrite (analyzeProject_unfold env fs dir files Hlist).
  repeat split.
  - by rewrite H.
  - intros info. rewrite H. apply analyzeNodeProject_type.
  - intros Hp Hpy. rewrite Hp, Hpy. eexists. split; [done|].
    apply analyzePythonProject_type.
  - intros Hp Hpy Hd. rewrite Hp, Hpy, Hd. eexists. by split.
  - intros Hp Hpy Hd Hh. rewrite Hp, Hpy, Hd, Hh. eexists. by split.
  - intros Hp Hpy Hd Hh. rewrite Hp, Hpy, Hd, Hh. eexists. by split.
  - intros Hp fields deps v Hm. rewrite Hp, Hm. apply react_manifest.
  - intros Hp fields deps v devReact Hm. rewrite Hp, Hm. apply vue_manifest.
Qed.

Lemma classification_precedence_witness :
  (exists info,
     ZipProcessor.analyzeProject sampleEnv (treeFs reactTree) "temp/extracted-r1" = Ok info
     /\ ZipProcessor.type info = "react") /\
  (exists info,
     ZipProcessor.analyzeProject sampleEnv (treeFs vueTree) "temp/extracted-r1" = Ok info
     /\ ZipProcessor.type info = "vue") /\
  (exists info,
     ZipProcessor.analyzeProject sampleEnv (treeFs vendoredTree) "temp/extracted-r1" = Ok info
     /\ ZipProcessor.type info = "unknown").
Proof.
  split; [|split].
  - destruct (classification_precedence sampleEnv (treeFs reactTree) "temp/extracted-r1"
                ["package.json"; "Dockerfile"; "src/index.html"])
      as (_ & _ & _ & _ & _ & Hreact & _); [vm_compute; reflexivity|].
    apply (Hreact ltac:(vm_compute; reflexivity)
             [("dependencies", JObj [("react", JStr "^18.2.0")])]
             [("react", JStr "^18.2.0")] (JStr "^18.2.0"));
      try (vm_compute; reflexivity).
    vm_compute. discriminate.
  - destruct (classification_precedence sampleEnv (treeFs vueTree) "temp/extracted-r1"
                ["package.json"])
      as (_ & _ & _ & _ & _ & _ & Hvue); [vm_compute; reflexivity|].
    apply (Hvue ltac:(vm_compute; reflexivity)
             [("dependencies", JObj [("vue", JStr "^3.4.0")])]
             [("vue", JStr "^3.4.0")] (JStr "^3.4.0") None);
      try (vm_compute; reflexivity).
    vm_compute. discriminate.
  - destruct (classification_precedence sampleEnv (treeFs vendoredTree) "temp/extracted-r1"
                ["README.md"])
      as (_ & _ & _ & _ & Hunknown & _); [vm_compute; reflexivity|].
    destruct Hunknown as (info & Hinfo & Hty & _); try (vm_compute; reflexivity).
    exists info. by split.
Defined.

(** C9.  When a top-level [package.json] is listed but reading it fails, or
    it is read and [JSON.parse] throws on its text, the manifest degrades to
    the empty object and classification returns, without any error, the
    default Node.js project: type [node], no build command and
    [node index.js] as start command. *)
Theorem unreadable_manifest_degrades
    (env : ZipProcessor.Env) (fs : ZipProcessor.FS) (dir : string) (files : list string) :
  ZipProcessor.getFileList fs dir = Ok files ->
  ZipProcessor.has "package.json" (ZipProcessor.rootFilesOf files) = true ->
  ((exists e, ZipProcessor.readFile fs dir "package.json" = Throw e) \/
   (exists content e,
      ZipProcessor.readFile fs dir "package.json" = Ok content /\
      ZipProcessor.JSON_parse env content = Throw e)) ->
  ZipProcessor.readPackageJson env fs dir = JObj [] /\
  ZipProcessor.analyzeProject env fs dir
  = Ok (ZipProcessor.mkProjectInfo "node" (Some "Node.js") files JNull
          (JStr "node index.js") (Some []) None None).
Proof.
  intros Hlist Hpkg Hbad.
  assert (Hempty : ZipProcessor.readPackageJson env fs dir = JObj []).
  { unfold ZipProcessor.readPackageJson.
    destruct Hbad as [[e ->]|(content & e & -> & Hparse)]; simpl; [done|].
    by rewrite Hparse. }
  split; [exact Hempty|].
  rewrite (analyzeProject_unfold env fs dir files Hlist), Hpkg, Hempty.
  apply analyzeNodeProject_empty.
Qed.

Lemma unreadable_manifest_degrades_witness :
  ZipProcessor.analyzeProject sampleEnv (treeFs brokenTree) "temp/extracted-r1"
  = Ok (ZipProcessor.mkProjectInfo "node" (Some "Node.js") ["package.json"; "Dockerfile"]
          JNull (JStr "node index.js") (Some []) None None).
Proof.
  apply (unreadable_manifest_degrades sampleEnv (treeFs brokenTree) "temp/extracted-r1"
           ["package.json"; "Dockerfile"]).
  - vm_compute. reflexivity.
  - vm_compute. reflexivity.
  - right. exists "{ not json", (mkError "Unexpected token in JSON").
    split; vm_compute; reflexivity.
Defined.

(** ** Archive validation and extraction *)

Section StringFacts.

Example split_examples :
  split_slash "" = [""] /\ split_slash "a/b" = ["a"; "b"] /\
  split_slash "/a" = [""; "a"] /\ split_slash "a/" = ["a"; ""] /\
  split_slash "../evil" = [".."; "evil"].
Proof. repeat split. Qed.

Example includes_examples :
  includes ".." "a/../b" = true /\ includes ".." "a.b/c." = false /\
  endsWith ".html" "x/index.html" = true /\ endsWith ".html" "html" = false.
Proof. repeat split. Qed.

Lemma split_slash_cons (s : string) : exists x xs, split_slash s = x :: xs.
Proof.
  destruct s as [|c s]; simpl; [eauto|].
  destruct (Ascii.eqb c "/"); [eauto|].
  destruct (split_slash s); eauto.
Qed.

(** The first component is how the string starts. *)
Lemma split_slash_head_prefix (s x : string) (xs : list string) :
  split_slash s = x :: xs -> String.prefix x s = true.
Proof.
  revert x xs. induction s as [|c s IH]; simpl; intros x xs H.
  - injection H as <- _. reflexivity.
  - destruct (Ascii.eqb c "/") eqn:Hc.
    + injection H as <- _. reflexivity.
    + destruct (split_slash s) as [|y ys] eqn:Hs.
      * destruct (split_slash_cons s) as (y & ys & Hy). congruence.
      * injection H as <- _. simpl.
        destruct (ascii_dec c c); [|congruence]. by apply (IH y ys).
Qed.

Lemma prefix_cons_inv (a b : ascii) (p s : string) :
  String.prefix (String a p) (String b s) = true -> a = b /\ String.prefix p s = true.
Proof.
  cbn [String.prefix]. destruct (ascii_dec a b) as [->|]; [auto|discriminate].
Qed.

Lemma prefix_same (a : ascii) (p s : string) :
  String.prefix (String a p) (String a s) = String.prefix p s.
Proof. cbn [String.prefix]. destruct (ascii_dec a a); [done|congruence]. Qed.

Lemma includes_tail (sub : string) (c : ascii) (s : string) :
  includes sub s = true -> includes sub (String c s) = true.
Proof. intros H. cbn [includes]. rewrite H. apply orb_true_r. Qed.

Lemma includes_prefix (sub s : string) :
  String.prefix sub s = true -> includes sub s = true.
Proof. intros H. destruct s; cbn [includes]; rewrite H; reflexivity. Qed.

(** A parent-directory component makes the name contain two dots. *)
Lemma dotdot_segment_included (s : string) :
  ".." ∈ split_slash s -> includes ".." s = true.
Proof.
  induction s as [|c s IH].
  - cbn. rewrite elem_of_cons, elem_of_nil. intros [H|[]]. discriminate H.
  - cbn [split_slash]. destruct (Ascii.eqb c "/") eqn:Hc.
    + rewrite elem_of_cons. intros [H|H]; [discriminate H|].
      by apply includes_tail, IH.
    + destruct (split_slash s) as [|y ys] eqn:Hs.
      * destruct (split_slash_cons s) as (y & ys & Hy). congruence.
      * rewrite elem_of_cons. intros [H|H].
        -- injection H as <- <-.
           pose proof (split_slash_head_prefix s "." ys Hs) as Hp.
           destruct s as [|d s']; [discriminate Hs|].
           apply prefix_cons_inv in Hp as [<- _].
           apply includes_prefix. rewrite !prefix_same. by destruct s'.
        -- apply includes_tail, IH. rewrite elem_of_cons. by right.
Qed.

End StringFacts.

Section ExtractFacts.

Import ZipProcessor.

Lemma validateEntries_unsafe (entries : list ZipEntry) (e : Error) :
  validateEntries entries = Throw e -> UnsafeArchive e.
Proof.
  induction entries as [|entry rest IH]; simpl; [discriminate|].
  destruct (includes ".." (entryName entry) || isAbsolute (entryName entry)).
  - intros [= <-]. right. left. eauto.
  - destruct (maxDepth <? length (split_slash (entryName entry)))%nat; [|exact IH].
    intros [= <-]. right. right. eauto.
Qed.

Lemma validateEntries_rejects (entries : list ZipEntry) (entry : ZipEntry) :
  entry ∈ entries -> offending (entryName entry) = true ->
  exists e, validateEntries entries = Throw e.
Proof.
  unfold offending. induction entries as [|x rest IH]; intros Hin Hbad.
  - by apply elem_of_nil in Hin.
  - simpl.
    destruct (includes ".." (entryName x) || isAbsolute (entryName x)) eqn:Hx; [eauto|].
    destruct (maxDepth <? length (split_slash (entryName x)))%nat eqn:Hd; [eauto|].
    apply elem_of_cons in Hin as [->|Hin]; [|by apply IH].
    rewrite Hx, Hd in Hbad. discriminate Hbad.
Qed.

Lemma rm_effect (env : Env) (p : string) (st : State) :
  snd (rm env p st)
  = mkState (match rm_error env with
              | Some _ => fs st
              | None => delete p (fs st)
              end)
      (extractedProjects st) (OpRm p :: log st).
Proof. unfold rm. by destruct (rm_error env). Qed.

(** An archive that fails one of the two checks: nothing but the removal
    of the extraction directory is issued. *)
Lemma extract_invalid (env : Env) (zipPath runId : string) (st : State)
    (entries : list ZipEntry) :
  readZip env zipPath = Ok entries ->
  (Config.upload_maxFiles <? length entries)%nat = true
  \/ (exists e, validateEntries entries = Throw e) ->
  exists e, UnsafeArchive e /\
    extract env zipPath runId st = (Throw e, snd (rm env (extractPathOf runId) st)).
Proof.
  intros Hzip Hbad. unfold extract, extractBody. rewrite Hzip.
  destruct (Config.upload_maxFiles <? length entries)%nat eqn:Hn.
  - exists (tooManyFiles (length entries)). split; [left; eauto|].
    by destruct (rm env (extractPathOf runId) st).
  - destruct Hbad as [?|[e He]]; [done|]. rewrite He.
    exists e. split; [by eapply validateEntries_unsafe|].
    by destruct (rm env (extractPathOf runId) st).
Qed.

Lemma offending_of_shape (name : string) :
  isAbsolute name = true \/ ".." ∈ split_slash name
  \/ (maxDepth < length (split_slash name))%nat ->
  offending name = true.
Proof.
  unfold offending. intros [H|[H|H]].
  - rewrite H. by rewrite orb_true_r.
  - by rewrite (dotdot_segment_included _ H).
  - apply Nat.ltb_lt in H. rewrite H. apply orb_true_r.
Qed.

(** Every way [extract] can end, in terms of its body. *)
Lemma extract_outcome (env : Env) (zipPath runId : string) (st : State) :
  match extractBody env zipPath runId st with
  | (Ok info, st') => extract env zipPath runId st = (Ok info, st')
  | (Throw e, st') =>
      extract env zipPath runId st = (Throw e, snd (rm env (extractPathOf runId) st'))
  end.
Proof.
  unfold extract. destruct (extractBody env zipPath runId st) as [[info|e] st']; [done|].
  by destruct (rm env (extractPathOf runId) st').
Qed.

(** The body of [extract] records a project only when it succeeds. *)
Lemma extractBody_throw_keeps_projects (env : Env) (zipPath runId : string)
    (st : State) (e : Error) :
  fst (extractBody env zipPath runId st) = Throw e ->
  extractedProjects (snd (extractBody env zipPath runId st)) = extractedProjects st.
Proof.
  unfold extractBody, mkdir, extractAllTo.
  destruct (readZip env zipPath) as [entries|]; [|done].
  destruct (Config.upload_maxFiles <? length entries)%nat; [done|].
  destruct (validateEntries entries); [|done].
  destruct (mkdir_error env); [done|].
  destruct (fs (logged _ st) !! extractPathOf runId);
    destruct (extractAll_error env) as [[n e']|]; simpl; try done;
    match goal with |- context [analyzeProject ?a ?b ?c] =>
      destruct (analyzeProject a b c) end; simpl; done.
Qed.

End ExtractFacts.

(** C1.  Whenever the archive holds more entries than the configured
    maximum, or one of its entry names is absolute, has a [..] component or
    is nested deeper than the maximum depth, [extract] throws one of the
    validation errors, and the archive is not extracted: the only
    file-system call issued is the removal of the extraction directory, no
    project is recorded, and the disk is as before except that the
    extraction directory may be gone. *)
Theorem unsafe_archive_rejected
    (env : ZipProcessor.Env) (zipPath runId : string) (st : ZipProcessor.State)
    (entries : list ZipProcessor.ZipEntry) :
  ZipProcessor.readZip env zipPath = Ok entries ->
  (Config.upload_maxFiles < length entries)%nat \/
  (exists entry, entry ∈ entries /\
     (isAbsolute (ZipProcessor.entryName entry) = true \/
      ".." ∈ split_slash (ZipProcessor.entryName entry) \/
      (ZipProcessor.maxDepth < length (split_slash (ZipProcessor.entryName entry)))%nat)) ->
  exists error st',
    ZipProcessor.extract env zipPath runId st = (Throw error, st') /\
    ZipProcessor.UnsafeArchive error /\
    ZipProcessor.log st'
      = ZipProcessor.OpRm (ZipProcessor.extractPathOf runId) :: ZipProcessor.log st /\
    ZipProcessor.extractedProjects st' = ZipProcessor.extractedProjects st /\
    (ZipProcessor.fs st' = ZipProcessor.fs st \/
     ZipProcessor.fs st' = delete (ZipProcessor.extractPathOf runId) (ZipProcessor.fs st)).
Proof.
  intros Hzip Hbad.
  destruct (extract_invalid env zipPath runId st entries Hzip) as (e & Hunsafe & Hex).
  - destruct Hbad as [Hn|(entry & Hin & Hshape)].
    + left. by apply Nat.ltb_lt.
    + right. eapply validateEntries_rejects; [exact Hin|].
      by apply offending_of_shape.
  - exists e, (snd (ZipProcessor.rm env (ZipProcessor.extractPathOf runId) st)).
    split; [exact Hex|]. split; [exact Hunsafe|].
    rewrite rm_effect. simpl. split; [done|]. split; [done|].
    destruct (ZipProcessor.rm_error env); auto.
Qed.

Lemma unsafe_archive_rejected_witness :
  exists error st',
    ZipProcessor.extract evilEnv "temp/upload-evil" "r1" emptyDisk = (Throw error, st') /\
    ZipProcessor.UnsafeArchive error /\
    ZipProcessor.fs st' !! "temp/extracted-r1" = None.
Proof.
  destruct (unsafe_archive_rejected evilEnv "temp/upload-evil" "r1" emptyDisk
              [ZipProcessor.mkZipEntry "index.html" "<!DOCTYPE html>";
               ZipProcessor.mkZipEntry "assets/../../evil" "x"])
    as (error & st' & Hex & Hunsafe & _ & _ & Hfs).
  - reflexivity.
  - right. exists (ZipProcessor.mkZipEntry "assets/../../evil" "x"). split.
    + apply elem_of_cons. right. apply elem_of_cons. by left.
    + right. left. vm_compute.
      apply elem_of_cons. right. apply elem_of_cons. by left.
  - exists error, st'. split; [exact Hex|]. split; [exact Hunsafe|].
    destruct Hfs as [->| ->]; vm_compute; reflexivity.
Defined.

Example extract_react_archive :
  let '(r, st) := ZipProcessor.extract sampleEnv "temp/upload-react" "r1" emptyDisk in
  (ZipProcessor.type <$> (match r with Ok i => Some i | Throw _ => None end)) = Some "react" /\
  ZipProcessor.listFiles (default [] (ZipProcessor.fs st !! "temp/extracted-r1")) ""
  = ["package.json"; "Dockerfile"; "src/index.html"] /\
  ZipProcessor.log st
  = [ZipProcessor.OpExtractAll "temp/extracted-r1"; ZipProcessor.OpMkdir "temp/extracted-r1"].
Proof. vm_compute. repeat split. Qed.

(** C2, as stated, fails: when the removal of the extraction directory is
    itself refused, the refusal is logged and swallowed, the first error is
    thrown, and what was written stays.  Here the disk fills up after the
    first of three entries and the directory is busy. *)
Lemma failed_extraction_may_leave_output_counterexample :
  ~ (forall (env : ZipProcessor.Env) (zipPath runId : string) (st : ZipProcessor.State)
            (e : Error),
       fst (ZipProcessor.extract env zipPath runId st) = Throw e ->
       ZipProcessor.fs (snd (ZipProcessor.extract env zipPath runId st))
         !! ZipProcessor.extractPathOf runId = None).
Proof.
  intros H.
  specialize (H failingEnv "temp/upload-react" "r1" emptyDisk
                (mkError "ENOSPC: no space left on device, write")
                ltac:(vm_compute; reflexivity)).
  vm_compute in H. discriminate H.
Qed.

Example failed_extraction_leftover :
  ZipProcessor.extract failingEnv "temp/upload-react" "r1" emptyDisk
  = (Throw (mkError "ENOSPC: no space left on device, write"),
     ZipProcessor.mkState
       (<["temp/extracted-r1" :=
            [ZipProcessor.File "package.json" (Some (manifestText "react" "^18.2.0"))]]> ∅)
       ∅
       [ZipProcessor.OpRm "temp/extracted-r1"; ZipProcessor.OpExtractAll "temp/extracted-r1";
        ZipProcessor.OpMkdir "temp/extracted-r1"]).
Proof. vm_compute. reflexivity. Qed.

(** C2, amended.  [extract] checks every entry before it writes: if one
    entry is bad the call throws having issued no [mkdir] and no
    extraction, and whenever a [mkdir] or an extraction was issued no entry
    is bad.  On every error the removal of the extraction directory is the
    last file-system call before the error of the body is thrown again, and
    no project is recorded; if that removal is not refused, no extraction
    directory remains (if it is refused, the disk stays as the body left
    it). *)
Theorem extract_validates_first_and_cleans_up
    (env : ZipProcessor.Env) (zipPath runId : string) (st : ZipProcessor.State) :
  let r := ZipProcessor.extract env zipPath runId st in
  let body := ZipProcessor.extractBody env zipPath runId st in
  let p := ZipProcessor.extractPathOf runId in
  (forall entries entry,
     ZipProcessor.readZip env zipPath = Ok entries ->
     entry ∈ entries ->
     ZipProcessor.offending (ZipProcessor.entryName entry) = true ->
     exists e, fst r = Throw e /\
       ZipProcessor.log (snd r) = ZipProcessor.OpRm p :: ZipProcessor.log st) /\
  (forall entries issued,
     ZipProcessor.readZip env zipPath = Ok entries ->
     ZipProcessor.log (snd r) = (issued ++ ZipProcessor.log st)%list ->
     ZipProcessor.OpMkdir p ∈ issued \/ ZipProcessor.OpExtractAll p ∈ issued ->
     forall entry, entry ∈ entries ->
       ZipProcessor.offending (ZipProcessor.entryName entry) = false) /\
  (forall e, fst r = Throw e ->
     fst body = Throw e /\
     ZipProcessor.log (snd r) = ZipProcessor.OpRm p :: ZipProcessor.log (snd body) /\
     ZipProcessor.extractedProjects (snd r) = ZipProcessor.extractedProjects st /\
     (ZipProcessor.rm_error env = None -> ZipProcessor.fs (snd r) !! p = None) /\
     (forall cleanupError, ZipProcessor.rm_error env = Some cleanupError ->
        ZipProcessor.fs (snd r) = ZipProcessor.fs (snd body))).
Proof.
  intros r body p. subst r body p.
  assert (Hbad : forall entries entry,
     ZipProcessor.readZip env zipPath = Ok entries ->
     entry ∈ entries ->
     ZipProcessor.offending (ZipProcessor.entryName entry) = true ->
     exists e, fst (ZipProcessor.extract env zipPath runId st) = Throw e /\
       ZipProcessor.log (snd (ZipProcessor.extract env zipPath runId st))
       = ZipProcessor.OpRm (ZipProcessor.extractPathOf runId) :: ZipProcessor.log st).
  { intros entries entry Hzip Hin Hoff.
    destruct (extract_invalid env zipPath runId st entries Hzip) as (e & _ & ->).
    - right. by eapply validateEntries_rejects.
    - exists e. split; [done|]. simpl. by rewrite rm_effect. }
  split; [exact Hbad|]. split.
  - intros entries issued Hzip Hlog Hissued entry Hin.
    destruct (ZipProcessor.offending (ZipProcessor.entryName entry)) eqn:Hoff; [|done].
    destruct (Hbad entries entry Hzip Hin Hoff) as (e & _ & Hlog').
    rewrite Hlog' in Hlog.
    change (ZipProcessor.OpRm (ZipProcessor.extractPathOf runId) :: ZipProcessor.log st)
      with ([ZipProcessor.OpRm (ZipProcessor.extractPathOf runId)] ++ ZipProcessor.log st)%list
      in Hlog.
    apply app_inv_tail in Hlog. subst issued.
    rewrite !list_elem_of_singleton in Hissued.
    destruct Hissued as [H|H]; discriminate H.
  - intros e.
    pose proof (extract_outcome env zipPath runId st) as Hout.
    pose proof (extractBody_throw_keeps_projects env zipPath runId st) as Hkeep.
    destruct (ZipProcessor.extractBody env zipPath runId st) as [[info|e'] st'].
    + rewrite Hout. discriminate.
    + rewrite Hout. simpl. intros [= ->]. rewrite rm_effect. simpl.
      split; [done|]. split; [done|]. split; [by apply (Hkeep e)|]. split.
      * intros ->. apply lookup_delete_eq.
      * by intros cleanupError ->.
Qed.

Lemma extract_validates_first_and_cleans_up_witness :
  (exists e,
     fst (ZipProcessor.extract evilEnv "temp/upload-evil" "r1" emptyDisk) = Throw e /\
     ZipProcessor.log (snd (ZipProcessor.extract evilEnv "temp/upload-evil" "r1" emptyDisk))
     = [ZipProcessor.OpRm "temp/extracted-r1"]) /\
  ZipProcessor.fs
    (snd (ZipProcessor.extract
            (ZipProcessor.mkEnv sampleZips sampleParse None
               (Some (1, mkError "ENOSPC: no space left on device, write")) None)
            "temp/upload-react" "r1" emptyDisk))
    !! "temp/extracted-r1" = None.
Proof.
  split.
  - apply (proj1 (extract_validates_first_and_cleans_up evilEnv "temp/upload-evil" "r1"
                    emptyDisk)
             [ZipProcessor.mkZipEntry "index.html" "<!DOCTYPE html>";
              ZipProcessor.mkZipEntry "assets/../../evil" "x"]
             (ZipProcessor.mkZipEntry "assets/../../evil" "x")).
    + reflexivity.
    + apply elem_of_cons. right. apply elem_of_cons. by left.
    + vm_compute. reflexivity.
  - apply (proj2 (proj2 (extract_validates_first_and_cleans_up
                    (ZipProcessor.mkEnv sampleZips sampleParse None
                       (Some (1, mkError "ENOSPC: no space left on device, write")) None)
                    "temp/upload-react" "r1" emptyDisk))
             (mkError "ENOSPC: no space left on device, write")).
    + vm_compute. reflexivity.
    + reflexivity.
Defined.

(** ** Run orchestration *)

Section OrchestrationFacts.

Import RunStore Runs Invariants.

Lemma runStore_updateRun (i j : string) (u : Updates) (now : Clock) (sys : Sys) :
  runStore (updateRun i u now sys) !! j =
  if decide (i = j) then (fun r => merge r u (iso now)) <$> runStore sys !! j
  else runStore sys !! j.
Proof. unfold updateRun. simpl. apply update_lookup. Qed.

Lemma runStore_setTask (k : string) (t : Task) (sys : Sys) :
  runStore (setTask k t sys) = runStore sys.
Proof. reflexivity. Qed.

Lemma runStore_failRun (run : Run) (e : Error) (now : Clock) (sys : Sys) (j : string) :
  runStore (failRun run e now sys) !! j =
  if decide (id run = j) then
    (fun r =>
       merge (merge r (mkUpdates (Some "failed") None None None None None None
                         (Some (message e)) (Some (iso now))) (iso now))
         (mkUpdates (Some "failed") None None None None None None
            (Some (message e)) None) (iso now)) <$> runStore sys !! j
  else runStore sys !! j.
Proof.
  unfold failRun. rewrite runStore_setTask, !runStore_updateRun.
  case_decide; [|done]. by destruct (runStore sys !! j).
Qed.

Lemma tasks_failRun (run : Run) (e : Error) (now : Clock) (sys : Sys) :
  tasks (failRun run e now sys) = <[id run := Finished (Some e)]> (tasks sys).
Proof. reflexivity. Qed.

Lemma agrees_settled (t : Task) (run : Run) : agrees t run -> settled run.
Proof.
  assert (Hno : forall A : Type, is_Some (@None A) -> False)
    by (intros A [? ?]; discriminate).
  assert (Hp : pending run -> settled run).
  { intros ([Hs|Hs] & Hp & He); unfold settled; rewrite Hs, Hp, He;
      repeat split; intros H; try discriminate H; by apply Hno in H. }
  destruct t as [| | | |[e|]]; simpl; try exact Hp; unfold settled.
  - intros (Hs & He & Hp'). rewrite Hs, Hp'.
    repeat split; intros H; try done; try discriminate H; by apply Hno in H.
  - intros (Hs & Hp' & He). rewrite Hs, He.
    repeat split; intros H; try done; try discriminate H; by apply Hno in H.
Qed.

(** A step that concerns the run [k] keeps the server consistent if it
    leaves the other runs alone and the run [k], if stored, agrees with the
    new state of its task. *)
Lemma consistent_step (sys sys' : Sys) (k : string) (t' : Task) :
  consistent sys ->
  tasks sys' = <[k := t']> (tasks sys) ->
  (forall j, j <> k -> runStore sys' !! j = runStore sys !! j) ->
  (forall run', runStore sys' !! k = Some run' -> agrees t' run') ->
  (forall r, taskRun t' = Some r -> id r = k) ->
  consistent sys'.
Proof.
  intros [Hid Hag] Ht Hother Hk Hr. split.
  - intros j t r. rewrite Ht. destruct (decide (k = j)) as [<-|Hne].
    + rewrite lookup_insert_eq. intros [= <-]. apply Hr.
    + rewrite lookup_insert_ne by done. apply Hid.
  - intros j run. rewrite Ht. destruct (decide (k = j)) as [<-|Hne].
    + intros Hrun. exists t'. rewrite lookup_insert_eq. split; [done|]. by apply Hk.
    + rewrite lookup_insert_ne by done. rewrite Hother by done. apply Hag.
Qed.

Lemma pending_failed (run : Run) (e : Error) (now : Clock) :
  pending run ->
  agrees (Finished (Some e))
    (merge (merge run (mkUpdates (Some "failed") None None None None None None
                         (Some (message e)) (Some (iso now))) (iso now))
       (mkUpdates (Some "failed") None None None None None None
          (Some (message e)) None) (iso now)).
Proof. intros (_ & Hp & _). simpl. by rewrite Hp. Qed.

Lemma agrees_awaiting (t : Task) (r : Run) :
  is_Some (taskRun t) -> agrees t r = pending r.
Proof. destruct t; try done. by intros [? ?]. Qed.

Lemma consistent_failRun (sys sys0 : Sys) (run : Run) (e : Error) (now : Clock) (t : Task) :
  consistent sys ->
  tasks sys !! id run = Some t -> is_Some (taskRun t) ->
  runStore sys0 = runStore sys -> tasks sys0 = tasks sys ->
  consistent (failRun run e now sys0).
Proof.
  intros Hc Ht Hpend Hruns Htasks.
  apply (consistent_step sys _ (id run) (Finished (Some e))); [done|..].
  - by rewrite tasks_failRun, Htasks.
  - intros j Hj. rewrite runStore_failRun, Hruns. by rewrite decide_False by done.
  - intros run'. rewrite runStore_failRun, Hruns, decide_True by done.
    destruct (runStore sys !! id run) as [r|] eqn:Hr; [|discriminate].
    intros [= <-]. apply pending_failed. rewrite <- (agrees_awaiting t) by done.
    destruct Hc as [_ Hag]. destruct (Hag _ _ Hr) as (t0 & Ht0 & Hagr). congruence.
  - discriminate.
Qed.

Lemma consistent_continueWait (sys sys0 : Sys) (run : Run) (a : nat)
    (w : WorkerManager.Worker) (started : Z) (now : Clock) (t : Task) :
  consistent sys ->
  tasks sys !! id run = Some t -> is_Some (taskRun t) ->
  tasks sys0 = tasks sys ->
  (forall j, j <> id run -> runStore sys0 !! j = runStore sys !! j) ->
  (forall r, runStore sys0 !! id run = Some r -> pending r) ->
  consistent (continueWait run a w started now sys0).
Proof.
  intros Hc Ht Hpend Htasks Hother Hk. unfold continueWait.
  assert (Hc0 : consistent sys0).
  { apply (consistent_step sys sys0 (id run) t); [done|..].
    - rewrite Htasks. symmetry. by apply insert_id.
    - done.
    - intros r Hr. rewrite agrees_awaiting by done. by apply Hk.
    - intros r Hr. destruct Hc as [Hid _]. by apply (Hid _ t). }
  assert (Ht0 : tasks sys0 !! id run = Some t) by by rewrite Htasks.
  destruct (WorkerManager.checkReady w started (ms now) readyTimeout).
  - apply (consistent_step sys0 _ (id run) (Finished None)); [done|done|..].
    + intros j Hj. rewrite runStore_setTask, runStore_updateRun.
      by rewrite decide_False by done.
    + intros run'. rewrite runStore_setTask, runStore_updateRun, decide_True by done.
      destruct (runStore sys0 !! id run) as [r|] eqn:Hr; [|discriminate].
      intros [= <-]. destruct (Hk r eq_refl) as (_ & _ & He). simpl.
      rewrite He. split; [done|]. split; [by eexists|done].
    + discriminate.
  - by apply (consistent_failRun sys0 sys0 run _ now t).
  - by apply (consistent_failRun sys0 sys0 run _ now t).
  - apply (consistent_step sys0 _ (id run) (AwaitReady run a started)); [done|done|..].
    + done.
    + intros r Hr. simpl. by apply Hk.
    + by intros r [= <-].
Qed.

End OrchestrationFacts.

Section OrchestrationInvariant.

Import RunStore Runs Invariants.

Lemma consistent_same (sys sys' : Sys) :
  runStore sys' = runStore sys -> tasks sys' = tasks sys ->
  consistent sys -> consistent sys'.
Proof. unfold consistent. by intros -> ->. Qed.

Lemma pending_merge (r : Run) (u : Updates) (now : string) :
  pending r ->
  u_status u = Some "building" \/ u_status u = Some "extracting" ->
  u_previewUrl u = None -> u_error u = None ->
  pending (merge r u now).
Proof.
  intros (_ & Hp & He) Hs Hup Hue. unfold pending. simpl.
  rewrite Hup, Hue. simpl. destruct Hs as [-> | ->]; simpl; auto.
Qed.

Lemma consistent_init (fs : ZipProcessor.FS) : consistent (init fs).
Proof. split; intros k ? ?; simpl; by rewrite lookup_empty. Qed.

Lemma consistent_post (runId path originalname : string) (size : Z) (now : Clock)
    (sys : Sys) :
  consistent sys -> consistent (post runId path originalname size now sys).
Proof.
  intros Hc. unfold post. destruct (tasks sys !! runId) eqn:Ht; [done|].
  match goal with |- consistent (setTask _ (AwaitExtract ?r) _) => set (run := r) end.
  apply (consistent_step sys _ runId (AwaitExtract run)); [done|done|..].
  - intros j Hj. rewrite runStore_setTask, runStore_updateRun.
    rewrite decide_False by done. simpl. by rewrite lookup_insert_ne.
  - intros run'. rewrite runStore_setTask, runStore_updateRun.
    rewrite decide_True by done. simpl. rewrite lookup_insert_eq. simpl.
    intros [= <-]. unfold pending. simpl. auto.
  - by intros r [= <-].
Qed.

Lemma stored_pending (sys : Sys) (k : string) (t : Task) (r : Run) :
  consistent sys -> tasks sys !! k = Some t -> is_Some (taskRun t) ->
  runStore sys !! k = Some r -> pending r.
Proof.
  intros [_ Hag] Ht Haw Hr. destruct (Hag _ _ Hr) as (t0 & Ht0 & Hagr).
  rewrite <- (agrees_awaiting t) by done. congruence.
Qed.

Lemma consistent_extractDone (runId : string) (env : ZipProcessor.Env) (now : Clock)
    (sys : Sys) :
  consistent sys -> consistent (extractDone runId env now sys).
Proof.
  intros Hc. unfold extractDone.
  destruct (tasks sys !! runId) as [[run| | | |]|] eqn:Ht; try done.
  assert (Hid : id run = runId) by (destruct Hc as [Hid _]; by apply (Hid _ _ _ Ht)).
  destruct (ZipProcessor.extract env _ (id run) (zipProcessor sys)) as [[info|e] zp].
  - destruct (WorkerManager.startBegin _ _ _) as [a wm].
    apply (consistent_step sys _ runId (AwaitBuild run a)); [done|done|..].
    + intros j Hj. cbn [runStore setTask setWorkers].
      rewrite runStore_updateRun, decide_False by congruence. done.
    + intros run'. cbn [runStore setTask setWorkers].
      rewrite runStore_updateRun, decide_True by done. cbn [runStore setZip].
      destruct (runStore sys !! runId) as [r|] eqn:Hr; [|discriminate].
      intros [= <-]. apply pending_merge; auto.
      by apply (stored_pending sys runId (AwaitExtract run)).
    + by intros r [= <-].
  - apply (consistent_failRun sys _ run e now (AwaitExtract run)); try done.
    by rewrite Hid.
Qed.

Lemma consistent_buildDone (runId : string) (fails : bool) (now : Clock) (sys : Sys) :
  consistent sys -> consistent (buildDone runId fails now sys).
Proof.
  intros Hc. unfold buildDone.
  destruct (tasks sys !! runId) as [[|run a| | |]|] eqn:Ht; try done.
  assert (Hid : id run = runId) by (destruct Hc as [Hid _]; by apply (Hid _ _ _ Ht)).
  destruct (WorkerManager.buildDone a fails (workerManager sys)) as [[[]|e] wm].
  - apply (consistent_step sys _ runId (AwaitStartup run a)); [done|done|done|..].
    + intros r Hr. by apply (stored_pending sys runId (AwaitBuild run a)).
    + by intros r [= <-].
  - apply (consistent_failRun sys _ run e now (AwaitBuild run a)); try done.
    by rewrite Hid.
Qed.

Lemma consistent_startupDone (runId : string) (now : Clock) (sys : Sys) :
  consistent sys -> consistent (startupDone runId now sys).
Proof.
  intros Hc. unfold startupDone.
  destruct (tasks sys !! runId) as [[| |run a| |]|] eqn:Ht; try done.
  assert (Hid : id run = runId) by (destruct Hc as [Hid _]; by apply (Hid _ _ _ Ht)).
  destruct (WorkerManager.heap _ !! a) as [w|]; [|by apply (consistent_same sys)].
  apply (consistent_continueWait sys _ run a w (ms now) now (AwaitStartup run a));
    try done.
  - by rewrite Hid.
  - intros j Hj. rewrite runStore_updateRun, decide_False by done. done.
  - intros r. rewrite runStore_updateRun, decide_True by done. cbn [runStore setWorkers].
    rewrite Hid. destruct (runStore sys !! runId) as [r0|] eqn:Hr; [|discriminate].
    intros [= <-]. apply pending_merge; auto.
    by apply (stored_pending sys runId (AwaitStartup run a)).
Qed.

Lemma consistent_pollTick (runId : string) (now : Clock) (sys : Sys) :
  consistent sys -> consistent (pollTick runId now sys).
Proof.
  intros Hc. unfold pollTick.
  destruct (tasks sys !! runId) as [[| | |run a started|]|] eqn:Ht; try done.
  assert (Hid : id run = runId) by (destruct Hc as [Hid _]; by apply (Hid _ _ _ Ht)).
  destruct (WorkerManager.heap (workerManager sys) !! a) as [w|]; [|done].
  apply (consistent_continueWait sys _ run a w started now (AwaitReady run a started));
    try done.
  - by rewrite Hid.
  - rewrite Hid. intros r Hr. by apply (stored_pending sys runId (AwaitReady run a started)).
Qed.

Lemma consistent_deleteRun (runId : string) (env : ZipProcessor.Env) (sys : Sys) :
  consistent sys -> consistent (snd (deleteRun runId env sys)).
Proof.
  intros [Hid Hag]. unfold deleteRun.
  destruct (get runId (runStore sys)) as [run|]; [|done]. simpl.
  split.
  - intros k t r.
    destruct (workerId run) as [wid|]; [destruct (truthy_str wid)|]; apply Hid.
  - intros k r Hr.
    assert (Hk : runStore sys !! k = Some r /\ k <> runId).
    { destruct (workerId run) as [wid|]; [destruct (truthy_str wid)|];
        simpl in Hr; apply lookup_delete_Some in Hr as [? ?]; auto. }
    destruct Hk as [Hk _]. destruct (Hag _ _ Hk) as (t & Ht & Hagr).
    exists t. split; [|done].
    destruct (workerId run) as [wid|]; [destruct (truthy_str wid)|]; exact Ht.
Qed.

Lemma consistent_reachable (sys : Sys) : reachable sys -> consistent sys.
Proof.
  induction 1 as [fs|sys ev _ IH]; [apply consistent_init|].
  destruct ev; simpl.
  - by apply consistent_post.
  - by apply consistent_extractDone.
  - by apply consistent_buildDone.
  - by apply consistent_startupDone.
  - by apply consistent_pollTick.
  - by apply consistent_deleteRun.
Qed.

End OrchestrationInvariant.

Lemma reachable_run_events (sys : Runs.Sys) (evs : list Runs.Event) :
  Runs.reachable sys -> Runs.reachable (Runs.run_events sys evs).
Proof.
  revert sys. induction evs as [|ev evs IH]; intros sys H; [exact H|].
  apply IH. by constructor.
Qed.

Example ready_run_record :
  Runs.runStore (Runs.run_events (Runs.init ∅) readyTrace) !! "r1"
  = Some (RunStore.mkRun "r1" "ready" "2024-01-01T00:00:00.000Z"
            (Some "temp/upload-react") (Some "site.zip") (Some 2048%Z)
            (Some "2024-01-01T00:00:05.000Z") (Some "react")
            (Some (ZipProcessor.mkProjectInfo "react" (Some "React")
                     ["package.json"; "Dockerfile"; "src/index.html"]
                     JNull (JStr "npm start") (Some ["react"]) None
                     (Some "temp/extracted-r1")))
            (Some "worker-r1") (Some 8000%Z) (Some "/preview/r1")
            (Some "2024-01-01T00:00:05.000Z") None None).
Proof. vm_compute. reflexivity. Qed.

(** C5.  In every state the server can reach, every stored run has a
    [previewUrl] exactly when its status is [ready] and an [error] exactly
    when its status is [failed]. *)
Theorem stored_runs_settled (sys : Runs.Sys) (k : string) (run : RunStore.Run) :
  Runs.reachable sys ->
  Runs.runStore sys !! k = Some run ->
  (is_Some (RunStore.previewUrl run) <-> RunStore.status run = "ready") /\
  (is_Some (RunStore.error run) <-> RunStore.status run = "failed").
Proof.
  intros Hreach Hrun.
  destruct (consistent_reachable sys Hreach) as [_ Hag].
  destruct (Hag k run Hrun) as (t & _ & Hagr).
  exact (agrees_settled t run Hagr).
Qed.

Lemma stored_runs_settled_witness :
  exists run,
    Runs.runStore (Runs.run_events (Runs.init ∅) readyTrace) !! "r1" = Some run /\
    RunStore.status run = "ready" /\
    (is_Some (RunStore.previewUrl run) <-> RunStore.status run = "ready") /\
    (is_Some (RunStore.error run) <-> RunStore.status run = "failed").
Proof.
  eexists. split; [apply ready_run_record|]. split; [reflexivity|].
  apply (stored_runs_settled (Runs.run_events (Runs.init ∅) readyTrace) "r1").
  - apply reachable_run_events. constructor.
  - apply ready_run_record.
Defined.

(** ** Worker manager *)

Section WorkerFacts.

Import WorkerManager Invariants.

Example started_twice_heap :
  heap startedTwice
  = [mkWorker "worker-test-run" "test-run" 8000 (Some "/mock/path") "static" JNull JNull
       "starting" (Some 0%Z) false;
     mkWorker "worker-test-run" "test-run" 8001 (Some "/mock/path") "static" JNull JNull
       "starting" (Some 250%Z) false] /\
  workers startedTwice !! "worker-test-run" = Some 1.
Proof. vm_compute. split; reflexivity. Qed.

Lemma lookup_alter_Some {A} (f : A -> A) (a b : nat) (l : list A) (x : A) :
  alter f a l !! b = Some x ->
  exists y, l !! b = Some y /\ (x = y \/ x = f y).
Proof.
  destruct (decide (a = b)) as [->|Hne].
  - rewrite list_lookup_alter_eq. destruct (l !! b) as [y|]; [|discriminate].
    intros [= <-]. eauto.
  - rewrite list_lookup_alter_ne by done. eauto.
Qed.

Lemma lookup_Some_alter {A} (f : A -> A) (a b : nat) (l : list A) (y : A) :
  l !! b = Some y -> exists x, alter f a l !! b = Some x /\ (x = y \/ x = f y).
Proof.
  intros H. destruct (decide (a = b)) as [->|Hne].
  - rewrite list_lookup_alter_eq, H. simpl. eauto.
  - rewrite list_lookup_alter_ne by done. eauto.
Qed.

(** Changing a worker in place keeps the table sound, as long as the
    change leaves the names alone. *)
Lemma registered_modify (a : nat) (f : Worker -> Worker) (st : State) :
  (forall w, id (f w) = id w /\ runId (f w) = runId w) ->
  registered st -> registered (modify a f st).
Proof.
  intros Hf [Htab Hname]. split.
  - intros k b Hk. simpl in *. destruct (Htab k b Hk) as (w & Hw & Hid).
    destruct (lookup_Some_alter f a b _ _ Hw) as (x & Hx & [->| ->]);
      exists x || eexists; eauto.
    split; [exact Hx|]. by rewrite (proj1 (Hf w)).
  - intros b x Hx. simpl in Hx.
    destruct (lookup_alter_Some f a b _ _ Hx) as (y & Hy & [->| ->]).
    + by apply (Hname b).
    + destruct (Hf y) as [-> ->]. by apply (Hname b).
Qed.

Lemma registered_unregister (k : string) (st : State) :
  registered st -> registered (mkState (heap st) (delete k (workers st)) (nextPort st)).
Proof.
  intros [Htab Hname]. split; [|exact Hname].
  intros j a. simpl. intros Hj. apply lookup_delete_Some in Hj as [_ Hj]. by apply Htab.
Qed.

Lemma registered_init : registered init.
Proof. split; intros ? ? H; simpl in H; [by rewrite lookup_empty in H|done]. Qed.

Lemma registered_apply (st : State) (op : Op) : registered st -> registered (apply st op).
Proof.
  intros Hreg. destruct op as [options nowMs|a fails|a|wid]; simpl.
  - destruct Hreg as [Htab Hname]. split; simpl.
    + intros k b. destruct (decide ("worker-" +:+ o_runId options = k)) as [<-|Hne].
      * rewrite lookup_insert_eq. intros [= <-].
        rewrite lookup_app_r by done. rewrite Nat.sub_diag. simpl. eauto.
      * rewrite lookup_insert_ne by done. intros Hk.
        destruct (Htab k b Hk) as (w & Hw & Hid). exists w. split; [|done].
        by apply lookup_app_l_Some.
    + intros b w Hw. apply lookup_app_Some in Hw as [Hw|[_ Hw]]; [by apply (Hname b)|].
      destruct (b - length (heap st)) as [|n]; [|done].
      simpl in Hw. by injection Hw as <-.
  - unfold buildDone. destruct fails; [|done]. simpl.
    apply (registered_unregister _ (modify a (setStatus "failed") st)).
    by apply registered_modify.
  - by apply registered_modify.
  - unfold stop. destruct (workers st !! wid); [|done].
    apply (registered_unregister _ (modify _ stopWorker st)).
    apply registered_modify; [|done]. intros w. unfold stopWorker.
    by destruct (healthCheckInterval (setStatus "stopping" w)).
Qed.

Lemma registered_reachable (st : State) : reachable st -> registered st.
Proof.
  induction 1; [apply registered_init|by apply registered_apply].
Qed.

Lemma append_injective (p s t : string) : p +:+ s = p +:+ t -> s = t.
Proof. induction p as [|c p IH]; simpl; [done|]. intros [= H]. by apply IH. Qed.

End WorkerFacts.

Section WorkersPerRun.

Import RunStore Runs Invariants.

Lemma heapRuns_modify (a : nat) (f : WorkerManager.Worker -> WorkerManager.Worker)
    (st : WorkerManager.State) :
  (forall w, WorkerManager.runId (f w) = WorkerManager.runId w) ->
  heapRuns (WorkerManager.modify a f st) = heapRuns st.
Proof.
  intros Hf. unfold heapRuns. simpl. apply list_eq. intros i.
  rewrite !list_lookup_fmap. destruct (decide (a = i)) as [->|Hne].
  - rewrite list_lookup_alter_eq. destruct (WorkerManager.heap st !! i); simpl; [|done].
    by rewrite Hf.
  - by rewrite list_lookup_alter_ne.
Qed.

Lemma heapRuns_buildDone (a : nat) (fails : bool) (st : WorkerManager.State) :
  heapRuns (snd (WorkerManager.buildDone a fails st)) = heapRuns st.
Proof.
  unfold WorkerManager.buildDone. destruct fails; [|done].
  by apply (heapRuns_modify a (WorkerManager.setStatus "failed")).
Qed.

Lemma heapRuns_startDone (a : nat) (st : WorkerManager.State) :
  heapRuns (WorkerManager.startDone a st) = heapRuns st.
Proof. by apply heapRuns_modify. Qed.

Lemma heapRuns_stop (wid : string) (st : WorkerManager.State) :
  heapRuns (WorkerManager.stop wid st) = heapRuns st.
Proof.
  unfold WorkerManager.stop. destruct (WorkerManager.workers st !! wid) as [a|]; [|done].
  apply (heapRuns_modify a WorkerManager.stopWorker). intros w.
  unfold WorkerManager.stopWorker.
  by destruct (WorkerManager.healthCheckInterval (WorkerManager.setStatus "stopping" w)).
Qed.

Lemma heapRuns_startBegin (options : WorkerManager.Options) (nowMs : Z)
    (st : WorkerManager.State) :
  heapRuns (snd (WorkerManager.startBegin options nowMs st))
  = (heapRuns st ++ [WorkerManager.o_runId options])%list.
Proof. unfold heapRuns. simpl. by rewrite fmap_app. Qed.

Lemma tracked_step (sys sys' : Sys) (k : string) (t' : Task) :
  tracked sys ->
  tasks sys' = <[k := t']> (tasks sys) -> started t' = true ->
  heapRuns (workerManager sys') = heapRuns (workerManager sys) ->
  tracked sys'.
Proof.
  intros [Hnd Hmem] Ht Hst Hh. split; rewrite Hh; [done|].
  intros j Hj. rewrite Ht. destruct (decide (k = j)) as [<-|Hne].
  - rewrite lookup_insert_eq. eauto.
  - rewrite lookup_insert_ne by done. by apply Hmem.
Qed.

Lemma tracked_same (sys sys' : Sys) :
  tracked sys -> tasks sys' = tasks sys ->
  heapRuns (workerManager sys') = heapRuns (workerManager sys) ->
  tracked sys'.
Proof. unfold tracked. by intros H -> ->. Qed.

Lemma tracked_continueWait (run : Run) (a : nat) (w : WorkerManager.Worker)
    (startedMs : Z) (now : Clock) (sys : Sys) :
  tracked sys -> tracked (continueWait run a w startedMs now sys).
Proof.
  intros Htr. unfold continueWait.
  destruct (WorkerManager.checkReady w startedMs (ms now) readyTimeout).
  - by apply (tracked_step sys _ (id run) (Finished None)).
  - by apply (tracked_step sys _ (id run) (Finished (Some (mkError "Worker failed to start")))).
  - by apply (tracked_step sys _ (id run) (Finished (Some (mkError "Worker startup timeout")))).
  - by apply (tracked_step sys _ (id run) (AwaitReady run a startedMs)).
Qed.

Lemma tracked_event (sys : Sys) (ev : Event) :
  consistent sys -> tracked sys -> tracked (step sys ev).
Proof.
  intros [Hid _] Htr.
  destruct ev as [runId path name size now|runId env now|runId fails now|runId now
                 |runId now|runId env]; simpl.
  - unfold post. destruct (tasks sys !! runId) eqn:Ht; [done|].
    destruct Htr as [Hnd Hmem]. split; [done|].
    intros j Hj. destruct (Hmem j Hj) as (t & Htj & Hst).
    exists t. split; [|done]. cbn [tasks setTask updateRun setRuns].
    rewrite lookup_insert_ne; [done|]. congruence.
  - unfold extractDone.
    destruct (tasks sys !! runId) as [[run| | | |]|] eqn:Ht; try done.
    assert (Hrun : id run = runId) by by apply (Hid _ _ _ Ht).
    destruct (ZipProcessor.extract env _ (id run) (zipProcessor sys)) as [[info|e] zp].
    + destruct (WorkerManager.startBegin _ _ _) as [a wm] eqn:Hsb.
      pose proof (heapRuns_startBegin
                    (WorkerManager.mkOptions (id run) (ZipProcessor.extractPath info)
                       (ZipProcessor.type info) (ZipProcessor.buildCommand info)
                       (ZipProcessor.startCommand info))
                    (ms now) (workerManager sys)) as Hh.
      cbn [workerManager updateRun setRuns setZip] in Hsb.
      rewrite Hsb in Hh. simpl in Hh. destruct Htr as [Hnd Hmem].
      assert (Hfresh : runId ∉ heapRuns (workerManager sys)).
      { intros Hin. destruct (Hmem _ Hin) as (t & Ht' & Hst).
        rewrite Ht in Ht'. injection Ht' as <-. discriminate Hst. }
      split; cbn [workerManager setTask setWorkers tasks]; rewrite Hh, Hrun.
      * apply NoDup_app. split; [done|]. split; [|apply NoDup_singleton].
        intros x Hx. rewrite list_elem_of_singleton. by intros ->.
      * intros j Hj. destruct (decide (runId = j)) as [<-|Hne].
        -- rewrite lookup_insert_eq. eauto.
        -- rewrite lookup_insert_ne by done. apply Hmem.
           apply elem_of_app in Hj as [Hj|Hj]; [done|].
           apply list_elem_of_singleton in Hj. congruence.
    + by apply (tracked_step sys _ (id run) (Finished (Some e))).
  - unfold buildDone.
    destruct (tasks sys !! runId) as [[|run a| | |]|] eqn:Ht; try done.
    pose proof (heapRuns_buildDone a fails (workerManager sys)) as Hh.
    destruct (WorkerManager.buildDone a fails (workerManager sys)) as [[[]|e] wm].
    + by apply (tracked_step sys _ runId (AwaitStartup run a)).
    + by apply (tracked_step sys _ (id run) (Finished (Some e))).
  - unfold startupDone.
    destruct (tasks sys !! runId) as [[| |run a| |]|] eqn:Ht; try done.
    assert (Htr1 : tracked (setWorkers (WorkerManager.startDone a (workerManager sys)) sys)).
    { apply (tracked_same sys); [done|done|]. apply heapRuns_startDone. }
    destruct (WorkerManager.heap _ !! a) as [w|]; [|done].
    apply tracked_continueWait.
    by apply (tracked_same (setWorkers (WorkerManager.startDone a (workerManager sys)) sys)).
  - unfold pollTick.
    destruct (tasks sys !! runId) as [[| | |run a st|]|] eqn:Ht; try done.
    destruct (WorkerManager.heap (workerManager sys) !! a) as [w|]; [|done].
    by apply tracked_continueWait.
  - unfold deleteRun. destruct (get runId (runStore sys)) as [run|]; [|done]. simpl.
    apply (tracked_same sys); [done| |].
    + by destruct (workerId run) as [wid|]; [destruct (truthy_str wid)|].
    + destruct (workerId run) as [wid|]; [destruct (truthy_str wid)|]; try done.
      apply heapRuns_stop.
Qed.

Lemma tracked_reachable (sys : Sys) : reachable sys -> tracked sys.
Proof.
  induction 1 as [fs|sys ev Hreach IH].
  - split; [apply NoDup_nil_2|]. intros k Hk. by apply elem_of_nil in Hk.
  - apply tracked_event; [by apply consistent_reachable|done].
Qed.

End WorkersPerRun.

Section DeletionInFlight.

Import RunStore Runs Invariants.

Lemma unrecorded_step (sys sys' : Sys) (k : string) (t' : Task) :
  unrecorded sys ->
  tasks sys' = <[k := t']> (tasks sys) ->
  (forall j, j <> k -> runStore sys' !! j = runStore sys !! j) ->
  (preStart t' = true ->
   forall run', runStore sys' !! k = Some run' -> workerId run' = None) ->
  unrecorded sys'.
Proof.
  intros Hun Ht Hother Hk j t run. rewrite Ht.
  destruct (decide (k = j)) as [<-|Hne].
  - rewrite lookup_insert_eq. intros [= <-] Hpre. by apply Hk.
  - rewrite lookup_insert_ne by done. rewrite Hother by done. apply Hun.
Qed.

Lemma unrecorded_failRun (sys0 : Sys) (run : Run) (e : Error) (now : Clock) :
  unrecorded sys0 -> unrecorded (failRun run e now sys0).
Proof.
  intros Hun. apply (unrecorded_step sys0 _ (id run) (Finished (Some e))); try done.
  intros j Hj. rewrite runStore_failRun. by rewrite decide_False by done.
Qed.

Lemma unrecorded_continueWait (run : Run) (a : nat) (w : WorkerManager.Worker)
    (st : Z) (now : Clock) (sys0 sys : Sys) :
  unrecorded sys ->
  tasks sys0 = tasks sys ->
  (forall j, j <> id run -> runStore sys0 !! j = runStore sys !! j) ->
  unrecorded (continueWait run a w st now sys0).
Proof.
  intros Hun Ht Hother. unfold continueWait.
  assert (Hstep : forall t' sys', preStart t' = false ->
            tasks sys' = <[id run := t']> (tasks sys0) ->
            (forall j, j <> id run -> runStore sys' !! j = runStore sys0 !! j) ->
            unrecorded sys').
  { intros t' sys' Hp Ht' Ho. apply (unrecorded_step sys sys' (id run) t'); try done.
    - by rewrite Ht', Ht.
    - intros j Hj. rewrite Ho by done. by apply Hother.
    - by rewrite Hp. }
  destruct (WorkerManager.checkReady w st (ms now) readyTimeout).
  - apply (Hstep (Finished None)); [done|done|].
    intros j Hj. rewrite runStore_setTask, runStore_updateRun.
    by rewrite decide_False by done.
  - apply (Hstep (Finished (Some (mkError "Worker failed to start")))); [done|done|].
    intros j Hj. rewrite runStore_failRun. by rewrite decide_False by done.
  - apply (Hstep (Finished (Some (mkError "Worker startup timeout")))); [done|done|].
    intros j Hj. rewrite runStore_failRun. by rewrite decide_False by done.
  - apply (Hstep (AwaitReady run a st)); done.
Qed.

Lemma unrecorded_event (sys : Sys) (ev : Event) :
  consistent sys -> unrecorded sys -> unrecorded (step sys ev).
Proof.
  intros [Hid _] Hun.
  destruct ev as [runId path name size now|runId env now|runId fails now|runId now
                 |runId now|runId env]; simpl.
  - unfold post. destruct (tasks sys !! runId) eqn:Ht; [done|].
    match goal with |- unrecorded (setTask _ (AwaitExtract ?r) _) => set (run := r) end.
    apply (unrecorded_step sys _ runId (AwaitExtract run)); [done|done|..].
    + intros j Hj. rewrite runStore_setTask, runStore_updateRun.
      rewrite decide_False by done. simpl. by rewrite lookup_insert_ne.
    + intros _ run'. rewrite runStore_setTask, runStore_updateRun.
      rewrite decide_True by done. simpl. rewrite lookup_insert_eq. simpl.
      by intros [= <-].
  - unfold extractDone.
    destruct (tasks sys !! runId) as [[run| | | |]|] eqn:Ht; try done.
    assert (Hrun : id run = runId) by by apply (Hid _ _ _ Ht).
    destruct (ZipProcessor.extract env _ (id run) (zipProcessor sys)) as [[info|e] zp].
    + destruct (WorkerManager.startBegin _ _ _) as [a wm].
      apply (unrecorded_step sys _ runId (AwaitBuild run a)); [done|done|..].
      * intros j Hj. cbn [runStore setTask setWorkers].
        rewrite runStore_updateRun, decide_False by congruence. done.
      * intros _ run'. cbn [runStore setTask setWorkers].
        rewrite runStore_updateRun, decide_True by done. cbn [runStore setZip].
        destruct (runStore sys !! runId) as [r|] eqn:Hr; [|discriminate].
        intros [= <-]. simpl. by apply (Hun runId (AwaitExtract run) r).
    + by apply unrecorded_failRun.
  - unfold buildDone.
    destruct (tasks sys !! runId) as [[|run a| | |]|] eqn:Ht; try done.
    destruct (WorkerManager.buildDone a fails (workerManager sys)) as [[[]|e] wm].
    + apply (unrecorded_step sys _ runId (AwaitStartup run a)); [done|done|done|].
      intros _ r Hr. by apply (Hun runId (AwaitBuild run a) r).
    + by apply unrecorded_failRun.
  - unfold startupDone.
    destruct (tasks sys !! runId) as [[| |run a| |]|] eqn:Ht; try done.
    destruct (WorkerManager.heap _ !! a) as [w|]; [|done].
    apply (unrecorded_continueWait run a w (ms now) now _ sys); [done|done|].
    intros j Hj. rewrite runStore_updateRun, decide_False by done. done.
  - unfold pollTick.
    destruct (tasks sys !! runId) as [[| | |run a st|]|] eqn:Ht; try done.
    destruct (WorkerManager.heap (workerManager sys) !! a) as [w|]; [|done].
    by apply (unrecorded_continueWait run a w st now sys sys).
  - unfold deleteRun. destruct (get runId (runStore sys)) as [run|]; [|done]. simpl.
    intros k t r Ht Hpre Hr.
    assert (Hk : runStore sys !! k = Some r).
    { destruct (workerId run) as [wid|]; [destruct (truthy_str wid)|];
        simpl in Hr; apply lookup_delete_Some in Hr as [? ?]; auto. }
    apply (Hun k t r); try done.
    destruct (workerId run) as [wid|]; [destruct (truthy_str wid)|]; exact Ht.
Qed.

Lemma unrecorded_reachable (sys : Sys) : reachable sys -> unrecorded sys.
Proof.
  induction 1 as [fs|sys ev Hreach IH].
  - intros k t run Ht. simpl in Ht. by rewrite lookup_empty in Ht.
  - apply unrecorded_event; [by apply consistent_reachable|done].
Qed.

(** Whenever a run is deleted before [workerManager.start] has returned
    for it, the [DELETE] handler leaves the worker manager as it is: the
    worker under construction is not stopped. *)
Lemma delete_before_start_returns (sys : Sys) (k : string) (env : ZipProcessor.Env)
    (t : Task) :
  reachable sys -> tasks sys !! k = Some t -> preStart t = true ->
  workerManager (snd (deleteRun k env sys)) = workerManager sys.
Proof.
  intros Hreach Ht Hpre. unfold deleteRun.
  destruct (get k (runStore sys)) as [run|] eqn:Hrun; [|done].
  by rewrite (unrecorded_reachable sys Hreach k t run Ht Hpre Hrun).
Qed.

End DeletionInFlight.

(** C7, as stated, fails for the manager itself: [start] never looks for a
    worker of the same run.  Called twice for one run it constructs and
    starts a second worker while the first is still [starting]. *)
Lemma second_start_counterexample :
  ~ (forall st : WorkerManager.State,
       WorkerManager.reachable st ->
       forall (a1 a2 : nat) (w1 w2 : WorkerManager.Worker),
         WorkerManager.heap st !! a1 = Some w1 ->
         WorkerManager.heap st !! a2 = Some w2 ->
         WorkerManager.runId w1 = WorkerManager.runId w2 ->
         WorkerManager.live w1 = true -> WorkerManager.live w2 = true ->
         a1 = a2).
Proof.
  intros H.
  assert (Hreach : WorkerManager.reachable startedTwice)
    by (repeat constructor).
  specialize (H startedTwice Hreach 0 1 _ _ eq_refl eq_refl eq_refl eq_refl eq_refl).
  discriminate H.
Qed.

(** C7, amended.  The manager's table never holds two workers of one run:
    a worker is registered under [worker-<runId>], so a later [start] for
    the same run replaces the entry.  [start] itself performs no check;
    that no second worker is ever constructed for a run holds in the
    server, where [processRun] calls [start] once per run id. *)
Theorem one_worker_per_run :
  (forall st : WorkerManager.State,
     WorkerManager.reachable st ->
     forall (k1 k2 : string) (w1 w2 : WorkerManager.Worker),
       WorkerManager.get k1 st = Some w1 ->
       WorkerManager.get k2 st = Some w2 ->
       WorkerManager.runId w1 = WorkerManager.runId w2 ->
       k1 = k2 /\ w1 = w2) /\
  (forall sys : Runs.Sys,
     Runs.reachable sys ->
     forall (a1 a2 : nat) (w1 w2 : WorkerManager.Worker),
       WorkerManager.heap (Runs.workerManager sys) !! a1 = Some w1 ->
       WorkerManager.heap (Runs.workerManager sys) !! a2 = Some w2 ->
       WorkerManager.runId w1 = WorkerManager.runId w2 ->
       a1 = a2).
Proof.
  split.
  - intros st Hreach k1 k2 w1 w2 H1 H2 Hrun.
    destruct (registered_reachable st Hreach) as [Htab Hname].
    unfold WorkerManager.get in H1, H2.
    destruct (WorkerManager.workers st !! k1) as [a1|] eqn:Hk1; [|discriminate].
    destruct (WorkerManager.workers st !! k2) as [a2|] eqn:Hk2; [|discriminate].
    simpl in H1, H2.
    destruct (Htab _ _ Hk1) as (x1 & Hx1 & Hid1).
    destruct (Htab _ _ Hk2) as (x2 & Hx2 & Hid2).
    rewrite H1 in Hx1. rewrite H2 in Hx2.
    injection Hx1 as <-. injection Hx2 as <-.
    assert (Hk : k1 = k2).
    { rewrite <- Hid1, <- Hid2, (Hname _ _ H1), (Hname _ _ H2). by rewrite Hrun. }
    split; [exact Hk|]. subst k2. congruence.
  - intros sys Hreach a1 a2 w1 w2 H1 H2 Hrun.
    destruct (tracked_reachable sys Hreach) as [Hnd _].
    apply (NoDup_lookup _ a1 a2 (WorkerManager.runId w1) Hnd);
      unfold Invariants.heapRuns; rewrite list_lookup_fmap.
    + by rewrite H1.
    + by rewrite H2, Hrun.
Qed.

Lemma one_worker_per_run_witness :
  (forall w1 w2,
     WorkerManager.get "worker-test-run" startedTwice = Some w1 ->
     WorkerManager.get "worker-test-run" startedTwice = Some w2 ->
     w1 = w2) /\
  (forall a w,
     WorkerManager.heap (Runs.workerManager (Runs.run_events (Runs.init ∅) readyTrace)) !! a
     = Some w ->
     WorkerManager.runId w = "r1" -> a = 0).
Proof.
  split.
  - intros w1 w2 H1 H2.
    apply (proj1 one_worker_per_run startedTwice
             ltac:(repeat constructor) "worker-test-run" "worker-test-run" w1 w2 H1 H2).
    vm_compute in H1, H2. congruence.
  - intros a w Hw Hrun.
    apply (proj2 one_worker_per_run (Runs.run_events (Runs.init ∅) readyTrace)
             (reachable_run_events _ _ (Runs.reach_init ∅)) a 0 w
             (WorkerManager.mkWorker "worker-r1" "r1" 8000 (Some "temp/extracted-r1")
                "react" JNull (JStr "npm start") "running" (Some 1000%Z) true) Hw).
    + vm_compute. reflexivity.
    + exact Hrun.
Defined.

(** C4.  The code at the failing input: the run is deleted while its
    worker is building.  The registry part of the claim holds (the run is
    gone and every later [update] is a no-op returning [null]), but the
    [DELETE] handler finds no [workerId] on the run (it is recorded only
    after [workerManager.start] has returned) and leaves the manager
    untouched; [processRun] then resumes and the worker ends up [running],
    registered, with its health-check timer armed.  Had the run been
    deleted once ready, the same handler would have stopped the worker. *)
Theorem delete_while_building_leaks_worker :
  let before := Runs.run_events (Runs.init ∅) (take 2 deletedWhileBuilding) in
  let deleted := Runs.run_events (Runs.init ∅) (take 3 deletedWhileBuilding) in
  let final := Runs.run_events (Runs.init ∅) deletedWhileBuilding in
  (RunStore.status <$> RunStore.get "r1" (Runs.runStore before)) = Some "building" /\
  (RunStore.workerId <$> RunStore.get "r1" (Runs.runStore before)) = Some None /\
  (WorkerManager.status <$> WorkerManager.get "worker-r1" (Runs.workerManager before))
    = Some "starting" /\
  Runs.workerManager deleted = Runs.workerManager before /\
  RunStore.get "r1" (Runs.runStore final) = None /\
  (forall u now,
     RunStore.update "r1" u now (Runs.runStore final) = (None, Runs.runStore final)) /\
  WorkerManager.get "worker-r1" (Runs.workerManager final)
    = Some (WorkerManager.mkWorker "worker-r1" "r1" 8000 (Some "temp/extracted-r1")
              "react" JNull (JStr "npm start") "running" (Some 1000%Z) true) /\
  WorkerManager.get "worker-r1"
    (Runs.workerManager (Runs.run_events (Runs.init ∅) deletedWhenReady)) = None /\
  (WorkerManager.status <$>
     WorkerManager.heap
       (Runs.workerManager (Runs.run_events (Runs.init ∅) deletedWhenReady)) !! 0)
    = Some "stopped".
Proof.
  intros before deleted final.
  assert (Hfinal : RunStore.get "r1" (Runs.runStore final) = None)
    by (vm_compute; reflexivity).
  split; [vm_compute; reflexivity|]. split; [vm_compute; reflexivity|].
  split; [vm_compute; reflexivity|]. split; [vm_compute; reflexivity|].
  split; [exact Hfinal|]. split; [intros u now; by apply update_absent|].
  repeat split; vm_compute; reflexivity.
Qed.

(* ===================================================================== *)
(** * Part III: further properties of the code                            *)
(* ===================================================================== *)

(** ** Run registry: creation, deletion, repeated updates, sweeping *)

Section RegistryFacts.

Import RunStore Registry.

Lemma lookup_fold_delete (ids : list string) (m : Store) (k : string) :
  fold_left (fun m id => base.delete id m) ids m !! k
  = if decide (k ∈ ids) then None else m !! k.
Proof.
  revert m. induction ids as [|i ids IH]; intros m; cbn [fold_left].
  - case_decide as H; [by apply elem_of_nil in H|done].
  - rewrite IH. destruct (decide (k ∈ ids)) as [Hin|Hnin].
    + rewrite decide_True; [done|]. by apply elem_of_cons; right.
    + destruct (decide (k = i)) as [->|Hne].
      * rewrite decide_True by (apply elem_of_cons; by left). apply lookup_delete_eq.
      * rewrite decide_False.
        -- by apply lookup_delete_ne.
        -- rewrite elem_of_cons. intros [?|?]; congruence.
Qed.

Lemma elem_of_toDelete (getTime : string -> option Z) (cutoff : Z) (runs : Store)
    (k : string) :
  k ∈ toDelete getTime cutoff runs
  <-> exists run, runs !! k = Some run /\ expired getTime cutoff run = true.
Proof.
  unfold toDelete. rewrite list_elem_of_fmap. split.
  - intros ([k' run] & -> & Hin). apply list_elem_of_In, filter_In in Hin as [Hin Hex].
    apply list_elem_of_In, elem_of_map_to_list in Hin. eauto.
  - intros (run & Hrun & Hex). exists (k, run). split; [done|].
    apply list_elem_of_In, filter_In. split; [|done].
    by apply list_elem_of_In, elem_of_map_to_list.
Qed.

Lemma filter_sublist {A} (f : A -> bool) (l : list A) : sublist (List.filter f l) l.
Proof.
  induction l as [|x l IH]; simpl; [constructor|].
  destruct (f x); by constructor.
Qed.

Lemma NoDup_toDelete (getTime : string -> option Z) (cutoff : Z) (runs : Store) :
  NoDup (toDelete getTime cutoff runs).
Proof.
  unfold toDelete.
  apply (sublist_NoDup _ ((map_to_list runs).*1)).
  - apply NoDup_fst_map_to_list.
  - apply fmap_sublist, filter_sublist.
Qed.

Lemma size_fold_delete (ids : list string) (m : Store) :
  NoDup ids -> (forall k, k ∈ ids -> is_Some (m !! k)) ->
  size (fold_left (fun m id => base.delete id m) ids m) + length ids = size m.
Proof.
  revert m. induction ids as [|i ids IH]; intros m Hnd Hin; simpl; [lia|].
  apply NoDup_cons in Hnd as [Hi Hnd].
  assert (Hrest : forall k, k ∈ ids -> is_Some (base.delete i m !! k)).
  { intros k Hk. rewrite lookup_delete_ne by (intros ->; done).
    apply Hin, elem_of_cons. by right. }
  pose proof (IH (base.delete i m) Hnd Hrest) as E.
  assert (Hi' : is_Some (m !! i)) by (apply Hin, elem_of_cons; by left).
  rewrite map_size_delete_Some in E by done.
  assert (size m <> 0).
  { apply map_size_ne_0_lookup. destruct Hi' as [x Hx]. eauto. }
  lia.
Qed.

End RegistryFacts.

(** X1.  Creating a run makes it available under its id and leaves the
    other runs alone; deleting it afterwards reports [true] and gives back
    the store without that id, which is the store before the creation when
    the id was new.  Deleting an id that is not stored reports [false] and
    changes nothing. *)
Theorem create_get_delete (run : RunStore.Run) (runs : RunStore.Store) :
  RunStore.get (RunStore.id run) (snd (RunStore.create run runs)) = Some run /\
  (forall j, j <> RunStore.id run ->
     RunStore.get j (snd (RunStore.create run runs)) = RunStore.get j runs) /\
  RunStore.delete (RunStore.id run) (snd (RunStore.create run runs))
  = (true, base.delete (RunStore.id run) runs) /\
  (RunStore.get (RunStore.id run) runs = None ->
   snd (RunStore.delete (RunStore.id run) (snd (RunStore.create run runs))) = runs) /\
  (forall j, RunStore.get j runs = None -> RunStore.delete j runs = (false, runs)).
Proof.
  unfold RunStore.get, RunStore.create, RunStore.delete. simpl.
  split; [apply lookup_insert_eq|].
  split; [intros j Hj; by apply lookup_insert_ne|].
  split.
  - rewrite lookup_insert_eq, delete_insert_eq.
    by rewrite bool_decide_eq_true_2 by eauto.
  - split.
    + intros Hnew. rewrite delete_insert_eq. by apply delete_id.
    + intros j Hj. rewrite Hj, delete_id by done.
      rewrite bool_decide_eq_false_2; [done|]. by intros [? ?].
Qed.

Lemma create_get_delete_witness :
  snd (RunStore.delete "test-2" (snd (RunStore.create recentRun sampleStore))) = sampleStore /\
  RunStore.delete "nobody" sampleStore = (false, sampleStore).
Proof.
  destruct (create_get_delete recentRun sampleStore) as (_ & _ & _ & Hfresh & Hmiss).
  split.
  - apply Hfresh. vm_compute. reflexivity.
  - apply Hmiss. vm_compute. reflexivity.
Defined.

(** X2.  Two updates of the same run in a row act as one update in which
    the later fields lie over the earlier ones, for every key of a run, and
    the later clock reading is the stamp; an update never adds or removes
    an id. *)
Theorem update_twice (i : string) (u1 u2 : RunStore.Updates) (now1 now2 : string)
    (runs : RunStore.Store) :
  snd (RunStore.update i u2 now2 (snd (RunStore.update i u1 now1 runs)))
  = snd (RunStore.update i
           (RunStore.mkPartial
              (RunStore.spread (RunStore.u_id u1) (RunStore.u_id u2))
              (RunStore.spread (RunStore.u_createdAt u1) (RunStore.u_createdAt u2))
              (RunStore.spread (RunStore.u_filePath u1) (RunStore.u_filePath u2))
              (RunStore.spread (RunStore.u_originalName u1) (RunStore.u_originalName u2))
              (RunStore.spread (RunStore.u_fileSize u1) (RunStore.u_fileSize u2))
              (RunStore.spread (RunStore.u_updatedAt u1) (RunStore.u_updatedAt u2))
              (RunStore.spread (RunStore.u_status u1) (RunStore.u_status u2))
              (RunStore.spread (RunStore.u_projectType u1) (RunStore.u_projectType u2))
              (RunStore.spread (RunStore.u_projectInfo u1) (RunStore.u_projectInfo u2))
              (RunStore.spread (RunStore.u_workerId u1) (RunStore.u_workerId u2))
              (RunStore.spread (RunStore.u_workerPort u1) (RunStore.u_workerPort u2))
              (RunStore.spread (RunStore.u_previewUrl u1) (RunStore.u_previewUrl u2))
              (RunStore.spread (RunStore.u_readyAt u1) (RunStore.u_readyAt u2))
              (RunStore.spread (RunStore.u_error u1) (RunStore.u_error u2))
              (RunStore.spread (RunStore.u_failedAt u1) (RunStore.u_failedAt u2)))
           now2 runs) /\
  dom (snd (RunStore.update i u1 now1 runs)) = dom runs.
Proof.
  split.
  - apply map_eq. intros j. rewrite !update_lookup.
    destruct (decide (i = j)) as [<-|Hne]; [|done].
    destruct (runs !! i) as [r|]; [|done]. simpl. f_equal.
    destruct r, u1 as [i1 c1 ? ? ? ? s1 ? ? ? ? ? ? ? ?],
             u2 as [i2 c2 ? ? ? ? s2 ? ? ? ? ? ? ? ?].
    unfold RunStore.merge, RunStore.spread. simpl.
    destruct i1, i2, c1, c2, s1, s2; simpl; f_equal;
      repeat match goal with |- context [match ?o with Some _ => _ | None => _ end] =>
        destruct o end; reflexivity.
  - unfold RunStore.update. destruct (runs !! i) as [r|] eqn:Hr; simpl; [|done].
    rewrite dom_insert_L. apply elem_of_dom_2 in Hr.
    apply subseteq_union_1_L. by apply singleton_subseteq_l.
Qed.

Lemma cleanup_lookup (getTime : string -> option Z) (nowMs maxAge : Z)
    (runs : RunStore.Store) (k : string) :
  snd (Registry.cleanup getTime nowMs maxAge runs) !! k =
  match runs !! k with
  | Some run => if Registry.expired getTime (nowMs - maxAge) run then None else Some run
  | None => None
  end.
Proof.
  unfold Registry.cleanup. simpl. rewrite lookup_fold_delete.
  destruct (runs !! k) as [run|] eqn:Hrun.
  - destruct (Registry.expired getTime (nowMs - maxAge) run) eqn:Hex.
    + rewrite decide_True; [done|]. apply elem_of_toDelete. eauto.
    + rewrite decide_False; [done|]. rewrite elem_of_toDelete.
      intros (run' & Hrun' & Hex'). congruence.
  - by destruct (decide _).
Qed.

(** X3.  [cleanup(maxAge)] removes exactly the runs whose creation time
    parses and lies before [now - maxAge]: such a run is gone afterwards,
    every other run (one whose date does not parse included) is kept as it
    is, and the number returned is the number of runs removed. *)
Theorem cleanup_removes_expired
    (getTime : string -> option Z) (nowMs maxAge : Z) (runs : RunStore.Store) :
  let '(n, runs') := Registry.cleanup getTime nowMs maxAge runs in
  (forall k,
     runs' !! k =
     match runs !! k with
     | Some run => if Registry.expired getTime (nowMs - maxAge) run then None else Some run
     | None => None
     end) /\
  size runs' + n = size runs.
Proof.
  pose proof (cleanup_lookup getTime nowMs maxAge runs) as Hlook.
  unfold Registry.cleanup in *. cbn [snd] in Hlook. split; [exact Hlook|].
  apply size_fold_delete; [apply NoDup_toDelete|].
  intros k Hk. apply elem_of_toDelete in Hk as (run & -> & _). eauto.
Qed.

Example cleanup_aged_store :
  Registry.cleanup epoch 1704250000000 86400000 agedStore
  = (1, <["test-3" := undatedRun]> (<["test-2" := recentRun]> ∅)).
Proof. vm_compute. reflexivity. Qed.

(** X4.  Sweeping twice at the same clock reading removes nothing the
    second time: the second call returns 0 and leaves the store as the
    first call left it. *)
Theorem cleanup_idempotent
    (getTime : string -> option Z) (nowMs maxAge : Z) (runs : RunStore.Store) :
  Registry.cleanup getTime nowMs maxAge (snd (Registry.cleanup getTime nowMs maxAge runs))
  = (0, snd (Registry.cleanup getTime nowMs maxAge runs)).
Proof.
  pose proof (cleanup_lookup getTime nowMs maxAge runs) as Hlook.
  destruct (Registry.cleanup getTime nowMs maxAge runs) as [n runs'] eqn:Hc.
  cbn [snd] in Hlook. simpl. unfold Registry.cleanup.
  assert (Hnil : Registry.toDelete getTime (nowMs - maxAge) runs' = []).
  { apply elem_of_nil_inv. intros k Hk.
    apply elem_of_toDelete in Hk as (run & Hrun & Hex).
    rewrite Hlook in Hrun. destruct (runs !! k) as [r|]; [|discriminate].
    destruct (Registry.expired getTime (nowMs - maxAge) r) eqn:Hr; [discriminate|].
    congruence. }
  by rewrite Hnil.
Qed.

(** ** Archive validation, extraction and cleanup *)

Section ValidationFacts.

Import ZipProcessor.

Lemma mkdir_ok (env : Env) (p : string) (st st1 : State) (u : unit) :
  mkdir env p st = (Ok u, st1) ->
  mkdir_error env = None /\ log st1 = OpMkdir p :: log st /\
  extractedProjects st1 = extractedProjects st.
Proof.
  unfold mkdir. destruct (mkdir_error env); [discriminate|].
  destruct (fs (logged (OpMkdir p) st) !! p); intros [= <- <-]; done.
Qed.

Lemma extractAllTo_ok (env : Env) (entries : list ZipEntry) (p : string)
    (st st2 : State) (u : unit) :
  extractAllTo env entries p st = (Ok u, st2) ->
  extractAll_error env = None /\ log st2 = OpExtractAll p :: log st /\
  extractedProjects st2 = extractedProjects st /\ is_Some (fs st2 !! p).
Proof.
  unfold extractAllTo. destruct (extractAll_error env) as [[n e]|]; [discriminate|].
  intros [= <- <-]. cbn [fs extractedProjects log setFs logged].
  rewrite lookup_insert_eq. eauto.
Qed.

Lemma extractBody_ok (env : Env) (zipPath runId : string) (st st' : State)
    (info : ProjectInfo) :
  extractBody env zipPath runId st = (Ok info, st') ->
  exists entries analysed,
    readZip env zipPath = Ok entries /\
    (length entries <= Config.upload_maxFiles)%nat /\
    validateEntries entries = Ok tt /\
    mkdir_error env = None /\ extractAll_error env = None /\
    analyzeProject env (fs st') (extractPathOf runId) = Ok analysed /\
    info = withExtractPath (extractPathOf runId) analysed /\
    extractedProjects st' = <[runId := info]> (extractedProjects st) /\
    log st' = OpExtractAll (extractPathOf runId) :: OpMkdir (extractPathOf runId) :: log st /\
    is_Some (fs st' !! extractPathOf runId).
Proof.
  unfold extractBody.
  destruct (readZip env zipPath) as [entries|]; [|discriminate].
  destruct (Config.upload_maxFiles <? length entries)%nat eqn:Hn; [discriminate|].
  apply Nat.ltb_ge in Hn.
  destruct (validateEntries entries) as [[]|] eqn:Hv; [|discriminate].
  destruct (mkdir env (extractPathOf runId) st) as [[u1|] st1] eqn:Hm; [|discriminate].
  destruct (extractAllTo env entries (extractPathOf runId) st1) as [[u2|] st2] eqn:Hx;
    [|discriminate].
  destruct (analyzeProject env (fs st2) (extractPathOf runId)) as [analysed|] eqn:Ha;
    [|discriminate].
  intros [= <- <-].
  apply mkdir_ok in Hm as (Hm1 & Hm2 & Hm3).
  apply extractAllTo_ok in Hx as (Hx1 & Hx2 & Hx3 & Hx4).
  exists entries, analysed. cbn [fs extractedProjects log].
  rewrite Hx2, Hm2, Hx3, Hm3. repeat split; eauto.
Qed.

End ValidationFacts.

Lemma validateEntries_ok_iff (entries : list ZipProcessor.ZipEntry) :
  ZipProcessor.validateEntries entries = Ok tt <->
  forall entry, entry ∈ entries ->
    ZipProcessor.offending (ZipProcessor.entryName entry) = false.
Proof.
  induction entries as [|x rest IH]; simpl.
  - split; [|done]. intros _ entry Hin. by apply elem_of_nil in Hin.
  - unfold ZipProcessor.offending in *.
    destruct (includes ".." (ZipProcessor.entryName x)
              || isAbsolute (ZipProcessor.entryName x)) eqn:Hx.
    + split; [discriminate|]. intros H.
      specialize (H x ltac:(apply elem_of_cons; by left)).
      rewrite Hx in H. discriminate H.
    + destruct (ZipProcessor.maxDepth <? length (split_slash (ZipProcessor.entryName x)))%nat
        eqn:Hd.
      * split; [discriminate|]. intros H.
        specialize (H x ltac:(apply elem_of_cons; by left)).
        rewrite Hx, Hd in H. discriminate H.
      * rewrite IH. split.
        -- intros H entry Hin. apply elem_of_cons in Hin as [->|Hin]; [|by apply H].
           by rewrite Hx, Hd.
        -- intros H entry Hin. apply H, elem_of_cons. by right.
Qed.

(** X5.  The validation loop accepts a list of entries exactly when no
    entry name contains two dots in a row, is absolute or has more than 20
    components; otherwise the error it throws is the one for the first
    such entry, an unsafe-path error taking precedence over a depth error
    for that entry. *)
Theorem validateEntries_first_offender (entries : list ZipProcessor.ZipEntry) :
  (ZipProcessor.validateEntries entries = Ok tt <->
   forall entry, entry ∈ entries ->
     ZipProcessor.offending (ZipProcessor.entryName entry) = false) /\
  (forall good bad rest,
     entries = (good ++ bad :: rest)%list ->
     (forall entry, entry ∈ good ->
        ZipProcessor.offending (ZipProcessor.entryName entry) = false) ->
     ZipProcessor.offending (ZipProcessor.entryName bad) = true ->
     ZipProcessor.validateEntries entries
     = Throw (if includes ".." (ZipProcessor.entryName bad)
                 || isAbsolute (ZipProcessor.entryName bad)
              then ZipProcessor.unsafePath (ZipProcessor.entryName bad)
              else ZipProcessor.pathTooDeep (ZipProcessor.entryName bad))).
Proof.
  split; [apply validateEntries_ok_iff|].
  - intros good bad rest -> Hgood Hbad.
    induction good as [|x good IH]; simpl.
    + unfold ZipProcessor.offending in Hbad.
      destruct (includes ".." (ZipProcessor.entryName bad)
                || isAbsolute (ZipProcessor.entryName bad)); [done|].
      simpl in Hbad. by rewrite Hbad.
    + pose proof (Hgood x ltac:(apply elem_of_cons; by left)) as Hx.
      unfold ZipProcessor.offending in Hx.
      apply orb_false_iff in Hx as [Hx Hd]. rewrite Hx, Hd.
      apply IH. intros entry Hin. apply Hgood, elem_of_cons. by right.
Qed.

Lemma validateEntries_first_offender_witness :
  ZipProcessor.validateEntries
    [ZipProcessor.mkZipEntry "index.html" "<!DOCTYPE html>";
     ZipProcessor.mkZipEntry "assets/../../evil" "x";
     ZipProcessor.mkZipEntry "/etc/passwd" "y"]
  = Throw (ZipProcessor.unsafePath "assets/../../evil").
Proof.
  apply (proj2 (validateEntries_first_offender _)
           [ZipProcessor.mkZipEntry "index.html" "<!DOCTYPE html>"]
           (ZipProcessor.mkZipEntry "assets/../../evil" "x")
           [ZipProcessor.mkZipEntry "/etc/passwd" "y"]).
  - reflexivity.
  - intros entry Hin. apply list_elem_of_singleton in Hin as ->. vm_compute. reflexivity.
  - vm_compute. reflexivity.
Defined.

(** X6.  An extraction that succeeds has passed every check: the archive
    holds at most the configured number of entries and none of them is
    offending.  It has created the directory and extracted into it without
    ever removing it, the project it returns carries that directory as
    [extractPath], and the project is recorded under the run id. *)
Theorem extract_success
    (env : ZipProcessor.Env) (zipPath runId : string) (st st' : ZipProcessor.State)
    (info : ZipProcessor.ProjectInfo) :
  ZipProcessor.extract env zipPath runId st = (Ok info, st') ->
  exists entries,
    ZipProcessor.readZip env zipPath = Ok entries /\
    (length entries <= Config.upload_maxFiles)%nat /\
    (forall entry, entry ∈ entries ->
       ZipProcessor.offending (ZipProcessor.entryName entry) = false) /\
    ZipProcessor.extractPath info = Some (ZipProcessor.extractPathOf runId) /\
    ZipProcessor.extractedProjects st' !! runId = Some info /\
    ZipProcessor.log st'
    = ZipProcessor.OpExtractAll (ZipProcessor.extractPathOf runId)
      :: ZipProcessor.OpMkdir (ZipProcessor.extractPathOf runId)
      :: ZipProcessor.log st /\
    is_Some (ZipProcessor.fs st' !! ZipProcessor.extractPathOf runId).
Proof.
  intros Hex. pose proof (extract_outcome env zipPath runId st) as Hout.
  destruct (ZipProcessor.extractBody env zipPath runId st) as [[info0|e] st0] eqn:Hbody.
  - rewrite Hout in Hex. injection Hex as <- <-.
    destruct (extractBody_ok _ _ _ _ _ _ Hbody)
      as (entries & analysed & Hzip & Hn & Hv & _ & _ & _ & -> & Hproj & Hlog & Hdir).
    exists entries. split; [done|]. split; [done|].
    split; [by apply (proj1 (validateEntries_ok_iff entries))|].
    split; [done|]. rewrite Hproj, lookup_insert_eq. done.
  - rewrite Hout in Hex. discriminate Hex.
Qed.

Lemma extract_success_witness :
  exists info st',
    ZipProcessor.extract sampleEnv "temp/upload-react" "r1" emptyDisk = (Ok info, st') /\
    ZipProcessor.extractPath info = Some "temp/extracted-r1" /\
    ZipProcessor.extractedProjects st' !! "r1" = Some info.
Proof.
  destruct (ZipProcessor.extract sampleEnv "temp/upload-react" "r1" emptyDisk)
    as [[info|e] st'] eqn:Hex; [|vm_compute in Hex; discriminate Hex].
  exists info, st'. split; [reflexivity|].
  destruct (extract_success _ _ _ _ _ _ Hex) as (_ & _ & _ & _ & Hpath & Hproj & _).
  split; [exact Hpath|exact Hproj].
Defined.

Lemma cleanup_unknown (env : ZipProcessor.Env) (runId : string) (st : ZipProcessor.State) :
  ZipProcessor.extractedProjects st !! runId = None ->
  ZipProcessor.cleanup env runId st = st.
Proof.
  intros Hnone. unfold ZipProcessor.cleanup. rewrite Hnone.
  destruct st as [f p l]. simpl in *. by rewrite delete_id.
Qed.

Lemma extract_recorded (env : ZipProcessor.Env) (zipPath runId : string)
    (st st' : ZipProcessor.State) (info : ZipProcessor.ProjectInfo) :
  ZipProcessor.extract env zipPath runId st = (Ok info, st') ->
  ZipProcessor.extractPath info = Some (ZipProcessor.extractPathOf runId) /\
  ZipProcessor.extractedProjects st' !! runId = Some info.
Proof.
  intros Hex. pose proof (extract_outcome env zipPath runId st) as Hout.
  destruct (ZipProcessor.extractBody env zipPath runId st) as [[info0|e] st0] eqn:Hbody.
  - rewrite Hout in Hex. injection Hex as <- <-.
    destruct (extractBody_ok _ _ _ _ _ _ Hbody)
      as (entries & analysed & _ & _ & _ & _ & _ & _ & -> & Hproj & _ & _).
    split; [done|]. rewrite Hproj, lookup_insert_eq. done.
  - rewrite Hout in Hex. discriminate Hex.
Qed.

(** X7.  [cleanup] of a run no project is recorded for touches neither the
    disk nor the record.  After a successful extraction, [cleanup] of that
    run forgets the project in every case; its directory is gone when the
    removal is not refused, and when it is refused the directory stays
    while the project is forgotten all the same, so that a second
    [cleanup] has nothing left to remove. *)
Theorem cleanup_after_extract
    (env env' : ZipProcessor.Env) (zipPath runId : string)
    (st st1 : ZipProcessor.State) (info : ZipProcessor.ProjectInfo) :
  (ZipProcessor.extractedProjects st !! runId = None ->
   ZipProcessor.cleanup env' runId st = st) /\
  (ZipProcessor.extract env zipPath runId st = (Ok info, st1) ->
   let st2 := ZipProcessor.cleanup env' runId st1 in
   ZipProcessor.extractedProjects st2 !! runId = None /\
   ZipProcessor.log st2
   = ZipProcessor.OpRm (ZipProcessor.extractPathOf runId) :: ZipProcessor.log st1 /\
   (ZipProcessor.rm_error env' = None ->
    ZipProcessor.fs st2 !! ZipProcessor.extractPathOf runId = None) /\
   (is_Some (ZipProcessor.rm_error env') -> ZipProcessor.fs st2 = ZipProcessor.fs st1) /\
   ZipProcessor.cleanup env' runId st2 = st2).
Proof.
  split; [apply cleanup_unknown|].
  - intros Hex st2.
    destruct (extract_recorded _ _ _ _ _ _ Hex) as (Hpath & Hproj).
    assert (Hst2 : st2 = ZipProcessor.mkState
              (match ZipProcessor.rm_error env' with
               | Some _ => ZipProcessor.fs st1
               | None => delete (ZipProcessor.extractPathOf runId) (ZipProcessor.fs st1)
               end)
              (delete runId (ZipProcessor.extractedProjects st1))
              (ZipProcessor.OpRm (ZipProcessor.extractPathOf runId) :: ZipProcessor.log st1)).
    { subst st2. unfold ZipProcessor.cleanup. rewrite Hproj, Hpath.
      assert (Htruthy : truthy_str (ZipProcessor.extractPathOf runId) = true) by done.
      rewrite Htruthy, rm_effect. done. }
    rewrite Hst2. simpl.
    split; [apply lookup_delete_eq|]. split; [done|]. split.
    + intros ->. apply lookup_delete_eq.
    + split; [by intros [e ->]|].
      apply cleanup_unknown. simpl. apply lookup_delete_eq.
Qed.

Lemma cleanup_after_extract_witness :
  ZipProcessor.cleanup sampleEnv "r9" emptyDisk = emptyDisk /\
  ZipProcessor.fs
    (ZipProcessor.cleanup sampleEnv "r1"
       (snd (ZipProcessor.extract sampleEnv "temp/upload-react" "r1" emptyDisk)))
    !! "temp/extracted-r1" = None.
Proof.
  split.
  - apply (proj1 (cleanup_after_extract sampleEnv sampleEnv "" "r9" emptyDisk emptyDisk
                    (ZipProcessor.mkProjectInfo "" None [] JNull JNull None None None))).
    reflexivity.
  - destruct (ZipProcessor.extract sampleEnv "temp/upload-react" "r1" emptyDisk)
      as [[info|e] st1] eqn:Hex; [|vm_compute in Hex; discriminate Hex].
    destruct (proj2 (cleanup_after_extract sampleEnv sampleEnv _ _ _ _ _) Hex)
      as (_ & _ & Hgone & _).
    apply Hgone. reflexivity.
Defined.

(** ** File listing and classification *)

Section ListingFacts.

Import ZipProcessor Listing.

(** Induction over a tree, with the children of a directory at hand. *)
Lemma Dirent_tree_ind (P : Dirent -> Prop) :
  (forall n content, P (File n content)) ->
  (forall n children, Forall P children -> P (Directory n children)) ->
  forall d, P d.
Proof.
  intros HF HD. fix IH 1. intros [n content|n children]; [apply HF|].
  apply HD. induction children as [|d rest IHrest]; constructor; [apply IH|apply IHrest].
Qed.

Lemma direntFiles_prune (d : Dirent) (prefix : string) :
  direntFiles prefix d
  = match pruneDirent d with
    | Some d' => direntAllFiles prefix d'
    | None => []
    end.
Proof.
  revert prefix. induction d as [n content|n children IH] using Dirent_tree_ind;
    intros prefix; cbn [direntFiles pruneDirent]; [done|].
  destruct (has n skipped); [done|]. cbn [direntAllFiles].
  induction IH as [|d rest Hd _ IHrest]; simpl; [done|].
  rewrite Hd, IHrest. by destruct (pruneDirent d).
Qed.

Lemma includes_app_r (sub a b : string) :
  includes sub b = true -> includes sub (a +:+ b) = true.
Proof. intros H. induction a as [|c a IH]; [done|]. by apply includes_tail. Qed.

Lemma includes_slash_relative (prefix n : string) :
  truthy_str prefix = true -> includes "/" (relativePath prefix n) = true.
Proof.
  intros Hp. unfold relativePath. rewrite Hp. apply includes_app_r.
  apply includes_prefix. simpl. by destruct n.
Qed.

Lemma relativePath_truthy (prefix n : string) :
  properName n = true -> truthy_str (relativePath prefix n) = true.
Proof.
  unfold properName, relativePath. intros [Hn _]%andb_true_iff.
  destruct (truthy_str prefix) eqn:Hp; [|done].
  destruct prefix; [discriminate Hp|done].
Qed.

(** Below a directory every listed path has a slash. *)
Lemma nested_paths_have_slash (d : Dirent) (prefix : string) :
  truthy_str prefix = true -> properDirent d = true ->
  forall f, f ∈ direntFiles prefix d -> includes "/" f = true.
Proof.
  revert prefix. induction d as [n content|n children IH] using Dirent_tree_ind;
    intros prefix Hp Hproper f; cbn [direntFiles].
  - intros ->%list_elem_of_singleton. by apply includes_slash_relative.
  - destruct (has n skipped); [by intros ?%elem_of_nil|].
    simpl in Hproper. apply andb_true_iff in Hproper as [Hn Hch].
    rewrite forallb_forall in Hch.
    intros Hin. apply list_elem_of_In, in_flat_map in Hin as (d & Hd & Hf).
    rewrite Forall_forall in IH.
    apply (IH d ltac:(by apply list_elem_of_In) (relativePath prefix n)).
    + by apply relativePath_truthy.
    + by apply Hch.
    + by apply list_elem_of_In.
Qed.

Lemma rootFilesOf_app (l1 l2 : list string) :
  rootFilesOf (l1 ++ l2) = (rootFilesOf l1 ++ rootFilesOf l2)%list.
Proof. unfold rootFilesOf. apply List.filter_app. Qed.

Lemma rootFilesOf_none (l : list string) :
  (forall f, f ∈ l -> includes "/" f = true) -> rootFilesOf l = [].
Proof.
  induction l as [|x l IH]; intros H; simpl; [done|].
  rewrite (H x) by (apply elem_of_cons; by left). simpl.
  apply IH. intros f Hf. apply H, elem_of_cons. by right.
Qed.

End ListingFacts.

(** X8.  The listing is the complete listing of the tree from which every
    directory named [node_modules], [.git], [__pycache__] or
    [.pytest_cache] has been cut out, at whatever depth it occurs. *)
Theorem listing_is_pruned_tree (entries : list ZipProcessor.Dirent) (prefix : string) :
  ZipProcessor.listFiles entries prefix
  = flat_map (ZipProcessor.direntAllFiles prefix) (Listing.prune entries).
Proof.
  unfold ZipProcessor.listFiles, Listing.prune.
  induction entries as [|d rest IH]; simpl; [done|].
  rewrite IH, direntFiles_prune. by destruct (Listing.pruneDirent d).
Qed.

(** X9.  In a tree with proper names (not empty, no slash) the top-level
    names the classifier looks its manifests up in are exactly the names
    of the files directly below the root, in their order: a manifest in a
    subdirectory is never taken for one. *)
Theorem root_files_are_top_level (entries : list ZipProcessor.Dirent) :
  forallb Listing.properDirent entries = true ->
  ZipProcessor.rootFilesOf (ZipProcessor.listFiles entries "") = Listing.topFiles entries.
Proof.
  unfold ZipProcessor.listFiles, Listing.topFiles.
  induction entries as [|d rest IH]; simpl; [done|].
  intros [Hd Hrest]%andb_true_iff. rewrite rootFilesOf_app, IH by done.
  f_equal. destruct d as [n content|n children].
  - simpl in *. unfold Listing.properName in Hd.
    apply andb_true_iff in Hd as [_ Hn]. unfold ZipProcessor.relativePath. simpl.
    by rewrite Hn.
  - apply rootFilesOf_none. intros f Hf.
    simpl in Hd. apply andb_true_iff in Hd as [Hn Hch].
    cbn [ZipProcessor.direntFiles] in Hf.
    destruct (ZipProcessor.has n ZipProcessor.skipped);
      [by apply elem_of_nil in Hf|].
    apply list_elem_of_In, in_flat_map in Hf as (d & Hdin & Hf).
    rewrite forallb_forall in Hch.
    apply (nested_paths_have_slash d (ZipProcessor.relativePath "" n)).
    + by apply relativePath_truthy.
    + by apply Hch.
    + by apply list_elem_of_In.
Qed.

Lemma root_files_are_top_level_witness :
  ZipProcessor.rootFilesOf (ZipProcessor.listFiles pythonTree "")
  = ["requirements.txt"; "Dockerfile"].
Proof.
  rewrite (root_files_are_top_level pythonTree); [reflexivity|].
  vm_compute. reflexivity.
Defined.

Ltac node_branches H :=
  repeat match type of H with
    | bind ?r _ = _ =>
        let E := fresh "E" in
        destruct r as [?|?] eqn:E; simpl in H; [|discriminate H]
    | (let '(_, _) := ?p in _) = _ => destruct p; simpl in H
    | (if ?b then _ else _) = _ =>
        let E := fresh "E" in destruct b eqn:E; simpl in H
    end.

Section NodeAnalysisFacts.

Import ZipProcessor.

Lemma or_else_truthy (a : option JValue) (b : JValue) :
  truthy b = true -> truthy (or_else a b) = true.
Proof.
  intros Hb. destruct a as [v|]; simpl; [|done].
  by destruct (truthy v) eqn:Hv.
Qed.

Lemma or_else_null (a : option JValue) :
  or_else a JNull = JNull \/ truthy (or_else a JNull) = true.
Proof.
  destruct a as [v|]; simpl; [|by left].
  destruct (truthy v) eqn:Hv; [by right|by left].
Qed.

Lemma npmRunBuild_cases (a : option JValue) :
  npmRunBuild a = JNull \/ truthy (npmRunBuild a) = true.
Proof. unfold npmRunBuild. destruct (truthy_opt a); [by right|by left]. Qed.

Lemma analyzeNodeProject_shape (files : list string) (v : JValue) (info : ProjectInfo) :
  analyzeNodeProject files v = Ok info ->
  ZipProcessor.files info = files /\
  truthy (startCommand info) = true /\
  (buildCommand info = JNull \/ truthy (buildCommand info) = true) /\
  is_Some (dependencies info) /\ is_Some (framework info) /\
  entryPoint info = None /\ extractPath info = None.
Proof.
  unfold analyzeNodeProject. intros H.
  node_branches H; injection H as <-; simpl;
    (split; [done|]); (split; [by repeat apply or_else_truthy|]);
    (split; [first [apply npmRunBuild_cases|apply or_else_null]|]); eauto.
Qed.

Lemma withDefault_not_null (o : option JValue) :
  o <> Some JNull -> withDefault o <> JNull.
Proof. destruct o as [[]|]; simpl; congruence. Qed.

Lemma eitherHas_ok (a b : JValue) (k : string) :
  a <> JNull -> b <> JNull -> exists r, eitherHas a b k = Ok r.
Proof.
  intros Ha Hb. unfold eitherHas.
  destruct (getProp_not_null a k Ha) as [x ->].
  destruct (getProp_not_null b k Hb) as [y ->]. simpl.
  destruct (truthy_opt x); eauto.
Qed.

End NodeAnalysisFacts.

(** X10.  The Node analysis fails only on [null]: for a manifest object
    whose [scripts], [dependencies] and [devDependencies] are not [null] it
    returns a project, and so it does, with the default Node.js project,
    for a manifest that is neither an object nor [null].  Whatever it
    returns lists the given files, has a type among [react], [vue],
    [angular] and [node], a start command that is never empty, and a build
    command that is [null] or not empty.  A manifest that is [null], or
    whose [dependencies] are [null], makes it throw the [TypeError] of the
    property read that fails: that of [scripts] for the manifest, that of
    [react] for the dependencies. *)
Theorem node_analysis_outcomes (files : list string) :
  (forall fields,
     assoc "scripts" fields <> Some JNull ->
     assoc "dependencies" fields <> Some JNull ->
     assoc "devDependencies" fields <> Some JNull ->
     exists info, ZipProcessor.analyzeNodeProject files (JObj fields) = Ok info) /\
  (forall v, v <> JNull -> (forall fields, v <> JObj fields) ->
     ZipProcessor.analyzeNodeProject files v
     = Ok (ZipProcessor.mkProjectInfo "node" (Some "Node.js") files JNull
             (JStr "node index.js") (Some (keys (JObj []))) None None)) /\
  (forall v info,
     ZipProcessor.analyzeNodeProject files v = Ok info ->
     ZipProcessor.type info ∈ ZipProcessor.nodeTypes /\
     ZipProcessor.files info = files /\
     truthy (ZipProcessor.startCommand info) = true /\
     (ZipProcessor.buildCommand info = JNull \/
      truthy (ZipProcessor.buildCommand info) = true)) /\
  (forall fields,
     assoc "dependencies" fields = Some JNull ->
     ZipProcessor.analyzeNodeProject files (JObj fields)
     = Throw (mkError "Cannot read properties of null (reading 'react')")) /\
  ZipProcessor.analyzeNodeProject files JNull
  = Throw (mkError "Cannot read properties of null (reading 'scripts')").
Proof.
  split; [|split; [|split; [|split]]].
  - intros fields Hs Hd Hdd.
    apply withDefault_not_null in Hs, Hd, Hdd.
    unfold ZipProcessor.analyzeNodeProject. rewrite destructure_object. simpl.
    destruct (eitherHas_ok _ _ "react" Hd Hdd) as [r ->]. simpl.
    destruct (getProp_not_null _ "build" Hs) as [b ->].
    destruct (getProp_not_null _ "start" Hs) as [s ->].
    destruct (getProp_not_null _ "dev" Hs) as [d ->].
    destruct (getProp_not_null _ "serve" Hs) as [sv ->].
    destruct r; simpl; [eauto|].
    destruct (eitherHas_ok _ _ "vue" Hd Hdd) as [r ->]. simpl.
    destruct r; simpl; [eauto|].
    destruct (eitherHas_ok _ _ "@angular/core" Hd Hdd) as [r ->]. simpl.
    destruct r; simpl; [eauto|].
    destruct (getProp_not_null _ "express" Hd) as [x1 ->].
    destruct (getProp_not_null _ "fastify" Hd) as [x2 ->].
    destruct (getProp_not_null _ "koa" Hd) as [x3 ->]. simpl.
    destruct (truthy_opt x1 || truthy_opt x2 || truthy_opt x3); eauto.
  - intros v Hnull Hobj. destruct v; try done. by destruct (Hobj fields).
  - intros v info H. split; [by apply (analyzeNodeProject_type files v)|].
    destruct (analyzeNodeProject_shape files v info H) as (? & ? & ? & _). done.
  - intros fields Hd.
    unfold ZipProcessor.analyzeNodeProject. rewrite destructure_object, Hd. done.
  - reflexivity.
Qed.

Lemma node_analysis_outcomes_witness :
  (exists info,
     ZipProcessor.analyzeNodeProject ["package.json"] (manifestValue "vue" "^3.4.0")
     = Ok info) /\
  ZipProcessor.analyzeNodeProject ["package.json"] (JArr [JNum 1; JNum 2])
  = Ok (ZipProcessor.mkProjectInfo "node" (Some "Node.js") ["package.json"] JNull
          (JStr "node index.js") (Some []) None None) /\
  ZipProcessor.analyzeNodeProject ["package.json"] (JObj [("dependencies", JNull)])
  = Throw (mkError "Cannot read properties of null (reading 'react')").
Proof.
  destruct (node_analysis_outcomes ["package.json"]) as (Hobj & Hother & _ & Hnull & _).
  split; [|split].
  - apply Hobj; vm_compute; discriminate.
  - apply Hother; [discriminate|]. intros fields. discriminate.
  - apply Hnull. reflexivity.
Defined.

(** X11.  A static project always names an entry point that ends in
    [.html]: [index.html] as soon as any listed path ends in [index.html]
    (whether or not a file of exactly that name is listed), and otherwise
    the first listed path that ends in [.html]. *)
Theorem static_entry_point (files : list string) :
  existsb (endsWith ".html") files = true ->
  exists entry,
    ZipProcessor.entryPoint (ZipProcessor.analyzeStaticProject files) = Some entry /\
    endsWith ".html" entry = true /\
    (if existsb (endsWith "index.html") files then entry = "index.html"
     else entry ∈ files /\
          exists before after,
            files = (before ++ entry :: after)%list /\
            forall f, f ∈ before -> endsWith ".html" f = false).
Proof.
  intros Hhtml. unfold ZipProcessor.analyzeStaticProject. simpl.
  destruct (existsb (endsWith "index.html") files); [by exists "index.html"|].
  induction files as [|x rest IH]; [discriminate|]. simpl in *.
  destruct (endsWith ".html" x) eqn:Hx.
  - exists x. split; [done|]. split; [done|]. split; [apply elem_of_cons; by left|].
    exists [], rest. split; [done|]. intros f Hf. by apply elem_of_nil in Hf.
  - destruct (IH Hhtml) as (entry & Hfind & Hends & Hin & before & after & -> & Hbefore).
    exists entry. split; [done|]. split; [done|].
    split; [apply elem_of_cons; by right|].
    exists (x :: before), after. split; [done|].
    intros f Hf. apply elem_of_cons in Hf as [->|Hf]; [done|by apply Hbefore].
Qed.

Lemma static_entry_point_witness :
  ZipProcessor.entryPoint
    (ZipProcessor.analyzeStaticProject ["style.css"; "docs/index.html"; "about.html"])
  = Some "index.html".
Proof.
  destruct (static_entry_point ["style.css"; "docs/index.html"; "about.html"])
    as (entry & -> & _ & Hentry); [reflexivity|].
  vm_compute in Hentry. by rewrite Hentry.
Defined.

(** X12.  Whenever classification returns, the project lists exactly the
    files of the listing, carries no extraction path yet, and has one of
    the eight types; its start command is [null] exactly for the types
    [static] and [unknown]. *)
Theorem classification_result
    (env : ZipProcessor.Env) (fs : ZipProcessor.FS) (dir : string)
    (info : ZipProcessor.ProjectInfo) :
  ZipProcessor.analyzeProject env fs dir = Ok info ->
  ZipProcessor.getFileList fs dir = Ok (ZipProcessor.files info) /\
  ZipProcessor.extractPath info = None /\
  ZipProcessor.type info ∈ Listing.projectTypes /\
  (ZipProcessor.startCommand info = JNull <->
   ZipProcessor.type info = "static" \/ ZipProcessor.type info = "unknown").
Proof.
  intros H.
  destruct (ZipProcessor.getFileList fs dir) as [files|e] eqn:Hlist;
    [|unfold ZipProcessor.analyzeProject in H; rewrite Hlist in H; discriminate H].
  rewrite (analyzeProject_unfold env fs dir files Hlist) in H.
  unfold Listing.projectTypes.
  destruct (ZipProcessor.has "package.json" _).
  - pose proof (analyzeNodeProject_type _ _ _ H) as Hty.
    destruct (analyzeNodeProject_shape _ _ _ H) as (-> & Hstart & _ & _ & _ & _ & Hpath).
    split; [done|]. split; [done|].
    unfold ZipProcessor.nodeTypes in Hty. rewrite !elem_of_cons, elem_of_nil in Hty.
    split.
    + rewrite !elem_of_cons. tauto.
    + split.
      * intros Hnull. rewrite Hnull in Hstart. discriminate Hstart.
      * intros [Hs|Hs]; rewrite Hs in Hty;
          destruct Hty as [Hty|[Hty|[Hty|[Hty|[]]]]]; discriminate Hty.
  - destruct (_ || _).
    + injection H as <-. unfold ZipProcessor.analyzePythonProject.
      destruct (existsb _ files); simpl; (split; [done|]); (split; [done|]);
        (split; [rewrite !elem_of_cons; tauto|]);
        (split; [discriminate|intros [?|?]; discriminate]).
    + destruct (ZipProcessor.has "Dockerfile" _).
      * injection H as <-. simpl. split; [done|]. split; [done|].
        split; [rewrite !elem_of_cons; tauto|].
        split; [discriminate|intros [?|?]; discriminate].
      * destruct (existsb (endsWith ".html") files); injection H as <-; simpl;
          (split; [done|]); (split; [done|]);
          (split; [rewrite !elem_of_cons; tauto|]); (split; [auto|done]).
Qed.

Lemma classification_result_witness :
  exists info,
    ZipProcessor.analyzeProject sampleEnv (treeFs staticTree) "temp/extracted-r1" = Ok info /\
    ZipProcessor.files info = ["site/about.html"; "style.css"] /\
    ZipProcessor.startCommand info = JNull.
Proof.
  destruct (ZipProcessor.analyzeProject sampleEnv (treeFs staticTree) "temp/extracted-r1")
    as [info|e] eqn:H; [|vm_compute in H; discriminate H].
  exists info. split; [reflexivity|].
  destruct (classification_result _ _ _ _ H) as (Hfiles & _ & _ & Hstart).
  split.
  - vm_compute in Hfiles. injection Hfiles as Hf. exact (eq_sym Hf).
  - apply Hstart. left. vm_compute in H. by injection H as <-.
Defined.

(** ** Worker manager: stopping, ports, waiting *)

Section StopFacts.

Import WorkerManager Workers.

Lemma stopWorker_result (w : Worker) :
  stopWorker w
  = mkWorker (id w) (runId w) (port w) (projectPath w) (projectType w)
      (buildCommand w) (startCommand w) "stopped" (startTime w) false.
Proof. unfold stopWorker. destruct w as [? ? ? ? ? ? ? ? ? []]; reflexivity. Qed.

Lemma stopWorker_idempotent (w : Worker) : stopWorker (stopWorker w) = stopWorker w.
Proof. by rewrite !stopWorker_result. Qed.

Lemma fmap_alter_preserved {B} (g : Worker -> B) (f : Worker -> Worker) (a : nat)
    (h : list Worker) :
  (forall w, g (f w) = g w) -> g <$> alter f a h = g <$> h.
Proof.
  intros Hf. apply list_eq. intros i. rewrite !list_lookup_fmap.
  destruct (decide (a = i)) as [->|Hne].
  - rewrite list_lookup_alter_eq. destruct (h !! i); simpl; [|done]. by rewrite Hf.
  - by rewrite list_lookup_alter_ne.
Qed.

Lemma stop_workers (k j : string) (st : State) :
  workers (stop k st) !! j = if decide (j = k) then None else workers st !! j.
Proof.
  destruct (decide (j = k)) as [->|Hj]; unfold stop;
    destruct (workers st !! k) as [a|] eqn:Hk; cbn [workers modify].
  - apply lookup_delete_eq.
  - done.
  - by apply lookup_delete_ne.
  - done.
Qed.

Lemma stop_heap (k : string) (st : State) (b : nat) :
  heap (stop k st) !! b
  = if decide (workers st !! k = Some b) then stopWorker <$> heap st !! b
    else heap st !! b.
Proof.
  destruct (decide (workers st !! k = Some b)) as [Hkb|Hkb]; unfold stop.
  - rewrite Hkb. cbn [heap modify]. apply list_lookup_alter_eq.
  - destruct (workers st !! k) as [a|] eqn:Hk; cbn [heap modify]; [|done].
    apply list_lookup_alter_ne. congruence.
Qed.

Lemma stops_spec (ids : list string) (st : State) :
  NoDup ids ->
  (forall j, workers (stops ids st) !! j
             = if decide (j ∈ ids) then None else workers st !! j) /\
  (forall b w, heap st !! b = Some w ->
     ((exists k, k ∈ ids /\ workers st !! k = Some b) ->
      heap (stops ids st) !! b = Some (stopWorker w)) /\
     ((forall k, k ∈ ids -> workers st !! k <> Some b) ->
      heap (stops ids st) !! b = Some w)) /\
  nextPort (stops ids st) = nextPort st.
Proof.
  revert st. induction ids as [|k ids IH]; intros st Hnd.
  - change (stops [] st) with st. split; [|split; [|done]].
    + intros j. case_decide as H; [by apply elem_of_nil in H|done].
    + intros b w Hw. split; [|done]. intros (k & Hk & _). by apply elem_of_nil in Hk.
  - apply NoDup_cons in Hnd as [Hk Hnd].
    destruct (IH (stop k st) Hnd) as (IHw & IHh & IHp).
    change (stops (k :: ids) st) with (stops ids (stop k st)).
    assert (Hsame : forall k', k' ∈ ids -> workers (stop k st) !! k' = workers st !! k').
    { intros k' Hk'. rewrite stop_workers, decide_False; [done|]. by intros ->. }
    split; [|split].
    + intros j. rewrite IHw. destruct (decide (j ∈ ids)) as [Hj|Hj].
      * rewrite decide_True; [done|]. apply elem_of_cons. by right.
      * rewrite stop_workers. destruct (decide (j = k)) as [->|Hne].
        -- rewrite decide_True; [done|]. apply elem_of_cons. by left.
        -- rewrite decide_False; [done|]. rewrite elem_of_cons. tauto.
    + intros b w Hw.
      pose proof (stop_heap k st b) as Hb. rewrite Hw in Hb. simpl in Hb.
      destruct (decide (Exists (fun k' => workers st !! k' = Some b) ids)) as [Hex|Hnex].
      * apply Exists_exists in Hex as (k' & Hk' & Hhit).
        assert (Hstopped : heap (stops ids (stop k st)) !! b = Some (stopWorker w)).
        { destruct (decide (workers st !! k = Some b)) as [Hkb|Hkb].
          - rewrite <- (stopWorker_idempotent w).
            apply (IHh b (stopWorker w) Hb). exists k'. by rewrite Hsame.
          - apply (IHh b w Hb). exists k'. by rewrite Hsame. }
        split; [done|]. intros Hno. destruct (Hno k'); [apply elem_of_cons; by right|done].
      * assert (Hno : forall k', k' ∈ ids -> workers (stop k st) !! k' <> Some b).
        { intros k' Hk'. rewrite Hsame by done. intros Hhit.
          apply Hnex, Exists_exists. eauto. }
        split.
        -- intros (k0 & Hk0 & Hhit). apply elem_of_cons in Hk0 as [->|Hk0].
           ++ rewrite decide_True in Hb by done. by apply (IHh b (stopWorker w) Hb).
           ++ destruct Hnex. apply Exists_exists. eauto.
        -- intros Hnone.
           rewrite decide_False in Hb by (apply Hnone, elem_of_cons; by left).
           by apply (IHh b w Hb).
    + rewrite IHp. unfold stop. by destruct (workers st !! k).
Qed.

End StopFacts.

(** X13.  [stop] on an id the manager does not hold changes nothing, and
    stopping twice is stopping once.  Stopping a registered worker leaves
    it [stopped] with its health-check timer cancelled, unregisters its id
    and touches no other worker, no other id and not the port counter. *)
Theorem stop_effect (workerId : string) (st : WorkerManager.State) :
  (WorkerManager.workers st !! workerId = None -> WorkerManager.stop workerId st = st) /\
  WorkerManager.stop workerId (WorkerManager.stop workerId st)
  = WorkerManager.stop workerId st /\
  (forall a w,
     WorkerManager.workers st !! workerId = Some a ->
     WorkerManager.heap st !! a = Some w ->
     let st' := WorkerManager.stop workerId st in
     WorkerManager.get workerId st' = None /\
     WorkerManager.heap st' !! a
     = Some (WorkerManager.mkWorker (WorkerManager.id w) (WorkerManager.runId w)
               (WorkerManager.port w) (WorkerManager.projectPath w)
               (WorkerManager.projectType w) (WorkerManager.buildCommand w)
               (WorkerManager.startCommand w) "stopped" (WorkerManager.startTime w) false) /\
     (forall b, b <> a -> WorkerManager.heap st' !! b = WorkerManager.heap st !! b) /\
     (forall k, k <> workerId ->
        WorkerManager.workers st' !! k = WorkerManager.workers st !! k) /\
     WorkerManager.nextPort st' = WorkerManager.nextPort st).
Proof.
  assert (Hnone : forall s, WorkerManager.workers s !! workerId = None ->
                            WorkerManager.stop workerId s = s).
  { intros s H. unfold WorkerManager.stop. by rewrite H. }
  split; [apply Hnone|]. split.
  - apply Hnone. rewrite stop_workers. by rewrite decide_True.
  - intros a w Hk Hw st'. subst st'. split; [|split; [|split; [|split]]].
    + unfold WorkerManager.get. rewrite stop_workers. by rewrite decide_True.
    + rewrite stop_heap, decide_True, Hw by done. simpl. by rewrite stopWorker_result.
    + intros b Hb. rewrite stop_heap, decide_False; [done|]. congruence.
    + intros k Hne. rewrite stop_workers. by rewrite decide_False.
    + unfold WorkerManager.stop. by rewrite Hk.
Qed.

Lemma stop_effect_witness :
  WorkerManager.stop "worker-unknown" startedTwice = startedTwice /\
  WorkerManager.get "worker-test-run" (WorkerManager.stop "worker-test-run" startedTwice)
  = None.
Proof.
  split.
  - apply (proj1 (stop_effect "worker-unknown" startedTwice)). vm_compute. reflexivity.
  - destruct (proj2 (proj2 (stop_effect "worker-test-run" startedTwice)) 1
                (WorkerManager.mkWorker "worker-test-run" "test-run" 8001
                   (Some "/mock/path") "static" JNull JNull "starting" (Some 250%Z) false))
      as [Hgone _]; [vm_compute; reflexivity|reflexivity|exact Hgone].
Defined.

(** X14.  [stopAll] leaves no worker registered.  Every worker that was
    registered is [stopped] with its timer cancelled afterwards, every
    worker that was not registered is as before, and the port counter is
    unchanged. *)
Theorem stopAll_effect (st : WorkerManager.State) :
  WorkerManager.workers (Workers.stopAll st) = ∅ /\
  (forall b w, WorkerManager.heap st !! b = Some w ->
     ((exists k, WorkerManager.workers st !! k = Some b) ->
      WorkerManager.heap (Workers.stopAll st) !! b = Some (WorkerManager.stopWorker w)) /\
     ((forall k, WorkerManager.workers st !! k <> Some b) ->
      WorkerManager.heap (Workers.stopAll st) !! b = Some w)) /\
  WorkerManager.nextPort (Workers.stopAll st) = WorkerManager.nextPort st.
Proof.
  destruct (stops_spec ((map_to_list (WorkerManager.workers st)).*1) st
              (NoDup_fst_map_to_list _)) as (Hw & Hh & Hp).
  assert (Hkeys : forall k, k ∈ (map_to_list (WorkerManager.workers st)).*1
                            <-> is_Some (WorkerManager.workers st !! k)).
  { intros k. rewrite list_elem_of_fmap. split.
    - intros ([k' a] & -> & Hin). apply elem_of_map_to_list in Hin. eauto.
    - intros [a Ha]. exists (k, a). split; [done|]. by apply elem_of_map_to_list. }
  split; [|split; [|exact Hp]].
  - apply map_eq. intros j. rewrite lookup_empty. unfold Workers.stopAll. rewrite Hw.
    case_decide as Hj; [done|].
    destruct (WorkerManager.workers st !! j) eqn:E; [|done].
    destruct Hj. apply Hkeys. eauto.
  - intros b w Hb. destruct (Hh b w Hb) as [Hyes Hno]. split.
    + intros (k & Hk). apply Hyes. exists k. split; [|done]. apply Hkeys. eauto.
    + intros Hnone. apply Hno. intros k _. apply Hnone.
Qed.

Lemma stopAll_effect_witness :
  WorkerManager.workers (Workers.stopAll startedTwice) = ∅ /\
  WorkerManager.heap (Workers.stopAll startedTwice) !! 1
  = Some (WorkerManager.stopWorker
            (WorkerManager.mkWorker "worker-test-run" "test-run" 8001
               (Some "/mock/path") "static" JNull JNull "starting" (Some 250%Z) false)).
Proof.
  destruct (stopAll_effect startedTwice) as (Hempty & Hh & _).
  split; [exact Hempty|].
  apply (proj1 (Hh 1 (WorkerManager.mkWorker "worker-test-run" "test-run" 8001
                        (Some "/mock/path") "static" JNull JNull "starting"
                        (Some 250%Z) false)
                  ltac:(reflexivity))).
  exists "worker-test-run". vm_compute. reflexivity.
Defined.

Section PortFacts.

Import WorkerManager Workers.

Lemma portsInOrder_modify (a : nat) (f : Worker -> Worker) (st : State) :
  (forall w, port (f w) = port w) -> portsInOrder st -> portsInOrder (modify a f st).
Proof.
  intros Hf [Hnext Hport]. split; simpl.
  - by rewrite length_alter.
  - intros b x Hx. apply lookup_alter_Some in Hx as (y & Hy & [->| ->]).
    + by apply Hport.
    + rewrite Hf. by apply Hport.
Qed.

Lemma portsInOrder_apply (st : State) (op : Op) :
  portsInOrder st -> portsInOrder (apply st op).
Proof.
  intros Hp. destruct op as [options nowMs|a fails|a|wid]; simpl.
  - destruct Hp as [Hnext Hport]. split; simpl.
    + rewrite length_app. simpl. lia.
    + intros b w Hw. apply lookup_app_Some in Hw as [Hw|[Hge Hw]]; [by apply Hport|].
      destruct (b - length (heap st)) as [|n] eqn:Hb; [|done].
      simpl in Hw. injection Hw as <-. simpl. lia.
  - unfold buildDone. destruct fails; [|done]. simpl.
    by apply (portsInOrder_modify a (setStatus "failed")).
  - by apply portsInOrder_modify.
  - unfold stop. destruct (workers st !! wid) as [a|]; [|done].
    apply (portsInOrder_modify a stopWorker); [|done].
    intros w. by rewrite stopWorker_result.
Qed.

Lemma portsInOrder_reachable (st : State) : reachable st -> portsInOrder st.
Proof.
  induction 1 as [|st op _ IH]; [|by apply portsInOrder_apply].
  split; [done|]. intros a w Hw. by destruct a.
Qed.

End PortFacts.

(** X15.  Ports are handed out in order, starting at 8000, and never
    again: in every state of the manager the worker constructed as the
    n-th (counting from 0) has port 8000 + n, whatever was stopped or has
    failed since, so no two workers ever share a port, and the next port is
    8000 plus the number of workers constructed so far. *)
Theorem ports_never_reused (st : WorkerManager.State) :
  WorkerManager.reachable st ->
  WorkerManager.nextPort st = (8000 + Z.of_nat (length (WorkerManager.heap st)))%Z /\
  (forall a w,
     WorkerManager.heap st !! a = Some w ->
     WorkerManager.port w = (8000 + Z.of_nat a)%Z) /\
  (forall a1 a2 w1 w2,
     WorkerManager.heap st !! a1 = Some w1 ->
     WorkerManager.heap st !! a2 = Some w2 ->
     WorkerManager.port w1 = WorkerManager.port w2 -> a1 = a2).
Proof.
  intros Hreach. destruct (portsInOrder_reachable st Hreach) as [Hnext Hport].
  split; [done|]. split; [done|].
  intros a1 a2 w1 w2 H1 H2 Heq.
  rewrite (Hport _ _ H1), (Hport _ _ H2) in Heq. lia.
Qed.

Lemma ports_never_reused_witness :
  WorkerManager.nextPort
    (WorkerManager.apply startedTwice (WorkerManager.Stop "worker-test-run")) = 8002%Z.
Proof.
  apply (proj1 (ports_never_reused
                  (WorkerManager.apply startedTwice (WorkerManager.Stop "worker-test-run"))
                  ltac:(repeat constructor))).
Defined.

Section WaitFacts.

Import WorkerManager Workers.

Lemma waitUntilReady_ends (startTime timeout : Z) (polls : list (Worker * Z))
    (previous gap : Z) :
  spaced previous gap polls -> polls <> [] ->
  (timeout < previous + gap - startTime + 100 * Z.of_nat (length polls - 1))%Z ->
  is_Some (waitUntilReady startTime timeout polls).
Proof.
  revert previous gap. induction polls as [|[w nowMs] rest IH];
    intros previous gap Hsp Hne Hlen; [done|].
  destruct Hsp as [Hnow Hrest]. cbn [waitUntilReady]. unfold checkReady.
  destruct (String.eqb (status w) "running"); [eauto|].
  destruct (String.eqb (status w) "failed"); [eauto|].
  destruct (timeout <? nowMs - startTime)%Z eqn:Hto; [eauto|].
  apply Z.ltb_ge in Hto.
  destruct rest as [|p rest'].
  - simpl in Hlen. lia.
  - apply (IH nowMs 100%Z Hrest); [done|]. simpl length in *. lia.
Qed.

End WaitFacts.

(** X16.  If the clock is read no earlier at a pass of the loop than at
    the one before plus the 100 ms the loop sleeps, [waitUntilReady] is
    over after at most [timeout / 100 + 2] passes, whatever the worker
    does; and it returns without error only if some pass found the worker
    [running]. *)
Theorem waitUntilReady_bounded
    (startTime timeout : Z) (polls : list (WorkerManager.Worker * Z)) :
  (0 <= timeout)%Z ->
  Workers.spaced startTime 0 polls ->
  (Z.to_nat (timeout / 100) + 2 <= length polls)%nat ->
  is_Some (Workers.waitUntilReady startTime timeout polls) /\
  (Workers.waitUntilReady startTime timeout polls = Some (Ok tt) ->
   exists w nowMs, (w, nowMs) ∈ polls /\ WorkerManager.status w = "running").
Proof.
  intros Hto Hsp Hlen. split.
  - apply (waitUntilReady_ends startTime timeout polls startTime 0 Hsp).
    + intros ->. simpl in Hlen. lia.
    + pose proof (Z.mul_div_le timeout 100 ltac:(lia)).
      pose proof (Z.mod_pos_bound timeout 100 ltac:(lia)).
      pose proof (Z.div_mod timeout 100 ltac:(lia)).
      assert (0 <= timeout / 100)%Z by (apply Z.div_pos; lia).
      lia.
  - clear. induction polls as [|[w nowMs] rest IH]; [discriminate|].
    cbn [Workers.waitUntilReady]. unfold WorkerManager.checkReady.
    destruct (String.eqb_spec (WorkerManager.status w) "running") as [Hrun|_].
    + intros _. exists w, nowMs. split; [apply elem_of_cons; by left|done].
    + destruct (String.eqb (WorkerManager.status w) "failed"); [discriminate|].
      destruct (timeout <? nowMs - startTime)%Z; [discriminate|].
      intros H. destruct (IH H) as (w' & n' & Hin & Hst).
      exists w', n'. split; [apply elem_of_cons; by right|done].
Qed.

Lemma waitUntilReady_bounded_witness :
  is_Some (Workers.waitUntilReady 0 150
             [(stuckWorker, 0%Z); (stuckWorker, 100%Z); (stuckWorker, 205%Z)]).
Proof.
  apply (waitUntilReady_bounded 0 150
           [(stuckWorker, 0%Z); (stuckWorker, 100%Z); (stuckWorker, 205%Z)]).
  - lia.
  - simpl. lia.
  - vm_compute. lia.
Defined.

(** ** Preview gateway: answers and content *)

Section SuffixFacts.

Lemma substring_all (s : string) : String.substring 0 (String.length s) s = s.
Proof. induction s as [|c s IH]; simpl; [done|]. by rewrite IH. Qed.

Lemma substring_split (s : string) (k : nat) :
  k <= String.length s ->
  s = String.substring 0 k s +:+ String.substring k (String.length s - k) s.
Proof.
  revert k. induction s as [|c s IH]; intros k Hk; simpl in *.
  - by destruct k.
  - destruct k as [|k]; simpl.
    + by rewrite substring_all.
    + change (String c s = String c (String.substring 0 k s
                 +:+ String.substring k (String.length s - k) s)).
      f_equal. apply IH. lia.
Qed.

Lemma endsWith_app (suf s : string) :
  endsWith suf s = true -> exists pre, s = pre +:+ suf.
Proof.
  unfold endsWith. intros [Hle Heq]%andb_true_iff.
  apply Nat.leb_le in Hle. apply String.eqb_eq in Heq.
  exists (String.substring 0 (String.length s - String.length suf) s).
  pose proof (substring_split s (String.length s - String.length suf)
                ltac:(lia)) as Hsplit.
  replace (String.length s - (String.length s - String.length suf))
    with (String.length suf) in Hsplit by lia.
  by rewrite Heq in Hsplit.
Qed.

Lemma list_ascii_app (a b : string) :
  list_ascii_of_string (a +:+ b)
  = (list_ascii_of_string a ++ list_ascii_of_string b)%list.
Proof. induction a as [|c a IH]; simpl; [done|]. by rewrite IH. Qed.

(** A string that ends in [suf] ends in the last character of [suf]. *)
Lemma endsWith_last (suf s : string) (c : ascii) :
  last (list_ascii_of_string suf) = Some c ->
  endsWith suf s = true -> last (list_ascii_of_string s) = Some c.
Proof.
  intros Hc [pre ->]%endsWith_app. rewrite list_ascii_app.
  destruct (list_ascii_of_string suf) as [|x l] eqn:Hl; [discriminate|].
  rewrite <- Hc. by rewrite last_app_cons.
Qed.

Lemma html_is_no_script_or_style (path : string) :
  endsWith ".html" path = true ->
  endsWith ".js" path = false /\ endsWith ".css" path = false /\ truthy_str path = true.
Proof.
  intros Hhtml.
  pose proof (endsWith_last ".html" path "l"%char eq_refl Hhtml) as Hlast.
  split; [|split].
  - destruct (endsWith ".js" path) eqn:H; [|done].
    pose proof (endsWith_last ".js" path "s"%char eq_refl H). congruence.
  - destruct (endsWith ".css" path) eqn:H; [|done].
    pose proof (endsWith_last ".css" path "s"%char eq_refl H). congruence.
  - destruct path; [discriminate Hlast|done].
Qed.

End SuffixFacts.

(** X17.  What the preview route answers: 404 exactly when the run is not
    stored, 503 with the current status exactly when it is stored and not
    [ready], 500 exactly when it is ready and names a worker the manager
    holds that is not [running], and 200 in every other case.  Only a 200
    answer carries the security headers. *)
Theorem preview_answers
    (runs : RunStore.Store) (wm : WorkerManager.State) (runId requestPath : string) :
  let r := Preview.handler runs wm runId requestPath in
  (Preview.code r = 404 <-> RunStore.get runId runs = None) /\
  (Preview.code r = 503 <->
   exists run, RunStore.get runId runs = Some run /\ RunStore.status run <> "ready") /\
  (Preview.code r = 500 <->
   exists run wid w,
     RunStore.get runId runs = Some run /\ RunStore.status run = "ready" /\
     RunStore.workerId run = Some wid /\ wid <> "" /\
     WorkerManager.get wid wm = Some w /\ WorkerManager.status w <> "running") /\
  (Preview.code r = 200 \/ Preview.code r = 404 \/ Preview.code r = 500
   \/ Preview.code r = 503) /\
  (Preview.code r <> 200 -> Preview.headers r = []) /\
  (forall run, RunStore.get runId runs = Some run -> Preview.code r = 503 ->
     Preview.body r = WorkerManager.NotReadyPage (RunStore.status run)).
Proof.
  intros r. subst r. unfold Preview.handler.
  destruct (RunStore.get runId runs) as [run|] eqn:Hget; simpl.
  2: { repeat split; try done; try (by intros (? & ? & _)); try (by intros (? & ? & ? & ? & _));
       auto. }
  destruct (String.eqb_spec (RunStore.status run) "ready") as [Hready|Hnot]; simpl.
  2: { repeat split; try done; try discriminate; auto.
       - intros _. eauto.
       - intros (run' & wid & w & [= <-] & Hst & _). done.
       - by intros run' [= <-]. }
  assert (Hcontent :
    (exists e, Preview.contentFor run wm requestPath = Throw e) <->
    exists wid w, RunStore.workerId run = Some wid /\ wid <> "" /\
      WorkerManager.get wid wm = Some w /\ WorkerManager.status w <> "running").
  { unfold Preview.contentFor, truthy_str.
    destruct (RunStore.workerId run) as [wid|]; [|split; [by intros [? ?]|by intros (? & ? & ? & _)]].
    destruct (String.eqb_spec wid "") as [->|Hwid]; simpl.
    { split; [by intros [? ?]|]. by intros (? & ? & [= <-] & ? & _). }
    destruct (WorkerManager.get wid wm) as [w|] eqn:Hw.
    - unfold WorkerManager.getContent.
      destruct (String.eqb_spec (WorkerManager.status w) "running") as [Hrun|Hrun]; simpl.
      + split; [by intros [? ?]|]. intros (? & ? & [= <-] & _ & Hw' & Hne).
        rewrite Hw in Hw'. by injection Hw' as <-.
      + split; [|eauto]. intros _. exists wid, w. done.
    - split; [by intros [? ?]|]. intros (? & ? & [= <-] & _ & Hw' & _). congruence. }
  destruct (Preview.contentFor run wm requestPath) as [content|e] eqn:Hc; simpl.
  - repeat split; try done; try discriminate; auto.
    + intros (run' & [= <-] & Hne). done.
    + intros (run' & wid & w & [= <-] & _ & Hrest).
      destruct (proj2 Hcontent) as [e He]; [eauto|discriminate He].
  - repeat split; try done; try discriminate; auto.
    + intros (run' & [= <-] & Hne). done.
    + intros _. destruct (proj1 Hcontent) as (wid & w & Hrest); [eauto|].
      exists run, wid, w. done.
Qed.

(** X18.  [Worker.getContent] throws [Worker not running] for a worker
    in any status but [running]; for a running worker it returns the
    simulated content, which has for every path the kind the synthesized
    fallback content of the preview route has for that path: the page for
    the empty path and [index.html], a script for [.js], a style sheet for
    [.css], plain text otherwise. *)
Theorem worker_content_kinds
    (w : WorkerManager.Worker) (requestPath : string) (run : RunStore.Run) :
  (WorkerManager.status w <> "running" ->
   WorkerManager.getContent w requestPath = Throw (mkError "Worker not running")) /\
  (WorkerManager.status w = "running" ->
   WorkerManager.getContent w requestPath
   = Ok (WorkerManager.generateSimulatedContent w requestPath) /\
   WorkerManager.kindOf (WorkerManager.generateSimulatedContent w requestPath)
   = WorkerManager.kindOf (Preview.generateFallbackContent requestPath run) /\
   WorkerManager.kindOf (WorkerManager.generateSimulatedContent w requestPath)
   = (if String.eqb requestPath "" || String.eqb requestPath "index.html"
      then WorkerManager.Html
      else if endsWith ".js" requestPath then WorkerManager.JavaScript
      else if endsWith ".css" requestPath then WorkerManager.Stylesheet
      else WorkerManager.PlainText)).
Proof.
  unfold WorkerManager.getContent. split.
  - intros Hne. by destruct (String.eqb_spec (WorkerManager.status w) "running").
  - intros ->. simpl. split; [done|].
    unfold WorkerManager.generateSimulatedContent, Preview.generateFallbackContent,
      truthy_str.
    destruct (String.eqb_spec requestPath "") as [->|Hne]; [done|]. simpl.
    destruct (String.eqb requestPath "index.html"); [done|].
    destruct (endsWith ".js" requestPath); [done|].
    by destruct (endsWith ".css" requestPath).
Qed.

Lemma worker_content_kinds_witness :
  WorkerManager.getContent stuckWorker "main.css" = Throw (mkError "Worker not running") /\
  WorkerManager.getContent servingWorker "main.css"
  = Ok (WorkerManager.WorkerStyle "main.css").
Proof.
  split.
  - apply (proj1 (worker_content_kinds stuckWorker "main.css" sampleRun)). discriminate.
  - apply (proj1 (proj2 (worker_content_kinds servingWorker "main.css" sampleRun)
                    eq_refl)).
Defined.

(** X19.  The content type follows the path alone, the body does not: for
    a path that ends in [.html] and is not [index.html], the answer for a
    ready run without a worker is labelled [text/html] although its body
    is the plain-text placeholder. *)
Theorem html_path_plain_body (requestPath : string) (run : RunStore.Run) :
  endsWith ".html" requestPath = true -> requestPath <> "index.html" ->
  Preview.getContentType requestPath = "text/html" /\
  Preview.generateFallbackContent requestPath run
  = WorkerManager.Text
      ("Simulated content for " +:+ requestPath +:+ " in run " +:+ RunStore.id run) /\
  WorkerManager.kindOf (Preview.generateFallbackContent requestPath run)
  = WorkerManager.PlainText.
Proof.
  intros Hhtml Hindex.
  destruct (html_is_no_script_or_style requestPath Hhtml) as (Hjs & Hcss & Htruthy).
  assert (Hbody : Preview.generateFallbackContent requestPath run
                  = WorkerManager.Text ("Simulated content for " +:+ requestPath
                                        +:+ " in run " +:+ RunStore.id run)).
  { unfold Preview.generateFallbackContent. rewrite Htruthy, Hjs, Hcss. simpl.
    destruct (String.eqb_spec requestPath "") as [->|_]; [discriminate Htruthy|].
    by destruct (String.eqb_spec requestPath "index.html"). }
  split; [|split; [exact Hbody|by rewrite Hbody]].
  unfold Preview.getContentType. rewrite Hhtml, Htruthy. simpl.
  by rewrite orb_true_r.
Qed.

Lemma html_path_plain_body_witness :
  Preview.getContentType "docs/about.html" = "text/html" /\
  WorkerManager.kindOf (Preview.generateFallbackContent "docs/about.html" sampleRun)
  = WorkerManager.PlainText.
Proof.
  destruct (html_path_plain_body "docs/about.html" sampleRun) as (Hty & _ & Hkind);
    [reflexivity|discriminate|].
  split; [exact Hty|exact Hkind].
Defined.

(** ** The life of a run *)

Section RunEvents.

Import RunStore Runs Invariants Events.

Lemma sameUpload_refl (r : Run) : sameUpload r r.
Proof. by repeat split. Qed.

Lemma sameUpload_trans (a b c : Run) : sameUpload a b -> sameUpload b c -> sameUpload a c.
Proof.
  intros (? & ? & ? & ? & ?) (? & ? & ? & ? & ?). repeat split; congruence.
Qed.

Lemma sameUpload_merge (r : Run) (u : Updates) (now : string) :
  keepsUpload u -> sameUpload r (merge r u now).
Proof.
  intros (Hi & Hc & Hf & Ho & Hs). unfold sameUpload. simpl.
  by rewrite Hi, Hc, Hf, Ho, Hs.
Qed.

Lemma sameUpload_mergeAll (r : Run) (us : list Updates) (now : string) :
  Forall keepsUpload us -> sameUpload r (mergeAll r us now).
Proof.
  intros Hus. revert r. induction Hus as [|u us Hu _ IH]; intros r;
    [apply sameUpload_refl|].
  apply (sameUpload_trans _ (merge r u now)); [by apply sameUpload_merge|apply IH].
Qed.

Lemma updatedAt_mergeAll (r : Run) (us : list Updates) (now : string) :
  is_Some (updatedAt r) -> is_Some (updatedAt (mergeAll r us now)).
Proof.
  revert r. induction us as [|u us IH]; intros r Hr; [done|].
  apply IH. by eexists.
Qed.

Lemma updated_nil (i : string) (now : string) (runs : Store) : updated i [] now runs runs.
Proof. split; [constructor|]. intros j. case_decide; [|done]. by destruct (runs !! j). Qed.

Lemma updated_app (i : string) (us us' : list Updates) (now : string)
    (r0 r1 r2 : Store) :
  updated i us now r0 r1 -> updated i us' now r1 r2 -> updated i (us ++ us') now r0 r2.
Proof.
  intros [K1 H1] [K2 H2]. split; [by apply Forall_app|].
  intros j. rewrite (H2 j), (H1 j). case_decide; [|done].
  destruct (r0 !! j); [|done]. simpl. unfold mergeAll. by rewrite fold_left_app.
Qed.

Lemma updated_updateRun (i : string) (u : Updates) (now : Clock) (sys : Sys) :
  keepsUpload u ->
  updated i [u] (iso now) (runStore sys) (runStore (updateRun i u now sys)).
Proof.
  intros Hu. split; [by apply Forall_singleton|]. intros j. by rewrite runStore_updateRun.
Qed.

Lemma updated_failRun (run : Run) (e : Error) (now : Clock) (sys : Sys) :
  exists us, updated (id run) us (iso now) (runStore sys) (runStore (failRun run e now sys)).
Proof.
  eexists [_; _]. split; [|intros j; by rewrite runStore_failRun].
  apply Forall_cons. split; [done|]. by apply Forall_singleton.
Qed.

Lemma updated_continueWait (run : Run) (a : nat) (w : WorkerManager.Worker)
    (startedMs : Z) (now : Clock) (sys : Sys) :
  exists us,
    updated (id run) us (iso now) (runStore sys)
      (runStore (continueWait run a w startedMs now sys)).
Proof.
  unfold continueWait.
  destruct (WorkerManager.checkReady w startedMs (ms now) readyTimeout).
  - eexists [_]. by apply updated_updateRun.
  - apply updated_failRun.
  - apply updated_failRun.
  - exists []. apply updated_nil.
Qed.

Lemma tasks_continueWait (run : Run) (a : nat) (w : WorkerManager.Worker)
    (startedMs : Z) (now : Clock) (sys : Sys) :
  exists t, tasks (continueWait run a w startedMs now sys) = <[id run := t]> (tasks sys).
Proof.
  unfold continueWait.
  destruct (WorkerManager.checkReady w startedMs (ms now) readyTimeout); by eexists.
Qed.

(** What one event does to the stored runs. *)
Lemma step_store (sys : Sys) (ev : Event) :
  match ev with
  | Post k path originalname size now =>
      runStore (step sys ev) =
      match tasks sys !! k with
      | Some _ => runStore sys
      | None => <[k := uploaded k path originalname size now]> (runStore sys)
      end
  | Delete k _ => runStore (step sys ev) = base.delete k (runStore sys)
  | _ =>
      exists i us now,
        updated i us now (runStore sys) (runStore (step sys ev)) /\
        (consistent sys -> i = eventRun ev)
  end.
Proof.
  destruct ev as [k path name size now|k env now|k fails now|k now|k now|k env]; simpl.
  - unfold post. destruct (tasks sys !! k); [done|].
    cbn [runStore setTask]. unfold updateRun, update, create. simpl.
    rewrite lookup_insert_eq. simpl. by rewrite insert_insert_eq.
  - unfold extractDone.
    destruct (tasks sys !! k) as [[run| | | |]|] eqn:Ht;
      try (exists k, [], ""; split; [apply updated_nil|done]).
    assert (Hid : consistent sys -> id run = k)
      by (intros [Hid _]; by apply (Hid _ _ _ Ht)).
    destruct (ZipProcessor.extract env _ (id run) (zipProcessor sys)) as [[info|e] zp].
    + destruct (WorkerManager.startBegin _ _ _) as [a wm].
      eexists (id run), [_], (iso now). split; [|done].
      cbn [runStore setTask setWorkers].
      by apply (updated_updateRun (id run) _ now (setZip zp sys)).
    + destruct (updated_failRun run e now (setZip zp sys)) as [us Hus].
      by exists (id run), us, (iso now).
  - unfold buildDone.
    destruct (tasks sys !! k) as [[|run a| | |]|] eqn:Ht;
      try (exists k, [], ""; split; [apply updated_nil|done]).
    assert (Hid : consistent sys -> id run = k)
      by (intros [Hid _]; by apply (Hid _ _ _ Ht)).
    destruct (WorkerManager.buildDone a fails (workerManager sys)) as [[[]|e] wm].
    + exists k, [], "". split; [apply updated_nil|done].
    + destruct (updated_failRun run e now (setWorkers wm sys)) as [us Hus].
      by exists (id run), us, (iso now).
  - unfold startupDone.
    destruct (tasks sys !! k) as [[| |run a| |]|] eqn:Ht;
      try (exists k, [], ""; split; [apply updated_nil|done]).
    assert (Hid : consistent sys -> id run = k)
      by (intros [Hid _]; by apply (Hid _ _ _ Ht)).
    destruct (WorkerManager.heap _ !! a) as [w|].
    2: { exists k, [], "". split; [apply updated_nil|done]. }
    match goal with
    | |- context [continueWait run a w (ms now) now ?s] =>
        destruct (updated_continueWait run a w (ms now) now s) as [us Hus];
        pose proof (updated_updateRun (id run)
                      (mkUpdates (Some "building") None None
                         (Some (WorkerManager.id w)) (Some (WorkerManager.port w))
                         None None None None) now
                      (setWorkers (WorkerManager.startDone a (workerManager sys)) sys)
                      ltac:(done))
          as Hfirst
    end.
    eexists (id run), _, (iso now). split; [|done].
    exact (updated_app _ _ _ _ _ _ _ Hfirst Hus).
  - unfold pollTick.
    destruct (tasks sys !! k) as [[| | |run a started|]|] eqn:Ht;
      try (exists k, [], ""; split; [apply updated_nil|done]).
    assert (Hid : consistent sys -> id run = k)
      by (intros [Hid _]; by apply (Hid _ _ _ Ht)).
    destruct (WorkerManager.heap _ !! a) as [w|].
    2: { exists k, [], "". split; [apply updated_nil|done]. }
    destruct (updated_continueWait run a w started now sys) as [us Hus].
    by exists (id run), us, (iso now).
  - unfold deleteRun, get.
    destruct (runStore sys !! k) as [run|] eqn:Hr; simpl.
    + by destruct (workerId run) as [wid|]; [destruct (truthy_str wid)|].
    + symmetry. by apply delete_id.
Qed.

(** What one event does to the suspended calls of [processRun]. *)
Lemma step_tasks (sys : Sys) (ev : Event) :
  tasks (step sys ev) = tasks sys \/
  exists i t, tasks (step sys ev) = <[i := t]> (tasks sys) /\
              (consistent sys -> i = eventRun ev).
Proof.
  destruct ev as [k path name size now|k env now|k fails now|k now|k now|k env]; simpl.
  - unfold post. destruct (tasks sys !! k); [by left|]. right. by eexists k, _.
  - unfold extractDone.
    destruct (tasks sys !! k) as [[run| | | |]|] eqn:Ht; try by left.
    assert (Hid : consistent sys -> id run = k)
      by (intros [Hid _]; by apply (Hid _ _ _ Ht)).
    destruct (ZipProcessor.extract env _ (id run) (zipProcessor sys)) as [[info|e] zp].
    + destruct (WorkerManager.startBegin _ _ _) as [a wm]. right. by eexists k, _.
    + right. eexists (id run), _. by rewrite tasks_failRun.
  - unfold buildDone.
    destruct (tasks sys !! k) as [[|run a| | |]|] eqn:Ht; try by left.
    assert (Hid : consistent sys -> id run = k)
      by (intros [Hid _]; by apply (Hid _ _ _ Ht)).
    destruct (WorkerManager.buildDone a fails (workerManager sys)) as [[[]|e] wm].
    + right. by eexists k, _.
    + right. eexists (id run), _. by rewrite tasks_failRun.
  - unfold startupDone.
    destruct (tasks sys !! k) as [[| |run a| |]|] eqn:Ht; try by left.
    assert (Hid : consistent sys -> id run = k)
      by (intros [Hid _]; by apply (Hid _ _ _ Ht)).
    destruct (WorkerManager.heap _ !! a) as [w|]; [|by left].
    match goal with
    | |- context [continueWait run a w (ms now) now ?s] =>
        destruct (tasks_continueWait run a w (ms now) now s) as [t Ht']
    end.
    right. exists (id run), t. by rewrite Ht'.
  - unfold pollTick.
    destruct (tasks sys !! k) as [[| | |run a started|]|] eqn:Ht; try by left.
    assert (Hid : consistent sys -> id run = k)
      by (intros [Hid _]; by apply (Hid _ _ _ Ht)).
    destruct (WorkerManager.heap _ !! a) as [w|]; [|by left].
    destruct (tasks_continueWait run a w started now sys) as [t Ht'].
    right. exists (id run), t. by rewrite Ht'.
  - left. unfold deleteRun.
    destruct (get k (runStore sys)) as [run|]; [|done]. simpl.
    by destruct (workerId run) as [wid|]; [destruct (truthy_str wid)|].
Qed.

Lemma tasks_kept (sys : Sys) (ev : Event) (k : string) :
  is_Some (tasks sys !! k) -> is_Some (tasks (step sys ev) !! k).
Proof.
  intros Hk. destruct (step_tasks sys ev) as [->|(i & t & -> & _)]; [done|].
  destruct (decide (i = k)) as [->|Hne].
  - rewrite lookup_insert_eq. by eexists.
  - by rewrite lookup_insert_ne.
Qed.

(** Events of other runs leave a run and its call of [processRun] alone. *)
Lemma step_frame (sys : Sys) (ev : Event) (k : string) :
  consistent sys -> eventRun ev <> k ->
  runStore (step sys ev) !! k = runStore sys !! k /\
  tasks (step sys ev) !! k = tasks sys !! k.
Proof.
  intros Hc Hne. split.
  - pose proof (step_store sys ev) as Hst.
    destruct ev as [j ? ? ? ?|j ? ?|j ? ?|j ?|j ?|j ?];
      try (destruct Hst as (i & us & now' & [_ Hup] & Hi); specialize (Hi Hc);
           subst i; rewrite (Hup k); by rewrite decide_False by done).
    + rewrite Hst. destruct (tasks sys !! j); [done|].
      by rewrite lookup_insert_ne by done.
    + rewrite Hst. by rewrite lookup_delete_ne by done.
  - destruct (step_tasks sys ev) as [->|(i & t & -> & Hi)]; [done|].
    specialize (Hi Hc). subst i. by rewrite lookup_insert_ne.
Qed.

(** Once its [processRun] has finished, only a [DELETE] changes a run. *)
Lemma step_finished (sys : Sys) (ev : Event) (f : option Error) :
  tasks sys !! eventRun ev = Some (Finished f) ->
  deletes (eventRun ev) ev = false ->
  step sys ev = sys.
Proof.
  destruct ev as [k ? ? ? ?|k ? ?|k ? ?|k ?|k ?|k ?]; simpl; intros Ht Hd.
  - unfold post. by rewrite Ht.
  - unfold extractDone. by rewrite Ht.
  - unfold buildDone. by rewrite Ht.
  - unfold startupDone. by rewrite Ht.
  - unfold pollTick. by rewrite Ht.
  - by rewrite String.eqb_refl in Hd.
Qed.

Lemma finished_kept (sys : Sys) (evs : list Event) (k : string) (f : option Error) :
  reachable sys ->
  tasks sys !! k = Some (Finished f) ->
  Forall (fun ev => deletes k ev = false) evs ->
  runStore (run_events sys evs) !! k = runStore sys !! k /\
  tasks (run_events sys evs) !! k = Some (Finished f).
Proof.
  revert sys. induction evs as [|ev evs IH]; intros sys Hreach Ht Hevs; [done|].
  apply Forall_cons in Hevs as [Hev Hevs]. simpl.
  assert (Hstep : runStore (step sys ev) !! k = runStore sys !! k /\
                  tasks (step sys ev) !! k = Some (Finished f)).
  { destruct (decide (eventRun ev = k)) as [Heq|Hne].
    - subst k. by rewrite (step_finished sys ev f).
    - destruct (step_frame sys ev k) as [Hr Htk];
        [by apply consistent_reachable|done|]. by rewrite Hr, Htk. }
  destruct Hstep as [Hr Htk].
  destruct (IH (step sys ev)) as [Hr' Htk']; [by constructor|done|done|].
  by rewrite Hr', Hr.
Qed.

Lemma absent_kept (sys : Sys) (ev : Event) (k : string) :
  is_Some (tasks sys !! k) -> runStore sys !! k = None ->
  runStore (step sys ev) !! k = None.
Proof.
  intros [t Ht] Hr. pose proof (step_store sys ev) as Hst.
  destruct ev as [j ? ? ? ?|j ? ?|j ? ?|j ?|j ?|j ?];
    try (destruct Hst as (i & us & now' & [_ Hup] & _); rewrite (Hup k), Hr;
         by case_decide).
  - rewrite Hst. destruct (tasks sys !! j) eqn:Hj; [done|].
    rewrite lookup_insert_ne; [done|]. intros ->. congruence.
  - rewrite Hst. by apply lookup_delete_None; right.
Qed.

Lemma deleted_kept (sys : Sys) (evs : list Event) (k : string) :
  is_Some (tasks sys !! k) -> runStore sys !! k = None ->
  runStore (run_events sys evs) !! k = None.
Proof.
  revert sys. induction evs as [|ev evs IH]; intros sys Ht Hr; [done|].
  simpl. apply IH; [by apply tasks_kept|by apply absent_kept].
Qed.

Lemma shaped_mergeAll (k : string) (r : Run) (us : list Updates) (now : string) :
  Forall keepsUpload us -> shaped k r -> shaped k (mergeAll r us now).
Proof.
  intros Hus. destruct (sameUpload_mergeAll r us now Hus) as (Hi & _ & Hf & Ho & Hs).
  intros (? & ? & ? & ? & ?). unfold shaped.
  rewrite <- Hi, <- Hf, <- Ho, <- Hs. repeat split; try done.
  by apply updatedAt_mergeAll.
Qed.

Lemma shaped_step (sys : Sys) (ev : Event) :
  (forall k run, runStore sys !! k = Some run -> shaped k run) ->
  forall k run, runStore (step sys ev) !! k = Some run -> shaped k run.
Proof.
  intros Hsh k run. pose proof (step_store sys ev) as Hst.
  destruct ev as [j ? ? ? ?|j ? ?|j ? ?|j ?|j ?|j ?];
    try (destruct Hst as (i & us & now' & [Hkeep Hup] & _); rewrite (Hup k);
         case_decide; [|by apply Hsh];
         destruct (runStore sys !! k) as [r|] eqn:Hr; [|discriminate];
         intros [= <-]; apply shaped_mergeAll; [done|by apply Hsh]).
  - rewrite Hst. destruct (tasks sys !! j); [by apply Hsh|].
    destruct (decide (j = k)) as [->|Hne].
    + rewrite lookup_insert_eq. intros [= <-]. by repeat split; try eexists.
    + rewrite lookup_insert_ne by done. by apply Hsh.
  - rewrite Hst. intros [_ Hr]%lookup_delete_Some. by apply Hsh.
Qed.

Lemma shaped_reachable (sys : Sys) (k : string) (run : Run) :
  reachable sys -> runStore sys !! k = Some run -> shaped k run.
Proof.
  intros Hreach. revert k run.
  induction Hreach as [fs|sys ev _ IH]; [|by apply shaped_step].
  intros k run. simpl. by rewrite lookup_empty.
Qed.

Lemma same_step (sys : Sys) (ev : Event) (k : string) (run run' : Run) :
  consistent sys ->
  runStore sys !! k = Some run -> runStore (step sys ev) !! k = Some run' ->
  sameUpload run run'.
Proof.
  intros Hc Hr. pose proof (step_store sys ev) as Hst.
  destruct ev as [j ? ? ? ?|j ? ?|j ? ?|j ?|j ?|j ?];
    try (destruct Hst as (i & us & now' & [Hkeep Hup] & _); rewrite (Hup k), Hr;
         case_decide; intros [= <-];
         [by apply sameUpload_mergeAll|apply sameUpload_refl]).
  - rewrite Hst. destruct (tasks sys !! j) eqn:Hj.
    + rewrite Hr. intros [= <-]. apply sameUpload_refl.
    + destruct (decide (j = k)) as [->|Hne].
      * destruct Hc as [_ Hag]. destruct (Hag _ _ Hr) as (t & Ht & _). congruence.
      * rewrite lookup_insert_ne by done. rewrite Hr. intros [= <-].
        apply sameUpload_refl.
  - rewrite Hst. intros [_ Hr']%lookup_delete_Some.
    rewrite Hr in Hr'. injection Hr' as <-. apply sameUpload_refl.
Qed.

End RunEvents.

(** X20.  An event of one run leaves every other run alone: the stored
    record of another run and the point its [processRun] has reached are
    the same before and after. *)
Theorem other_runs_untouched (sys : Runs.Sys) (ev : Runs.Event) (k : string) :
  Runs.reachable sys -> Events.eventRun ev <> k ->
  Runs.runStore (Runs.step sys ev) !! k = Runs.runStore sys !! k /\
  Runs.tasks (Runs.step sys ev) !! k = Runs.tasks sys !! k.
Proof.
  intros Hreach Hne. apply step_frame; [by apply consistent_reachable|done].
Qed.

Lemma other_runs_untouched_witness :
  Runs.runStore (Runs.step (Runs.run_events (Runs.init ∅) readyTrace) secondUpload) !! "r1"
  = Runs.runStore (Runs.run_events (Runs.init ∅) readyTrace) !! "r1" /\
  Runs.tasks (Runs.step (Runs.run_events (Runs.init ∅) readyTrace) secondUpload) !! "r1"
  = Runs.tasks (Runs.run_events (Runs.init ∅) readyTrace) !! "r1".
Proof.
  apply (other_runs_untouched (Runs.run_events (Runs.init ∅) readyTrace) secondUpload "r1").
  - apply reachable_run_events. constructor.
  - discriminate.
Defined.

(** X21.  A run whose [processRun] has finished is final: whatever events
    follow, as long as none is a [DELETE] of that run, its stored record
    stays exactly as it is, [ready] after a success and [failed] after a
    failure. *)
Theorem finished_runs_final
    (sys : Runs.Sys) (evs : list Runs.Event) (k : string) (f : option Error) :
  Runs.reachable sys ->
  Runs.tasks sys !! k = Some (Runs.Finished f) ->
  Forall (fun ev => Events.deletes k ev = false) evs ->
  Runs.runStore (Runs.run_events sys evs) !! k = Runs.runStore sys !! k /\
  Runs.tasks (Runs.run_events sys evs) !! k = Some (Runs.Finished f) /\
  forall run, Runs.runStore (Runs.run_events sys evs) !! k = Some run ->
    RunStore.status run = match f with Some _ => "failed" | None => "ready" end.
Proof.
  intros Hreach Ht Hevs.
  destruct (finished_kept sys evs k f Hreach Ht Hevs) as [Hr Htk].
  split; [done|]. split; [done|]. intros run. rewrite Hr. intros Hrun.
  destruct (consistent_reachable sys Hreach) as [_ Hag].
  destruct (Hag _ _ Hrun) as (t & Ht' & Hagr).
  rewrite Ht in Ht'. injection Ht' as <-. destruct f; simpl in Hagr; tauto.
Qed.

Lemma finished_runs_final_witness :
  Runs.runStore
    (Runs.run_events (Runs.run_events (Runs.init ∅) readyTrace) lateEvents) !! "r1"
  = Runs.runStore (Runs.run_events (Runs.init ∅) readyTrace) !! "r1".
Proof.
  apply (finished_runs_final (Runs.run_events (Runs.init ∅) readyTrace) lateEvents
           "r1" None).
  - apply reachable_run_events. constructor.
  - vm_compute. reflexivity.
  - repeat constructor.
Defined.

(** X22.  A deleted run does not come back: after a [DELETE] of a stored
    run, no later event, of its own [processRun] still under way or of any
    other run, stores a record under its id again. *)
Theorem deleted_runs_stay_deleted
    (sys : Runs.Sys) (k : string) (run : RunStore.Run) (env : ZipProcessor.Env)
    (evs : list Runs.Event) :
  Runs.reachable sys ->
  Runs.runStore sys !! k = Some run ->
  Runs.runStore (Runs.run_events sys (Runs.Delete k env :: evs)) !! k = None.
Proof.
  intros Hreach Hrun. simpl.
  destruct (consistent_reachable sys Hreach) as [_ Hag].
  destruct (Hag _ _ Hrun) as (t & Ht & _).
  apply deleted_kept.
  - apply (tasks_kept sys (Runs.Delete k env)). by eexists.
  - pose proof (step_store sys (Runs.Delete k env)) as Hst. simpl in Hst.
    simpl. rewrite Hst. apply lookup_delete_eq.
Qed.

Lemma deleted_runs_stay_deleted_witness :
  Runs.runStore (Runs.run_events (Runs.init ∅) deletedWhileBuilding) !! "r1" = None.
Proof.
  apply (deleted_runs_stay_deleted
           (Runs.run_events (Runs.init ∅)
              [Runs.Post "r1" "temp/upload-react" "site.zip" 2048 (at_ 0);
               Runs.ExtractDone "r1" sampleEnv (at_ 1)])
           "r1"
           (default sampleRun
              (Runs.runStore
                 (Runs.run_events (Runs.init ∅)
                    [Runs.Post "r1" "temp/upload-react" "site.zip" 2048 (at_ 0);
                     Runs.ExtractDone "r1" sampleEnv (at_ 1)]) !! "r1"))
           sampleEnv
           [Runs.BuildDone "r1" false (at_ 4); Runs.StartupDone "r1" (at_ 5)]).
  - apply reachable_run_events. constructor.
  - vm_compute. reflexivity.
Defined.

(** X23.  In every state the server can reach, a stored run is stored
    under its own [id], carries the path, name and size of its upload and
    an [updatedAt], and its status is one of [extracting], [building],
    [ready] and [failed]: the status [queued] the run is created with is
    never the status of a stored run between two events. *)
Theorem stored_run_shape (sys : Runs.Sys) (k : string) (run : RunStore.Run) :
  Runs.reachable sys ->
  Runs.runStore sys !! k = Some run ->
  RunStore.id run = k /\
  is_Some (RunStore.filePath run) /\ is_Some (RunStore.originalName run) /\
  is_Some (RunStore.fileSize run) /\ is_Some (RunStore.updatedAt run) /\
  (RunStore.status run = "extracting" \/ RunStore.status run = "building" \/
   RunStore.status run = "ready" \/ RunStore.status run = "failed").
Proof.
  intros Hreach Hrun.
  destruct (shaped_reachable sys k run Hreach Hrun) as (? & ? & ? & ? & ?).
  repeat (split; [done|]).
  destruct (consistent_reachable sys Hreach) as [_ Hag].
  destruct (Hag _ _ Hrun) as (t & _ & Hagr).
  destruct t as [| | | |[e|]]; simpl in Hagr;
    try (destruct Hagr as ([Hs|Hs] & _); auto); destruct Hagr as (Hs & _); auto.
Qed.

Lemma stored_run_shape_witness :
  exists run,
    Runs.runStore (Runs.run_events (Runs.init ∅) evilUpload) !! "r3" = Some run /\
    RunStore.id run = "r3" /\ RunStore.status run = "extracting".
Proof.
  eexists. split; [vm_compute; reflexivity|].
  split; [|reflexivity].
  refine (proj1 (stored_run_shape (Runs.run_events (Runs.init ∅) evilUpload) "r3" _ _ _)).
  - apply reachable_run_events. constructor.
  - vm_compute. reflexivity.
Defined.

(** X24.  What the upload fixed in a run never changes: as long as the run
    is stored, its [id], [createdAt], [filePath], [originalName] and
    [fileSize] are those it had before, whatever events happen in
    between. *)
Theorem upload_data_fixed
    (sys : Runs.Sys) (evs : list Runs.Event) (k : string) (run run' : RunStore.Run) :
  Runs.reachable sys ->
  Runs.runStore sys !! k = Some run ->
  Runs.runStore (Runs.run_events sys evs) !! k = Some run' ->
  RunStore.id run' = RunStore.id run /\
  RunStore.createdAt run' = RunStore.createdAt run /\
  RunStore.filePath run' = RunStore.filePath run /\
  RunStore.originalName run' = RunStore.originalName run /\
  RunStore.fileSize run' = RunStore.fileSize run.
Proof.
  intros Hreach Hrun Hrun'.
  enough (Hsame : Events.sameUpload run run')
    by (destruct Hsame as (? & ? & ? & ? & ?); by repeat split).
  revert sys run Hreach Hrun Hrun'.
  induction evs as [|ev evs IH]; intros sys run Hreach Hrun Hrun'.
  - simpl in Hrun'. rewrite Hrun in Hrun'. injection Hrun' as <-.
    apply sameUpload_refl.
  - simpl in Hrun'.
    pose proof (consistent_reachable sys Hreach) as Hc.
    destruct (Runs.runStore (Runs.step sys ev) !! k) as [r1|] eqn:Hr1.
    + apply (sameUpload_trans _ r1).
      * by apply (same_step sys ev k).
      * apply (IH (Runs.step sys ev)); [by constructor|done|done].
    + destruct Hc as [_ Hag]. destruct (Hag _ _ Hrun) as (t & Ht & _).
      rewrite (deleted_kept (Runs.step sys ev) evs k) in Hrun'; [done| |done].
      apply tasks_kept. by eexists.
Qed.

Lemma upload_data_fixed_witness :
  exists run',
    Runs.runStore (Runs.run_events (Runs.init ∅) readyTrace) !! "r1" = Some run' /\
    RunStore.filePath run' = Some "temp/upload-react" /\
    RunStore.createdAt run' = "2024-01-01T00:00:00.000Z".
Proof.
  eexists. split; [apply ready_run_record|].
  destruct (upload_data_fixed
              (Runs.run_events (Runs.init ∅)
                 [Runs.Post "r1" "temp/upload-react" "site.zip" 2048 (at_ 0)])
              [Runs.ExtractDone "r1" sampleEnv (at_ 1);
               Runs.BuildDone "r1" false (at_ 4);
               Runs.StartupDone "r1" (at_ 5)]
              "r1"
              (Events.uploaded "r1" "temp/upload-react" "site.zip" 2048 (at_ 0))
              _
              (reachable_run_events _ _ (Runs.reach_init ∅))
              ltac:(vm_compute; reflexivity)
              ready_run_record)
    as (_ & Hc & Hf & _).
  split; [exact Hf|exact Hc].
Defined.

(** X25.  When [extract] throws for a stored run, [processRun] records the
    failure and nothing else happens: the run becomes [failed] with the
    message of the error and the time of the failure, it has no preview
    URL and names no worker, the worker manager is as before (no worker is
    constructed) and the call of [processRun] has finished with that
    error. *)
Theorem failed_extraction_fails_run
    (sys : Runs.Sys) (k : string) (run r : RunStore.Run) (env : ZipProcessor.Env)
    (now : Runs.Clock) (e : Error) (zp : ZipProcessor.State) :
  Runs.reachable sys ->
  Runs.tasks sys !! k = Some (Runs.AwaitExtract run) ->
  Runs.runStore sys !! k = Some r ->
  ZipProcessor.extract env (default "" (RunStore.filePath run)) k (Runs.zipProcessor sys)
  = (Throw e, zp) ->
  let sys' := Runs.step sys (Runs.ExtractDone k env now) in
  Runs.workerManager sys' = Runs.workerManager sys /\
  Runs.zipProcessor sys' = zp /\
  Runs.tasks sys' !! k = Some (Runs.Finished (Some e)) /\
  exists r',
    Runs.runStore sys' !! k = Some r' /\
    RunStore.status r' = "failed" /\
    RunStore.error r' = Some (message e) /\
    RunStore.failedAt r' = Some (Runs.iso now) /\
    RunStore.updatedAt r' = Some (Runs.iso now) /\
    RunStore.previewUrl r' = None /\
    RunStore.workerId r' = None /\
    RunStore.projectInfo r' = RunStore.projectInfo r.
Proof.
  intros Hreach Ht Hr Hex sys'. subst sys'.
  pose proof (consistent_reachable sys Hreach) as Hc.
  assert (Hid : RunStore.id run = k) by (destruct Hc as [Hid _]; by apply (Hid _ _ _ Ht)).
  assert (Hpend : Invariants.pending r)
    by (apply (stored_pending sys k (Runs.AwaitExtract run)); try done; by eexists).
  assert (Hwid : RunStore.workerId r = None)
    by (by apply (unrecorded_reachable sys Hreach k (Runs.AwaitExtract run))).
  simpl. unfold Runs.extractDone. rewrite Ht, Hid, Hex.
  split; [done|]. split; [done|].
  split. { rewrite tasks_failRun, Hid. apply lookup_insert_eq. }
  rewrite runStore_failRun, Hid, decide_True by done. cbn [Runs.runStore Runs.setZip].
  rewrite Hr. eexists. split; [reflexivity|]. simpl.
  destruct Hpend as (_ & Hp & _). rewrite Hp, Hwid. by repeat split.
Qed.

Lemma failed_extraction_fails_run_witness :
  exists r',
    Runs.runStore
      (Runs.step (Runs.run_events (Runs.init ∅) evilUpload)
         (Runs.ExtractDone "r3" evilEnv (at_ 1))) !! "r3" = Some r' /\
    RunStore.status r' = "failed" /\
    RunStore.error r' = Some "Unsafe file path in ZIP: assets/../../evil".
Proof.
  destruct (failed_extraction_fails_run
              (Runs.run_events (Runs.init ∅) evilUpload) "r3"
              (RunStore.mkRun "r3" "queued" (Runs.iso (at_ 0)) (Some "temp/upload-evil")
                 (Some "evil.zip") (Some 64%Z)
                 None None None None None None None None None)
              (Events.uploaded "r3" "temp/upload-evil" "evil.zip" 64 (at_ 0))
              evilEnv (at_ 1)
              (mkError "Unsafe file path in ZIP: assets/../../evil")
              (ZipProcessor.mkState ∅ ∅ [ZipProcessor.OpRm "temp/extracted-r3"]))
    as (_ & _ & _ & r' & Hr & Hs & He & _).
  - apply reachable_run_events. constructor.
  - vm_compute. reflexivity.
  - vm_compute. reflexivity.
  - vm_compute. reflexivity.
  - exists r'. split; [exact Hr|]. split; [exact Hs|exact He].
Defined.

(** X26.  An upload under a fresh id whose archive is extracted and whose
    build does not fail becomes ready once the start-up timer has fired,
    without a pass of the readiness loop: the stored run is [ready] with
    the preview URL [/preview/<id>], the project type and information
    [extract] returned, and the id and port of its worker; that worker is
    registered under [worker-<id>], is [running], and has the port that
    was next when it was constructed. *)
Theorem upload_becomes_ready
    (sys : Runs.Sys) (k path originalname : string) (size : Z) (env : ZipProcessor.Env)
    (info : ZipProcessor.ProjectInfo) (zp : ZipProcessor.State)
    (t0 t1 t2 t3 : Runs.Clock) :
  Runs.tasks sys !! k = None ->
  ZipProcessor.extract env path k (Runs.zipProcessor sys) = (Ok info, zp) ->
  let sys' :=
    Runs.run_events sys
      [Runs.Post k path originalname size t0; Runs.ExtractDone k env t1;
       Runs.BuildDone k false t2; Runs.StartupDone k t3] in
  Runs.tasks sys' !! k = Some (Runs.Finished None) /\
  exists run w,
    Runs.runStore sys' !! k = Some run /\
    RunStore.status run = "ready" /\
    RunStore.previewUrl run = Some ("/preview/" +:+ k) /\
    RunStore.readyAt run = Some (Runs.iso t3) /\
    RunStore.projectType run = Some (ZipProcessor.type info) /\
    RunStore.projectInfo run = Some info /\
    RunStore.workerId run = Some ("worker-" +:+ k) /\
    RunStore.workerPort run = Some (WorkerManager.nextPort (Runs.workerManager sys)) /\
    RunStore.error run = None /\
    WorkerManager.get ("worker-" +:+ k) (Runs.workerManager sys') = Some w /\
    WorkerManager.status w = "running" /\
    WorkerManager.runId w = k /\
    WorkerManager.port w = WorkerManager.nextPort (Runs.workerManager sys) /\
    WorkerManager.projectType w = ZipProcessor.type info /\
    WorkerManager.projectPath w = ZipProcessor.extractPath info.
Proof.
  intros Ht Hex sys'. subst sys'.
  remember (Runs.run_events sys _) as sysF eqn:HF.
  unfold Runs.run_events in HF. cbn [fold_left Runs.step] in HF.
  unfold Runs.post in HF. rewrite Ht in HF.
  unfold Runs.extractDone in HF.
  cbn [Runs.tasks Runs.setTask Runs.zipProcessor Runs.updateRun Runs.setRuns
       RunStore.id RunStore.filePath default] in HF.
  rewrite lookup_insert_eq in HF.
  cbn [Runs.tasks Runs.setTask Runs.zipProcessor Runs.updateRun Runs.setRuns
       RunStore.id RunStore.filePath default] in HF.
  change (Datatypes.id path) with path in HF. rewrite Hex in HF.
  cbn [WorkerManager.startBegin Runs.workerManager Runs.setTask Runs.setZip
       Runs.updateRun Runs.setRuns Runs.setWorkers] in HF.
  unfold Runs.buildDone in HF.
  cbn [Runs.tasks Runs.setTask] in HF. rewrite lookup_insert_eq in HF.
  cbn [WorkerManager.buildDone] in HF.
  unfold Runs.startupDone in HF.
  cbn [Runs.tasks Runs.setTask] in HF. rewrite lookup_insert_eq in HF.
  cbn [Runs.workerManager Runs.setTask Runs.setWorkers WorkerManager.startDone
       WorkerManager.modify WorkerManager.heap] in HF.
  rewrite list_lookup_alter_eq, lookup_app_r, Nat.sub_diag in HF by done.
  cbn [lookup list_lookup fmap option_fmap option_map] in HF.
  unfold Runs.continueWait in HF.
  unfold WorkerManager.checkReady in HF.
  cbn [WorkerManager.status WorkerManager.setStatus] in HF.
  rewrite String.eqb_refl in HF.
  subst sysF.
  cbn [Runs.tasks Runs.setTask Runs.runStore Runs.updateRun Runs.setRuns Runs.setWorkers
       Runs.setZip Runs.workerManager RunStore.id].
  split; [apply lookup_insert_eq|].
  eexists _, _. split.
  { rewrite !update_lookup, !decide_True by done. cbn [RunStore.create snd RunStore.id].
    rewrite lookup_insert_eq. reflexivity. }
  cbn. repeat (split; [reflexivity|]).
  split.
  - unfold WorkerManager.get, WorkerManager.startDone, WorkerManager.modify.
    cbn [WorkerManager.workers WorkerManager.heap].
    rewrite lookup_insert_eq. cbn [mbind option_bind].
    rewrite list_lookup_alter_eq, lookup_app_r, Nat.sub_diag by done. reflexivity.
  - by repeat split.
Qed.

Lemma upload_becomes_ready_witness :
  let sys' := Runs.run_events (Runs.init ∅) readyTrace in
  Runs.tasks sys' !! "r1" = Some (Runs.Finished None) /\
  exists run w,
    Runs.runStore sys' !! "r1" = Some run /\
    RunStore.status run = "ready" /\
    RunStore.previewUrl run = Some ("/preview/" +:+ "r1") /\
    RunStore.readyAt run = Some (Runs.iso (at_ 5)) /\
    RunStore.projectType run = Some (ZipProcessor.type reactInfo) /\
    RunStore.projectInfo run = Some reactInfo /\
    RunStore.workerId run = Some ("worker-" +:+ "r1") /\
    RunStore.workerPort run
    = Some (WorkerManager.nextPort (Runs.workerManager (Runs.init ∅))) /\
    RunStore.error run = None /\
    WorkerManager.get ("worker-" +:+ "r1") (Runs.workerManager sys') = Some w /\
    WorkerManager.status w = "running" /\
    WorkerManager.runId w = "r1" /\
    WorkerManager.port w = WorkerManager.nextPort (Runs.workerManager (Runs.init ∅)) /\
    WorkerManager.projectType w = ZipProcessor.type reactInfo /\
    WorkerManager.projectPath w = ZipProcessor.extractPath reactInfo.
Proof.
  eapply (upload_becomes_ready (Runs.init ∅) "r1" "temp/upload-react" "site.zip" 2048
            sampleEnv reactInfo _ (at_ 0) (at_ 1) (at_ 4) (at_ 5)).
  - reflexivity.
  - vm_compute. reflexivity.
Defined.

(** ** Upload filter and error handler *)

(** X27.  The upload filter accepts a file exactly when its MIME type is
    [application/zip] or its name ends in [.zip]; the error it gives for
    any other file is answered by the error handler with 400 and [Only ZIP
    files are allowed], in development and outside it, whatever the stack
    of the error. *)
Theorem rejected_upload_answer (file : Upload.UploadedFile) :
  (Upload.fileFilter file = Ok true <->
   Upload.mimetype file = "application/zip"
   \/ endsWith ".zip" (Upload.originalname file) = true) /\
  forall e, Upload.fileFilter file = Throw e ->
    Upload.mimetype file <> "application/zip" /\
    endsWith ".zip" (Upload.originalname file) = false /\
    forall isDevelopment stackTrace,
      ErrorHandler.errorHandler isDevelopment (ErrorHandler.ofError e stackTrace)
      = Ok (ErrorHandler.mkAnswer 400 [("error", "Only ZIP files are allowed")]).
Proof.
  unfold Upload.fileFilter.
  destruct (String.eqb_spec (Upload.mimetype file) "application/zip") as [Hm|Hm];
    destruct (endsWith ".zip" (Upload.originalname file)) eqn:Hn; simpl.
  - split; [split; auto|discriminate].
  - split; [split; auto|discriminate].
  - split; [split; auto|discriminate].
  - split.
    + split; [discriminate|]. by intros [?|?].
    + intros e [= <-]. split; [done|]. split; [done|]. intros dev stackTrace.
      reflexivity.
Qed.

Lemma rejected_upload_answer_witness :
  ErrorHandler.errorHandler false
    (ErrorHandler.ofError (mkError "Only ZIP files are allowed") "at fileFilter")
  = Ok (ErrorHandler.mkAnswer 400 [("error", "Only ZIP files are allowed")]).
Proof.
  apply (proj2 (rejected_upload_answer (Upload.mkUploadedFile "text/plain" "notes.txt"))
           (mkError "Only ZIP files are allowed") eq_refl).
Defined.

(** X28.  Outside development the error handler discloses nothing of the
    error but what its branches test: two errors with the same [code],
    [status] and [headers], whose messages agree on mentioning [Only ZIP
    files], get the same answer, whatever their messages and stacks
    are. *)
Theorem production_answers_hide_the_error (e e' : ErrorHandler.HttpError) :
  ErrorHandler.code e = ErrorHandler.code e' ->
  ErrorHandler.status e = ErrorHandler.status e' ->
  ErrorHandler.headers e = ErrorHandler.headers e' ->
  ErrorHandler.mentionsZipOnly e = ErrorHandler.mentionsZipOnly e' ->
  ErrorHandler.errorHandler false e = ErrorHandler.errorHandler false e'.
Proof.
  intros Hc Hs Hh Hz. unfold ErrorHandler.errorHandler, ErrorHandler.isCode,
    ErrorHandler.statusOr500.
  by rewrite Hc, Hs, Hh, Hz.
Qed.

Lemma production_answers_hide_the_error_witness :
  ErrorHandler.errorHandler false
    (ErrorHandler.mkHttpError None (Some "ENOENT: no such file, open 'temp/upload-1'")
       None (Some "at ZipProcessor.extract (zip-processor.js:14)") None)
  = ErrorHandler.errorHandler false
      (ErrorHandler.mkHttpError None None None None None).
Proof.
  apply production_answers_hide_the_error; reflexivity.
Defined.

(** ** Runs and their workers *)

Section ServingFacts.

Import RunStore Runs Invariants Events Serving.

Lemma worker_names_differ (j k : string) : k <> j -> "worker-" +:+ k <> "worker-" +:+ j.
Proof. intros Hne Heq. apply Hne. by apply (append_injective "worker-"). Qed.

Lemma frame_refl (j : string) (wm : WorkerManager.State) : frame j wm wm.
Proof. split; [done|]. split; [done|]. intros a w Hw. eauto. Qed.

Lemma frame_modify (j : string) (a : nat)
    (f : WorkerManager.Worker -> WorkerManager.Worker) (wm : WorkerManager.State)
    (w0 : WorkerManager.Worker) :
  WorkerManager.heap wm !! a = Some w0 -> WorkerManager.runId w0 = j ->
  (forall w, WorkerManager.runId (f w) = WorkerManager.runId w) ->
  frame j wm (WorkerManager.modify a f wm).
Proof.
  intros Hw0 Hj Hf. split; [done|]. split; simpl.
  - intros b w Hw Hne. rewrite list_lookup_alter_ne; [done|].
    intros ->. rewrite Hw0 in Hw. injection Hw as <-. done.
  - intros b w Hw. destruct (lookup_Some_alter f a b _ _ Hw) as (x & Hx & [->| ->]).
    + eauto.
    + eauto.
Qed.

Lemma frame_unregister (j : string) (wm wm' : WorkerManager.State) :
  frame j wm wm' ->
  frame j wm
    (WorkerManager.mkState (WorkerManager.heap wm')
       (base.delete ("worker-" +:+ j) (WorkerManager.workers wm'))
       (WorkerManager.nextPort wm')).
Proof.
  intros (F1 & F2 & F3). split; [|by split].
  intros k Hk. simpl. rewrite lookup_delete_ne by (symmetry; by apply worker_names_differ).
  by apply F1.
Qed.

Lemma frame_startBegin (j : string) (options : WorkerManager.Options) (nowMs : Z)
    (wm : WorkerManager.State) :
  WorkerManager.o_runId options = j ->
  frame j wm (snd (WorkerManager.startBegin options nowMs wm)).
Proof.
  intros <-. split; [|split]; simpl.
  - intros k Hk. rewrite lookup_insert_ne; [done|].
    symmetry. intros H. by apply worker_names_differ in H.
  - intros a w Hw _. by apply lookup_app_l_Some.
  - intros a w Hw. exists w. split; [by apply lookup_app_l_Some|done].
Qed.

Lemma stopWorker_runId (w : WorkerManager.Worker) :
  WorkerManager.runId (WorkerManager.stopWorker w) = WorkerManager.runId w.
Proof.
  unfold WorkerManager.stopWorker.
  by destruct (WorkerManager.healthCheckInterval (WorkerManager.setStatus "stopping" w)).
Qed.

Lemma frame_stop (j : string) (wm : WorkerManager.State) :
  registered wm -> frame j wm (WorkerManager.stop ("worker-" +:+ j) wm).
Proof.
  intros [Htab Hname]. unfold WorkerManager.stop.
  destruct (WorkerManager.workers wm !! ("worker-" +:+ j)) as [a|] eqn:Ha;
    [|apply frame_refl].
  destruct (Htab _ _ Ha) as (w & Hw & Hid).
  apply (frame_unregister j wm (WorkerManager.modify a WorkerManager.stopWorker wm)).
  apply (frame_modify j a _ wm w Hw); [|apply stopWorker_runId].
  apply (append_injective "worker-"). rewrite <- (Hname _ _ Hw). done.
Qed.

Lemma frame_buildDone (j : string) (a : nat) (fails : bool) (wm : WorkerManager.State)
    (w0 : WorkerManager.Worker) :
  WorkerManager.heap wm !! a = Some w0 -> WorkerManager.runId w0 = j ->
  WorkerManager.id w0 = "worker-" +:+ j ->
  frame j wm (snd (WorkerManager.buildDone a fails wm)).
Proof.
  intros Hw0 Hj Hid. unfold WorkerManager.buildDone.
  destruct fails; [|apply frame_refl]. cbn [snd].
  replace (default "" (WorkerManager.id <$> WorkerManager.heap wm !! a))
    with ("worker-" +:+ j) by (by rewrite Hw0).
  apply (frame_unregister j wm
           (WorkerManager.modify a (WorkerManager.setStatus "failed") wm)).
  by apply (frame_modify j a _ wm w0).
Qed.

Lemma served_frame (j k : string) (run : Run) (wm wm' : WorkerManager.State) :
  k <> j -> frame j wm wm' -> served k run wm -> served k run wm'.
Proof.
  intros Hne (F1 & F2 & _) (a & w & Ha & Hw & Hk & Hrest).
  exists a, w. rewrite F1 by done. split; [done|]. split; [|done].
  apply F2; [done|]. by rewrite Hk.
Qed.

(** A step of the run [j] that keeps the frame keeps every other run. *)
Lemma serving_frame (sys sys' : Sys) (j : string) :
  serving sys ->
  (forall k, k <> j -> tasks sys' !! k = tasks sys !! k) ->
  (forall k, k <> j -> runStore sys' !! k = runStore sys !! k) ->
  frame j (workerManager sys) (workerManager sys') ->
  settledWith j sys' ->
  serving sys'.
Proof.
  intros Hs Ht Hr Hf Hj k. destruct (decide (k = j)) as [->|Hne]; [done|].
  destruct (Hs k) as [Htask Hrun]. pose proof Hf as (F1 & F2 & F3). split.
  - intros t. rewrite Ht by done. intros Htk.
    destruct (Htask t Htk) as [Hw Hwork]. split; [done|].
    intros a Ha. destruct (Hwork a Ha) as [(w & Hw0 & Hk) Hreg]. split.
    + destruct (F3 _ _ Hw0) as (w' & Hw' & Hk'). exists w'. split; [done|congruence].
    + rewrite Hr, F1 by done. done.
  - intros run. rewrite Hr by done. intros Hrun'.
    destruct (Hrun run Hrun') as [Hwid Hready]. split; [done|].
    intros Hst. apply (served_frame j k run (workerManager sys)); auto.
Qed.

Lemma serving_init (fs : ZipProcessor.FS) : serving (init fs).
Proof. intros j. split; intros ?; simpl; by rewrite lookup_empty. Qed.

Lemma workerManager_failRun (run : Run) (e : Error) (now : Clock) (sys : Sys) :
  workerManager (failRun run e now sys) = workerManager sys.
Proof. reflexivity. Qed.

Lemma workerManager_continueWait (run : Run) (a : nat) (w : WorkerManager.Worker)
    (startedMs : Z) (now : Clock) (sys : Sys) :
  workerManager (continueWait run a w startedMs now sys) = workerManager sys.
Proof.
  unfold continueWait.
  by destruct (WorkerManager.checkReady w startedMs (ms now) readyTimeout).
Qed.

(** The worker manager of the server is driven by its own operations. *)
Lemma registered_step (sys : Sys) (ev : Event) :
  registered (workerManager sys) -> registered (workerManager (step sys ev)).
Proof.
  intros Hreg.
  destruct ev as [k path name size now|k env now|k fails now|k now|k now|k env]; simpl.
  - unfold post. by destruct (tasks sys !! k).
  - unfold extractDone. destruct (tasks sys !! k) as [[run| | | |]|]; try done.
    destruct (ZipProcessor.extract env _ (id run) (zipProcessor sys)) as [[info|e] zp];
      [|done].
    apply (registered_apply (workerManager sys) (WorkerManager.Start _ (ms now)) Hreg).
  - unfold buildDone. destruct (tasks sys !! k) as [[|run a| | |]|]; try done.
    pose proof (registered_apply _ (WorkerManager.BuildDone a fails) Hreg) as Hreg'.
    simpl in Hreg'.
    by destruct (WorkerManager.buildDone a fails (workerManager sys)) as [[[]|e] wm].
  - unfold startupDone. destruct (tasks sys !! k) as [[| |run a| |]|]; try done.
    pose proof (registered_apply _ (WorkerManager.StartDone a) Hreg) as Hreg'.
    simpl in Hreg'.
    destruct (WorkerManager.heap _ !! a) as [w|]; [|done].
    by rewrite workerManager_continueWait.
  - unfold pollTick. destruct (tasks sys !! k) as [[| | |run a started|]|]; try done.
    destruct (WorkerManager.heap _ !! a) as [w|]; [|done].
    by rewrite workerManager_continueWait.
  - unfold deleteRun. destruct (get k (runStore sys)) as [run|]; [|done]. simpl.
    destruct (workerId run) as [wid|]; [|done].
    destruct (truthy_str wid); [|done].
    apply (registered_apply (workerManager sys) (WorkerManager.Stop wid) Hreg).
Qed.

Lemma serving_post (j path name : string) (size : Z) (now : Clock) (sys : Sys) :
  serving sys -> serving (post j path name size now sys).
Proof.
  intros Hs. pose proof (step_store sys (Post j path name size now)) as Hst.
  simpl in Hst. revert Hst. unfold post.
  destruct (tasks sys !! j) eqn:Ht; [done|]. intros Hst.
  apply (serving_frame sys _ j); [done|..].
  - intros k Hk. cbn [tasks setTask updateRun setRuns]. by rewrite lookup_insert_ne.
  - intros k Hk. rewrite Hst. by rewrite lookup_insert_ne.
  - apply frame_refl.
  - split.
    + intros t. cbn [tasks setTask updateRun setRuns]. rewrite lookup_insert_eq.
      intros [= <-]. split; [done|]. intros a [=].
    + intros run. rewrite Hst, lookup_insert_eq. intros [= <-].
      split; [intros wid [=]|intros [=]].
Qed.

Lemma serving_failRun (j : string) (run : Run) (e : Error) (now : Clock)
    (sys sys0 : Sys) :
  serving sys -> id run = j ->
  tasks sys0 = tasks sys -> runStore sys0 = runStore sys ->
  frame j (workerManager sys) (workerManager sys0) ->
  serving (failRun run e now sys0).
Proof.
  intros Hs Hid Ht Hr Hf. apply (serving_frame sys _ j); [done|..].
  - intros k Hk. rewrite tasks_failRun, Ht, Hid. by rewrite lookup_insert_ne.
  - intros k Hk. rewrite runStore_failRun, Hr, Hid. by rewrite decide_False.
  - done.
  - split.
    + intros t. rewrite tasks_failRun, Hid, lookup_insert_eq. intros [= <-].
      split; [done|]. intros a [=].
    + intros run'. rewrite runStore_failRun, Hr, Hid, decide_True by done.
      destruct (runStore sys !! j) as [r|] eqn:Hrj; [|discriminate].
      intros [= <-]. split; [|discriminate].
      intros wid. simpl. by apply (proj2 (Hs j) r Hrj).
Qed.

Lemma serving_extractDone (j : string) (env : ZipProcessor.Env) (now : Clock) (sys : Sys) :
  consistent sys -> serving sys -> serving (extractDone j env now sys).
Proof.
  intros Hc Hs. unfold extractDone.
  destruct (tasks sys !! j) as [[run| | | |]|] eqn:Ht; try done.
  assert (Hid : id run = j) by (destruct Hc as [Hid _]; by apply (Hid _ _ _ Ht)).
  destruct (ZipProcessor.extract env _ (id run) (zipProcessor sys)) as [[info|e] zp].
  - cbn [WorkerManager.startBegin workerManager updateRun setRuns setZip].
    apply (serving_frame sys _ j); [done|..].
    + intros k Hk. cbn [tasks setTask setWorkers setRuns setZip].
      by rewrite lookup_insert_ne.
    + intros k Hk. cbn [runStore setTask setWorkers setRuns].
      rewrite runStore_updateRun, Hid, decide_False by done. done.
    + exact (frame_startBegin j
               (WorkerManager.mkOptions (id run) (ZipProcessor.extractPath info)
                  (ZipProcessor.type info) (ZipProcessor.buildCommand info)
                  (ZipProcessor.startCommand info))
               (ms now) (workerManager sys) Hid).
    + split.
      * intros t. cbn [tasks setTask setWorkers setRuns setZip].
        rewrite lookup_insert_eq. intros [= <-]. split; [done|].
        intros a [= <-]. cbn [workerManager setTask setWorkers WorkerManager.heap
                              WorkerManager.workers].
        split.
        -- rewrite lookup_app_r, Nat.sub_diag by done. eexists. split; [reflexivity|].
           exact Hid.
        -- intros _. cbn [WorkerManager.id WorkerManager.setStartTime
                          WorkerManager.setStatus WorkerManager.o_runId].
           rewrite Hid. apply lookup_insert_eq.
      * intros run'. cbn [runStore setTask setWorkers setRuns].
        rewrite runStore_updateRun, Hid, decide_True by done. cbn [runStore setZip].
        destruct (runStore sys !! j) as [r|] eqn:Hrj; [|discriminate].
        intros [= <-]. split; [|discriminate].
        intros wid. simpl. by apply (proj2 (Hs j) r Hrj).
  - apply (serving_failRun j run e now sys); try done. apply frame_refl.
Qed.

Lemma serving_buildDone (j : string) (fails : bool) (now : Clock) (sys : Sys) :
  consistent sys -> registered (workerManager sys) -> serving sys ->
  serving (buildDone j fails now sys).
Proof.
  intros Hc [_ Hname] Hs. unfold buildDone.
  destruct (tasks sys !! j) as [[|run a| | |]|] eqn:Ht; try done.
  assert (Hid : id run = j) by (destruct Hc as [Hid _]; by apply (Hid _ _ _ Ht)).
  destruct (proj1 (Hs j) _ Ht) as [_ Hwork].
  destruct (Hwork a eq_refl) as [(w0 & Hw0 & Hj) Hreg].
  assert (Hname0 : WorkerManager.id w0 = "worker-" +:+ j)
    by (rewrite <- Hj; by apply (Hname a)).
  pose proof (frame_buildDone j a fails (workerManager sys) w0 Hw0 Hj Hname0) as Hf.
  destruct fails.
  - cbn [WorkerManager.buildDone]. cbn [WorkerManager.buildDone snd] in Hf.
    by apply (serving_failRun j run _ now sys).
  - cbn [WorkerManager.buildDone].
    apply (serving_frame sys _ j); [done|..].
    + intros k Hk. cbn [tasks setTask setWorkers]. by rewrite lookup_insert_ne.
    + done.
    + apply frame_refl.
    + split.
      * intros t. cbn [tasks setTask setWorkers]. rewrite lookup_insert_eq.
        intros [= <-]. split; [done|]. intros a' [= <-]. split; [eauto|exact Hreg].
      * exact (proj2 (Hs j)).
Qed.

Lemma serving_startupDone (j : string) (now : Clock) (sys : Sys) :
  consistent sys -> registered (workerManager sys) -> serving sys ->
  serving (startupDone j now sys).
Proof.
  intros Hc [_ Hname] Hs. unfold startupDone.
  destruct (tasks sys !! j) as [[| |run a| |]|] eqn:Ht; try done.
  assert (Hid : id run = j) by (destruct Hc as [Hid _]; by apply (Hid _ _ _ Ht)).
  destruct (proj1 (Hs j) _ Ht) as [_ Hwork].
  destruct (Hwork a eq_refl) as [(w0 & Hw0 & Hj) Hreg].
  assert (Hname0 : WorkerManager.id w0 = "worker-" +:+ j)
    by (rewrite <- Hj; by apply (Hname a)).
  cbn [workerManager setWorkers WorkerManager.startDone WorkerManager.modify
       WorkerManager.heap].
  rewrite list_lookup_alter_eq, Hw0. cbn [fmap option_fmap option_map].
  unfold continueWait, WorkerManager.checkReady.
  cbn [WorkerManager.status WorkerManager.setStatus]. rewrite String.eqb_refl.
  assert (Hf : frame j (workerManager sys)
                 (WorkerManager.startDone a (workerManager sys)))
    by by apply (frame_modify j a _ _ w0).
  apply (serving_frame sys _ j); [done|..].
  - intros k Hk. cbn [tasks setTask updateRun setRuns setWorkers]. rewrite Hid.
    by rewrite lookup_insert_ne.
  - intros k Hk. rewrite runStore_setTask, !runStore_updateRun, Hid.
    by rewrite !decide_False by done.
  - exact Hf.
  - split.
    + intros t. cbn [tasks setTask updateRun setRuns setWorkers].
      rewrite Hid, lookup_insert_eq. intros [= <-]. split; [done|]. intros a' [=].
    + intros run'. rewrite runStore_setTask, !runStore_updateRun, Hid.
      rewrite !decide_True by done. cbn [runStore setWorkers].
      destruct (runStore sys !! j) as [r|] eqn:Hrj; [|discriminate].
      intros [= <-]. split.
      * intros wid. simpl. intros [= <-]. exact Hname0.
      * intros _. exists a, (WorkerManager.setStatus "running"
                               (WorkerManager.setTimer true w0)).
        cbn [workerManager setTask updateRun setRuns setWorkers].
        split; [apply Hreg; by eexists|].
        split. { simpl. by rewrite list_lookup_alter_eq, Hw0. }
        split; [exact Hj|]. split; [reflexivity|]. simpl.
        by rewrite Hname0.
Qed.

Lemma serving_pollTick (j : string) (now : Clock) (sys : Sys) :
  serving sys -> serving (pollTick j now sys).
Proof.
  intros Hs. unfold pollTick.
  destruct (tasks sys !! j) as [[| | |run a started|]|] eqn:Ht; try done.
  by destruct (proj1 (Hs j) _ Ht) as [? _].
Qed.

Lemma serving_deleteRun (j : string) (env : ZipProcessor.Env) (sys : Sys) :
  registered (workerManager sys) -> serving sys ->
  serving (snd (deleteRun j env sys)).
Proof.
  intros Hreg Hs. unfold deleteRun, get.
  destruct (runStore sys !! j) as [run|] eqn:Hr; [|done]. cbn [snd].
  match goal with
  | |- serving (setZip _ (setRuns _ ?s)) => set (sysW := s)
  end.
  assert (HW : tasks sysW = tasks sys /\ runStore sysW = runStore sys /\
               frame j (workerManager sys) (workerManager sysW)).
  { subst sysW. destruct (workerId run) as [wid|] eqn:Hwid.
    - destruct (truthy_str wid).
      + split; [done|]. split; [done|].
        rewrite (proj1 (proj2 (Hs j) run Hr) wid Hwid). by apply frame_stop.
      + split; [done|]. split; [done|]. apply frame_refl.
    - split; [done|]. split; [done|]. apply frame_refl. }
  destruct HW as (HWt & HWr & HWf).
  apply (serving_frame sys _ j); [done|..].
  - intros k Hk. cbn [tasks setZip setRuns]. by rewrite HWt.
  - intros k Hk. cbn [runStore setZip setRuns delete snd]. rewrite HWr.
    by rewrite lookup_delete_ne.
  - exact HWf.
  - split.
    + intros t. cbn [tasks setZip setRuns workerManager runStore delete snd].
      rewrite HWt. intros Ht. destruct (proj1 (Hs j) _ Ht) as [Hw Hwork].
      split; [done|]. intros a Ha. destruct (Hwork a Ha) as [(w & Hw0 & Hj) _].
      split.
      * destruct HWf as (_ & _ & F3). destruct (F3 _ _ Hw0) as (w' & Hw' & Hj').
        exists w'. split; [done|congruence].
      * rewrite lookup_delete_eq. by intros [? ?].
    + intros run'. cbn [runStore setZip setRuns delete snd].
      by rewrite lookup_delete_eq.
Qed.

Lemma serving_reachable (sys : Sys) :
  reachable sys -> serving sys /\ registered (workerManager sys).
Proof.
  induction 1 as [fs|sys ev Hreach [IHs IHr]].
  - split; [apply serving_init|apply registered_init].
  - split; [|by apply registered_step].
    pose proof (consistent_reachable sys Hreach) as Hc.
    destruct ev; simpl.
    + by apply serving_post.
    + by apply serving_extractDone.
    + by apply serving_buildDone.
    + by apply serving_startupDone.
    + by apply serving_pollTick.
    + by apply serving_deleteRun.
Qed.

End ServingFacts.

(** X29.  In every state the server can reach, a stored run that is
    [ready] has its worker: the manager holds a worker under
    [worker-<id>], that worker belongs to the run and is [running], the
    run records its id and its port, and the preview URL of the run is
    [/preview/<id>]. *)
Theorem ready_runs_are_served (sys : Runs.Sys) (k : string) (run : RunStore.Run) :
  Runs.reachable sys ->
  Runs.runStore sys !! k = Some run ->
  RunStore.status run = "ready" ->
  exists w,
    WorkerManager.get ("worker-" +:+ k) (Runs.workerManager sys) = Some w /\
    WorkerManager.id w = "worker-" +:+ k /\
    WorkerManager.runId w = k /\
    WorkerManager.status w = "running" /\
    RunStore.workerId run = Some ("worker-" +:+ k) /\
    RunStore.workerPort run = Some (WorkerManager.port w) /\
    RunStore.previewUrl run = Some ("/preview/" +:+ k).
Proof.
  intros Hreach Hrun Hst.
  destruct (serving_reachable sys Hreach) as [Hs [_ Hname]].
  destruct (proj2 (Hs k) run Hrun) as [_ Hserved].
  destruct (Hserved Hst) as (a & w & Ha & Hw & Hk & Hrest).
  exists w. split; [unfold WorkerManager.get; by rewrite Ha|].
  split; [|by split]. rewrite (Hname a w Hw). by rewrite Hk.
Qed.

Lemma ready_runs_are_served_witness :
  exists w,
    WorkerManager.get ("worker-" +:+ "r1")
      (Runs.workerManager (Runs.run_events (Runs.init ∅) readyTrace)) = Some w /\
    WorkerManager.status w = "running".
Proof.
  destruct (ready_runs_are_served (Runs.run_events (Runs.init ∅) readyTrace) "r1" _
              (reachable_run_events _ _ (Runs.reach_init ∅)) ready_run_record eq_refl)
    as (w & Hw & _ & _ & Hst & _).
  exists w. split; [exact Hw|exact Hst].
Defined.

(** X30.  The loop of [waitUntilReady] never waits in [processRun]: in no
    state the server can reach is a call of [processRun] suspended in that
    loop, since the worker [workerManager.start] returns is already
    [running]; a pass of the loop is therefore never taken. *)
Theorem readiness_loop_never_waits (sys : Runs.Sys) :
  Runs.reachable sys ->
  (forall k run a startedMs,
     Runs.tasks sys !! k <> Some (Runs.AwaitReady run a startedMs)) /\
  (forall k now, Runs.step sys (Runs.PollTick k now) = sys).
Proof.
  intros Hreach. destruct (serving_reachable sys Hreach) as [Hs _].
  assert (Hnever : forall k run a startedMs,
             Runs.tasks sys !! k <> Some (Runs.AwaitReady run a startedMs)).
  { intros k run a startedMs Ht. by destruct (proj1 (Hs k) _ Ht) as [? _]. }
  split; [exact Hnever|].
  intros k now. simpl. unfold Runs.pollTick.
  destruct (Runs.tasks sys !! k) as [[| | |run a startedMs|]|] eqn:Ht; try done.
  by destruct (Hnever k run a startedMs).
Qed.

Lemma readiness_loop_never_waits_witness :
  Runs.step (Runs.run_events (Runs.init ∅) readyTrace) (Runs.PollTick "r1" (at_ 7))
  = Runs.run_events (Runs.init ∅) readyTrace.
Proof.
  apply (proj2 (readiness_loop_never_waits (Runs.run_events (Runs.init ∅) readyTrace)
                  (reachable_run_events _ _ (Runs.reach_init ∅)))).
Defined.

(** ** The preview gateway in the server *)

Section PreviewWiring.

Import RunStore.

(** Nothing the server is given writes the services of [routes/preview.js]. *)
Lemma preview_services_untouched (st : Server.State) :
  Server.reachable st ->
  Server.previewRuns st = ∅ /\ Server.previewWorkers st = WorkerManager.init.
Proof. induction 1 as [fs|st input _ IH]; [done|]. by destruct input. Qed.

Lemma orchestrator_reachable (st : Server.State) :
  Server.reachable st -> Runs.reachable (Server.orchestrator st).
Proof.
  induction 1 as [fs|st input _ IH]; [constructor|].
  destruct input; [by constructor|done].
Qed.

Lemma reachable_run_inputs (st : Server.State) (inputs : list Server.Input) :
  Server.reachable st -> Server.reachable (Server.run_inputs st inputs).
Proof.
  revert st. induction inputs as [|input inputs IH]; intros st H; [exact H|].
  apply IH. by constructor.
Qed.

(** So the route finds no run, whatever the orchestrator holds. *)
Lemma preview_not_found (st : Server.State) (runId requestPath : string) :
  Server.reachable st ->
  Server.preview st runId requestPath
  = Preview.mkResponse 404 Server.previewMiddleware WorkerManager.NotFoundPage.
Proof.
  intros Hreach. destruct (preview_services_untouched st Hreach) as [Hruns _].
  unfold Server.preview, Preview.handler, get. by rewrite Hruns, lookup_empty.
Qed.

(** Given the services of [routes/runs.js], the handler serves every ready
    run from its worker. *)
Lemma handler_serves_ready (sys : Runs.Sys) (k requestPath : string) (run : Run) :
  Runs.reachable sys ->
  Runs.runStore sys !! k = Some run -> status run = "ready" ->
  Preview.code (Preview.handler (Runs.runStore sys) (Runs.workerManager sys) k requestPath)
  = 200.
Proof.
  intros Hreach Hrun Hst.
  destruct (serving_reachable sys Hreach) as [Hs _].
  destruct (proj2 (Hs k) run Hrun) as [_ Hserved].
  destruct (Hserved Hst) as (a & w & Ha & Hw & _ & Hrunning & Hwid & _).
  rewrite (handler_ready _ _ _ _ _ Hrun Hst).
  unfold Preview.contentFor. rewrite Hwid. cbn [truthy_str String.append String.eqb negb].
  unfold WorkerManager.get. rewrite Ha. cbn [mbind option_bind]. rewrite Hw.
  unfold WorkerManager.getContent. by rewrite Hrunning.
Qed.

End PreviewWiring.

(** C8.  In the server the preview of a ready run carries no
    [Content-Security-Policy]: in every state the server can reach and for
    every run that is stored and [ready], whatever its project type, the
    preview route answers 404 with the not-found page and no policy,
    because it looks the run up in the store of its own module, which
    nothing writes.  The handler itself attempts what the claim says:
    given the services of [routes/runs.js] it answers 200 with the relaxed
    profile for [react], [vue] and [angular] and the strict one for every
    other type. *)
Theorem ready_run_preview_without_csp
    (st : Server.State) (k requestPath : string) (run : RunStore.Run) :
  Server.reachable st ->
  Runs.runStore (Server.orchestrator st) !! k = Some run ->
  RunStore.status run = "ready" ->
  let answer := Server.preview st k requestPath in
  let attempted :=
    Preview.handler (Runs.runStore (Server.orchestrator st))
      (Runs.workerManager (Server.orchestrator st)) k requestPath in
  Preview.code answer = 404 /\
  Preview.body answer = WorkerManager.NotFoundPage /\
  Preview.header "Content-Security-Policy" answer = None /\
  Preview.code attempted = 200 /\
  Preview.header "Content-Security-Policy" attempted
  = Some (if bool_decide (RunStore.projectType run
                            ∈ [Some "react"; Some "vue"; Some "angular"])
          then Config.csp_relaxed else Config.csp_strict).
Proof.
  intros Hreach Hrun Hst answer attempted. subst answer attempted.
  rewrite (preview_not_found st k requestPath Hreach).
  split; [done|]. split; [done|]. split; [done|].
  pose proof (handler_serves_ready (Server.orchestrator st) k requestPath run
                (orchestrator_reachable st Hreach) Hrun Hst) as Hcode.
  split; [exact Hcode|]. by apply handler_csp_by_type.
Qed.

Lemma ready_run_preview_without_csp_witness :
  let answer := Server.preview servedState "r1" "index.html" in
  let attempted :=
    Preview.handler (Runs.runStore (Server.orchestrator servedState))
      (Runs.workerManager (Server.orchestrator servedState)) "r1" "index.html" in
  Preview.code answer = 404 /\
  Preview.body answer = WorkerManager.NotFoundPage /\
  Preview.header "Content-Security-Policy" answer = None /\
  Preview.code attempted = 200 /\
  Preview.header "Content-Security-Policy" attempted = Some Config.csp_relaxed.
Proof.
  apply (ready_run_preview_without_csp servedState "r1" "index.html"
           (RunStore.mkRun "r1" "ready" "2024-01-01T00:00:00.000Z"
              (Some "temp/upload-react") (Some "site.zip") (Some 2048%Z)
              (Some "2024-01-01T00:00:05.000Z") (Some "react") (Some reactInfo)
              (Some "worker-r1") (Some 8000%Z) (Some "/preview/r1")
              (Some "2024-01-01T00:00:05.000Z") None None)).
  - apply reachable_run_inputs. constructor.
  - vm_compute. reflexivity.
  - reflexivity.
Defined.

(** C10.  In the server a ready run is not served the fallback content:
    in every state the server can reach, every worker is unknown to the
    manager the preview route asks, yet for every run that is stored and
    [ready] the route answers 404 with the not-found page and no content
    type, not the fallback content, because it looks the run up in the
    store of its own module.  The handler itself attempts what the claim
    says: given the store of [routes/runs.js] and that manager it answers
    200 with the fallback content, the security headers and the content
    type derived from the path. *)
Theorem ready_run_preview_not_found
    (st : Server.State) (k requestPath : string) (run : RunStore.Run) :
  Server.reachable st ->
  Runs.runStore (Server.orchestrator st) !! k = Some run ->
  RunStore.status run = "ready" ->
  let answer := Server.preview st k requestPath in
  let attempted :=
    Preview.handler (Runs.runStore (Server.orchestrator st)) (Server.previewWorkers st)
      k requestPath in
  (forall wid, WorkerManager.get wid (Server.previewWorkers st) = None) /\
  Preview.code answer = 404 /\
  Preview.body answer = WorkerManager.NotFoundPage /\
  Preview.body answer <> Preview.generateFallbackContent requestPath run /\
  Preview.header "Content-Type" answer = None /\
  Preview.code attempted = 200 /\
  Preview.body attempted = Preview.generateFallbackContent requestPath run /\
  Preview.headers attempted
  = (Preview.securityHeaders (RunStore.projectType run)
     ++ [("Content-Type", Preview.getContentType requestPath)])%list.
Proof.
  intros Hreach Hrun Hst answer attempted. subst answer attempted.
  destruct (preview_services_untouched st Hreach) as [_ Hwm].
  assert (Hunknown : forall wid, WorkerManager.get wid (Server.previewWorkers st) = None).
  { intros wid. rewrite Hwm. unfold WorkerManager.get. simpl. by rewrite lookup_empty. }
  split; [exact Hunknown|].
  rewrite (preview_not_found st k requestPath Hreach).
  split; [done|]. split; [done|]. split.
  { simpl. unfold Preview.generateFallbackContent.
    destruct (_ || _); [done|]. destruct (endsWith ".js" requestPath); [done|].
    by destruct (endsWith ".css" requestPath). }
  split; [done|].
  destruct (handler_falls_back (Runs.runStore (Server.orchestrator st))
              (Server.previewWorkers st) k requestPath run Hrun Hst)
    as (Hcode & Hbody & _ & Hheaders & _).
  - destruct (RunStore.workerId run) as [wid|]; [|done]. right. apply Hunknown.
  - by repeat split.
Qed.

Lemma ready_run_preview_not_found_witness :
  Preview.code (Server.preview servedState "r1" "app.js") = 404 /\
  Preview.body (Server.preview servedState "r1" "app.js") = WorkerManager.NotFoundPage /\
  Preview.body
    (Preview.handler (Runs.runStore (Server.orchestrator servedState))
       (Server.previewWorkers servedState) "r1" "app.js")
  = WorkerManager.FallbackScript "app.js" "r1".
Proof.
  destruct (ready_run_preview_not_found servedState "r1" "app.js"
              (RunStore.mkRun "r1" "ready" "2024-01-01T00:00:00.000Z"
                 (Some "temp/upload-react") (Some "site.zip") (Some 2048%Z)
                 (Some "2024-01-01T00:00:05.000Z") (Some "react") (Some reactInfo)
                 (Some "worker-r1") (Some 8000%Z) (Some "/preview/r1")
                 (Some "2024-01-01T00:00:05.000Z") None None))
    as (_ & Hcode & Hbody & _ & _ & _ & Hattempt & _).
  - apply reachable_run_inputs. constructor.
  - vm_compute. reflexivity.
  - reflexivity.
  - split; [exact Hcode|]. split; [exact Hbody|]. rewrite Hattempt. reflexivity.
Defined.
